(** * mmqlint: a shallow embedding of the rule engine and its properties

    The development follows the Python sources:
    - [src/mmqlint/core.py]: issue model, chat-schema lint, safe-fix
      transform, render-visibility verifier, dataset checker;
    - [src/mmqlint/profiles.py]: the profile registry;
    - [tests/dataset_checks.py]: the stricter coordinate check.

    Python values decoded from JSON are the inductive type [json]; a
    Python [dict] is an association list in insertion order with
    distinct keys; Python exceptions are the [Raise] branch of [result].
    Python [str] is [string], read as the UTF-8 bytes of the text. *)

From Stdlib Require Import ZArith QArith List Ascii String Bool Lia.
From Stdlib Require Import DecimalString DecimalPos Sorting.Sorted.
From stdpp Require Import base option list strings gmap.

Local Open Scope Z_scope.
Set Warnings "-register-all".

(* ===================================================================== *)
(** * Python strings *)
(* ===================================================================== *)

Module PyStr.

Definition byte_of (c : ascii) : N := N_of_ascii c.

(** One-byte whitespace of [str.strip]: U+0009..U+000D, U+001C..U+001F
    and the space. *)
Definition is_space1 (c : ascii) : bool :=
  let n := byte_of c in
  ((9 <=? n) && (n <=? 13) || (28 <=? n) && (n <=? 32))%N.

(** Two-byte whitespace: U+0085 and U+00A0. *)
Definition is_space2 (a b : ascii) : bool :=
  ((byte_of a =? 194) && ((byte_of b =? 133) || (byte_of b =? 160)))%N.

(** Three-byte whitespace: U+1680, U+2000..U+200A, U+2028, U+2029,
    U+202F, U+205F, U+3000. *)
Definition is_space3 (a b c : ascii) : bool :=
  let x := byte_of a in let y := byte_of b in let z := byte_of c in
  ((x =? 225) && (y =? 154) && (z =? 128)
   || (x =? 226) && (y =? 128)
        && ((128 <=? z) && (z <=? 138) || (z =? 168) || (z =? 169) || (z =? 175))
   || (x =? 226) && (y =? 129) && (z =? 159)
   || (x =? 227) && (y =? 128) && (z =? 128))%N.

(** [str.lstrip()]: drop leading whitespace code points. *)
Fixpoint lstrip (s : string) : string :=
  match s with
  | EmptyString => EmptyString
  | String a r =>
      if is_space1 a then lstrip r
      else match r with
           | String b r1 =>
               if is_space2 a b then lstrip r1
               else match r1 with
                    | String c r2 => if is_space3 a b c then lstrip r2 else s
                    | EmptyString => s
                    end
           | EmptyString => s
           end
  end.

(** The same scan on the reversed text, where the bytes of a code point
    come last byte first. *)
Fixpoint lstrip_rev (s : string) : string :=
  match s with
  | EmptyString => EmptyString
  | String c r =>
      if is_space1 c then lstrip_rev r
      else match r with
           | String b r1 =>
               if is_space2 b c then lstrip_rev r1
               else match r1 with
                    | String a r2 => if is_space3 a b c then lstrip_rev r2 else s
                    | EmptyString => s
                    end
           | EmptyString => s
           end
  end.

(** [str.rstrip()] and [str.strip()]. *)
Definition rstrip (s : string) : string := String.rev (lstrip_rev (String.rev s)).
Definition strip (s : string) : string := rstrip (lstrip s).

(** [not s] on a string. *)
Definition is_empty (s : string) : bool :=
  match s with EmptyString => true | _ => false end.

(** [s.rstrip("\n")]: drop every trailing line feed. *)
Fixpoint drop_lf (s : string) : string :=
  match s with
  | String c r => if (byte_of c =? 10)%N then drop_lf r else s
  | EmptyString => EmptyString
  end.
Definition rstrip_lf (s : string) : string := String.rev (drop_lf (String.rev s)).

(** [str.lower()] on the ASCII letters. No non-ASCII text lowers to one of
    the ASCII words this program compares with. *)
Definition lower_ascii (c : ascii) : ascii :=
  let n := byte_of c in
  if ((65 <=? n) && (n <=? 90))%N then ascii_of_N (n + 32) else c.
Fixpoint lower (s : string) : string :=
  match s with
  | EmptyString => EmptyString
  | String c r => String (lower_ascii c) (lower r)
  end.

(** [sep.join(parts)]. *)
Fixpoint join (sep : string) (parts : list string) : string :=
  match parts with
  | [] => ""
  | [p] => p
  | p :: rest => p +:+ sep +:+ join sep rest
  end.

(** [needle in hay]. *)
Fixpoint is_prefix (p s : string) : bool :=
  match p, s with
  | EmptyString, _ => true
  | String a p', String b s' => if Ascii.eqb a b then is_prefix p' s' else false
  | String _ _, EmptyString => false
  end.
Fixpoint contains (needle hay : string) : bool :=
  is_prefix needle hay
  || match hay with
     | EmptyString => false
     | String _ hay' => contains needle hay'
     end.

(** [s.endswith(suffix)]. *)
Definition endswith (s suffix : string) : bool :=
  is_prefix (String.rev suffix) (String.rev s).

(** [str(n)] for a Python [int]. *)
Definition of_nat (n : nat) : string := NilZero.string_of_uint (Nat.to_uint n).
Definition of_Z (z : Z) : string := NilZero.string_of_int (Z.to_int z).

End PyStr.

(* ===================================================================== *)
(** * Exceptions *)
(* ===================================================================== *)

Inductive exn : Type :=
| AttributeError
| TypeError
| AssertionError
| ValueError (msg : string)
| RuntimeError (msg : string)
| OtherError (msg : string).

Inductive result (A : Type) : Type :=
| Ok (a : A)
| Raise (e : exn).
Arguments Ok {A} a.
Arguments Raise {A} e.

(** [result] is a monad in stdpp's sense: [x ← r; k] runs [r] and, unless it
    raised, continues with [k]. *)
Global Instance result_ret : MRet result := fun A a => Ok a.
Global Instance result_bind : MBind result := fun A B k r =>
  match r with
  | Ok a => k a
  | Raise e => Raise e
  end.

(** A [for] loop whose body may raise and which extends a list. *)
Fixpoint concat_results {A B} (f : A -> result (list B)) (l : list A)
  : result (list B) :=
  match l with
  | [] => Ok []
  | a :: l' =>
      here ← f a;
      rest ← concat_results f l';
      Ok (here ++ rest)
  end.

(* ===================================================================== *)
(** * Values decoded from JSON *)
(* ===================================================================== *)

(** The values [json.loads] returns. Numbers with a fraction or an exponent
    (Python floats) are left out: the checks and the transform pass numbers
    along and never compute with them. *)
Inductive json : Type :=
| JNull
| JBool (b : bool)
| JInt (n : Z)
| JStr (s : string)
| JList (items : list json)
| JDict (fields : list (string * json)).

Module Dict.

(** [d.get(k)], as an option. *)
Fixpoint lookup {V} (k : string) (d : list (string * V)) : option V :=
  match d with
  | [] => None
  | (k', v) :: d' => if String.eqb k k' then Some v else lookup k d'
  end.

(** [k in d]. *)
Definition mem {V} (k : string) (d : list (string * V)) : bool :=
  match lookup k d with Some _ => true | None => false end.

(** [d[k] = v]: replace in place, or append a new key at the end. *)
Fixpoint set {V} (k : string) (v : V) (d : list (string * V))
  : list (string * V) :=
  match d with
  | [] => [(k, v)]
  | (k', v') :: d' =>
      if String.eqb k k' then (k', v) :: d' else (k', v') :: set k v d'
  end.

Definition keys {V} (d : list (string * V)) : list string := map fst d.

End Dict.

(** [d.get(k)] on a decoded object, [None] when the key is absent. *)
Definition get (k : string) (d : list (string * json)) : json :=
  match Dict.lookup k d with Some v => v | None => JNull end.

(** [d.get(k, default)]. *)
Definition get_or (k : string) (default : json) (d : list (string * json)) : json :=
  match Dict.lookup k d with Some v => v | None => default end.

(** Truth value of a decoded value ([if v:], [v or w], [not v]). *)
Definition truthy (v : json) : bool :=
  match v with
  | JNull => false
  | JBool b => b
  | JInt n => negb (n =? 0)
  | JStr s => negb (PyStr.is_empty s)
  | JList l => match l with [] => false | _ => true end
  | JDict d => match d with [] => false | _ => true end
  end.

(** [v == s] for a string literal [s]. *)
Definition eq_str (v : json) (s : string) : bool :=
  match v with JStr t => String.eqb t s | _ => false end.

(** [hash(v)] succeeds: lists and dicts are unhashable. *)
Definition hashable (v : json) : bool :=
  match v with JList _ | JDict _ => false | _ => true end.

(** [type(v) is str], [list], [dict]. *)
Definition is_str (v : json) : bool := match v with JStr _ => true | _ => false end.
Definition is_list (v : json) : bool := match v with JList _ => true | _ => false end.
Definition is_dict (v : json) : bool := match v with JDict _ => true | _ => false end.

(** Python's [str(v)] and [repr(v)] on a decoded value. The interpreter
    provides them; the program only splices their result into sample ids
    and messages. *)
Class PyBuiltins : Type := {
  py_str : json -> string;
  py_repr : json -> string;
  py_str_of_str : forall s, py_str (JStr s) = s
}.

(** [enumerate(l, start)]. *)
Fixpoint enumerate {A} (start : nat) (l : list A) : list (nat * A) :=
  match l with
  | [] => []
  | a :: l' => (start, a) :: enumerate (S start) l'
  end.

(* ===================================================================== *)
(** * core.py: issue model and severity policy *)
(* ===================================================================== *)

Record Issue : Type := mkIssue {
  level : string;
  code : string;
  line : nat;
  sample_id : string;
  path : string;
  message : string
}.

Definition _LEVEL_ORDER (lvl : string) : option nat :=
  if String.eqb lvl "INFO" then Some 0%nat
  else if String.eqb lvl "WARN" then Some 1%nat
  else if String.eqb lvl "ERROR" then Some 2%nat
  else None.

Definition _issue (lvl code : string) (line : nat) (sample_id path message : string)
  : Issue :=
  let lvl := match _LEVEL_ORDER lvl with Some _ => lvl | None => "ERROR" end in
  mkIssue lvl code line sample_id path message.

(** [f"line_{n}"], the synthetic sample id. *)
Definition line_id (n : nat) : string := "line_" +:+ PyStr.of_nat n.

(* ===================================================================== *)
(** * profiles.py: the profile record *)
(* ===================================================================== *)

(** The dataclass does not check the types of its fields: an override file
    may put any decoded value there, and every use goes through Python's
    truth value or equality. *)
Record Profile : Type := mkProfile {
  name : string;
  require_system : json;
  system_visible : json;
  fold_system_into_user : json;
  system_invisible_level : json
}.

(* ===================================================================== *)
(** * core.py: JSONL chat schema lint *)
(* ===================================================================== *)

Definition _ALLOWED_ROLES : list string := ["system"; "user"; "assistant"; "tool"].

Definition _is_blank_text (x : json) : bool :=
  match x with
  | JStr s => PyStr.is_empty (PyStr.strip s)
  | _ => false
  end.

(** The text of one typed item, when it is a text item. *)
Definition text_item (it : json) : option string :=
  match it with
  | JDict d =>
      if eq_str (get "type" d) "text"
      then match get "text" d with JStr t => Some t | _ => None end
      else None
  | _ => None
  end.

Definition _typed_text_of_content (content : json) : string :=
  match content with
  | JStr s => s
  | JDict _ => match text_item content with Some t => t | None => "" end
  | JList items => PyStr.join (String (ascii_of_N 10) "") (omap text_item items)
  | _ => ""
  end.

Section Lint.
Context {builtins : PyBuiltins}.
Variables (line_no : nat) (sample_id : string).

Definition schema_mismatch (path msg : string) : Issue :=
  _issue "ERROR" "E003_SCHEMA_MISMATCH" line_no sample_id path msg.

(** Body of the loop over the typed items of one message (strict mode). *)
Definition check_item (base : string) (entry : nat * json) : list Issue :=
  let '(ci, it) := entry in
  let p := base +:+ ".content[" +:+ PyStr.of_nat ci +:+ "]" in
  match it with
  | JDict d =>
      let t := get "type" d in
      if negb (truthy t) then
        [schema_mismatch p "Typed content item missing key `type`."]
      else if eq_str t "text" then
        if is_str (get "text" d) then []
        else [_issue "ERROR" "E012_BAD_FIELD_TYPE" line_no sample_id (p +:+ ".text")
                "type='text' field 'text' must be str."]
      else if eq_str t "image" then
        if Dict.mem "image" d then []
        else [_issue "ERROR" "E011_MISSING_TYPE_FIELDS" line_no sample_id p
                "type='image' missing required fields: ['image']"]
      else []
  | _ => [schema_mismatch p "Typed content item must be an object."]
  end.

(** Body of the loop over the messages. The membership test
    [role not in _ALLOWED_ROLES] hashes [role], which raises on a list or
    a dict. *)
Definition check_message (strict_typed : bool) (entry : nat * json)
  : result (list Issue) :=
  let '(mi, m) := entry in
  let base := "messages[" +:+ PyStr.of_nat mi +:+ "]" in
  match m with
  | JDict d =>
      let role := get "role" d in
      if negb (hashable role) then Raise TypeError else
      let role_issues :=
        if existsb (eq_str role) _ALLOWED_ROLES then []
        else [schema_mismatch (base +:+ ".role")
                ("Invalid role: " +:+ py_repr role +:+ ".")] in
      if negb (Dict.mem "content" d) then
        Ok (role_issues ++
            [schema_mismatch (base +:+ ".content") "Missing required field `content`."])
      else
        let content := get "content" d in
        Ok (role_issues ++
            if strict_typed then
              match content with
              | JList items => concat (map (check_item base) (enumerate 0 items))
              | _ => [schema_mismatch (base +:+ ".content")
                        "With --strict-typed, `content` must be a list of typed items."]
              end
            else if is_str content || is_list content || is_dict content then []
            else [_issue "ERROR" "E012_BAD_FIELD_TYPE" line_no sample_id
                    (base +:+ ".content") "content must be str or typed list/object."])
  | _ => Ok [schema_mismatch base "Each message must be an object."]
  end.

Definition _validate_messages_schema (messages : json) (strict_typed : bool)
  : result (list Issue) :=
  match messages with
  | JList msgs => concat_results (check_message strict_typed) (enumerate 0 msgs)
  | _ => Ok [schema_mismatch "messages" "`messages` must be a list."]
  end.

(** [m.get("role")] on a message: only a dict has [get]. *)
Definition role_of (m : json) : result json :=
  match m with
  | JDict d => Ok (get "role" d)
  | _ => Raise AttributeError
  end.

(** [[m for m in messages if m.get("role") == r]]. *)
Fixpoint with_role (r : string) (messages : list json) : result (list json) :=
  match messages with
  | [] => Ok []
  | m :: rest =>
      role ← role_of m;
      tail ← with_role r rest;
      Ok (if eq_str role r then m :: tail else tail)
  end.

(** [sm.get("content")] on a message already known to be a dict. *)
Definition content_of (m : json) : json :=
  match m with JDict d => get "content" d | _ => JNull end.

Definition system_empty : Issue :=
  _issue "ERROR" "E002_SYSTEM_EMPTY" line_no sample_id "messages"
    "Profile requires a non-empty role='system' message, but system content is empty/blank.".

(** The loop [for sm in sys_msgs: ... break]. *)
Fixpoint first_blank (sys_msgs : list json) : list Issue :=
  match sys_msgs with
  | [] => []
  | sm :: rest =>
      let txt := _typed_text_of_content (content_of sm) in
      if _is_blank_text (JStr txt) then [system_empty] else first_blank rest
  end.

Definition _system_presence_and_nonempty (messages : list json) (profile_obj : Profile)
  : result (list Issue) :=
  if negb (truthy (require_system profile_obj)) then Ok []
  else
    sys_msgs ← with_role "system" messages;
    match sys_msgs with
    | [] => Ok [_issue "ERROR" "E002_SYSTEM_REQUIRED" line_no sample_id "messages"
                  "Profile requires a role='system' message, but none is present."]
    | _ => Ok (first_blank sys_msgs)
    end.

(** [next((i for i, m in enumerate(messages) if m.get("role") == r), None)];
    like [any], the scan stops at the first hit. *)
Fixpoint first_with_role (r : string) (entries : list (nat * json))
  : result (option nat) :=
  match entries with
  | [] => Ok None
  | (i, m) :: rest =>
      role ← role_of m;
      if eq_str role r then Ok (Some i) else first_with_role r rest
  end.

Definition _mode_specific_checks (messages : list json) (mode : string)
  : result (list Issue) :=
  let mode := PyStr.lower (if PyStr.is_empty mode then "train" else mode) in
  found ← first_with_role "assistant" (enumerate 0 messages);
  let has_assistant := match found with Some _ => true | None => false end in
  if String.eqb mode "infer" then
    if has_assistant then
      idx ← first_with_role "assistant" (enumerate 0 messages);
      let path := match idx with
                  | Some i => "messages[" +:+ PyStr.of_nat i +:+ "].role"
                  | None => "messages"
                  end in
      Ok [_issue "ERROR" "E001_INFER_HAS_ASSISTANT" line_no sample_id path
            "Inference sample contains an assistant turn (risk of label leakage / wrong prompt)."]
    else Ok []
  else
    if has_assistant then Ok []
    else Ok [_issue "ERROR" "E001_TRAIN_MISSING_ASSISTANT" line_no sample_id "messages"
               "Train sample contains no assistant turn (no supervision label)."].

End Lint.

(** ** Files and the JSON codec *)

(** Text-mode iteration over a file: ["\r\n"] and ["\r"] read as a line
    feed, and each line keeps its line feed. [cur] is the current line,
    reversed. *)
Fixpoint lines_from (cur : string) (text : string) : list string :=
  match text with
  | EmptyString => if PyStr.is_empty cur then [] else [String.rev cur]
  | String c rest =>
      if (PyStr.byte_of c =? 10)%N then
        String.rev (String c cur) :: lines_from "" rest
      else if (PyStr.byte_of c =? 13)%N then
        String.rev (String (ascii_of_N 10) cur)
          :: lines_from "" match rest with
                           | String c' rest' =>
                               if (PyStr.byte_of c' =? 10)%N then rest' else rest
                           | EmptyString => rest
                           end
      else lines_from (String c cur) rest
  end.
Definition file_lines (text : string) : list string := lines_from "" text.

(** What [json.loads] does with a line: a decoded value, or an exception
    whose text is [text]. *)
Inductive parsed : Type :=
| Parsed (v : json)
| BadJson (text : string).

(** The standard library's [json.loads(line)] and
    [json.dumps(obj, ensure_ascii=False)]. *)
Class JsonCodec : Type := {
  loads : string -> parsed;
  dumps : json -> string
}.

Definition bad_json (line_no : nat) (text : string) : Issue :=
  _issue "ERROR" "E004_BAD_JSON" line_no (line_id line_no) "$" ("Invalid JSON: " +:+ text).

(** [str(obj.get("id", f"line_{line_no}"))]. *)
Definition sample_id_of {builtins : PyBuiltins} (line_no : nat) (d : list (string * json)) : string :=
  py_str (get_or "id" (JStr (line_id line_no)) d).

Section LintFile.
Context {builtins : PyBuiltins} {json_codec : JsonCodec}.
Variables (mode : string) (profile_obj : Profile) (strict_typed : bool).

Definition blocking_code (i : Issue) : bool :=
  existsb (String.eqb (code i))
    ["E003_SCHEMA_MISMATCH"; "E004_BAD_JSON"; "E012_BAD_FIELD_TYPE"].

(** Body of the loop of [lint_jsonl] once the line is decoded to a dict. *)
Definition lint_record (line_no : nat) (obj : list (string * json))
  : result (list Issue) :=
  let sample_id := sample_id_of line_no obj in
  let messages := get "messages" obj in
  sch ← _validate_messages_schema line_no sample_id messages strict_typed;
  if negb (bool_decide (sch = [])) && existsb blocking_code sch
     && negb (is_list messages)
  then Ok sch
  else
    match messages with
    | JList msgs =>
        sp ← _system_presence_and_nonempty line_no sample_id msgs profile_obj;
        ms ← _mode_specific_checks line_no sample_id msgs mode;
        Ok (sch ++ sp ++ ms)
    | _ => Raise AssertionError
    end.

(** Body of the loop of [lint_jsonl]. [obj.get] needs a dict. *)
Definition lint_line (entry : nat * string) : result (list Issue) :=
  let '(line_no, line) := entry in
  let line := PyStr.strip line in
  if PyStr.is_empty line then Ok []
  else
    match loads line with
    | BadJson e => Ok [bad_json line_no e]
    | Parsed (JDict obj) => lint_record line_no obj
    | Parsed _ => Raise AttributeError
    end.

Definition lint_jsonl (text : string) : result (list Issue) :=
  concat_results lint_line (enumerate 1 (file_lines text)).

End LintFile.

(* ===================================================================== *)
(** * core.py: the safe-fix transform *)
(* ===================================================================== *)

Section Fix.
Context {builtins : PyBuiltins} {json_codec : JsonCodec}.
Variables (strict_typed : bool).

Section Record_.
Variables (line_no : nat) (sample_id : string).

Definition fix_role_issue : Issue :=
  _issue "INFO" "I901_FIX_ROLE_USR" line_no sample_id "messages[].role"
    "Fixed role 'usr' -> 'user'.".
Definition fix_type_issue : Issue :=
  _issue "INFO" "I902_FIX_ADD_TYPE_TEXT" line_no sample_id "messages[].content[].type"
    "Added missing type='text' for item with 'text' field.".

(** Rule (b) on one item of a content list. *)
Definition needs_type (it : json) : bool :=
  match it with
  | JDict d => negb (Dict.mem "type" d) && Dict.mem "text" d
  | _ => false
  end.
Definition fix_item (it : json) : json * list Issue :=
  match it with
  | JDict d =>
      if needs_type it then (JDict (Dict.set "type" (JStr "text") d), [fix_type_issue])
      else (it, [])
  | _ => (it, [])
  end.

(** A loop that rewrites the elements of a list in place and logs. *)
Fixpoint fix_all (f : json -> json * list Issue) (l : list json)
  : list json * list Issue :=
  match l with
  | [] => ([], [])
  | x :: rest =>
      let '(x', i1) := f x in
      let '(rest', i2) := fix_all f rest in
      (x' :: rest', i1 ++ i2)
  end.

(** Rules (a) then (b) on one message. *)
Definition needs_role (m : json) : bool :=
  match m with
  | JDict d => eq_str (get "role" d) "usr"
  | _ => false
  end.
Definition fix_message (m : json) : json * list Issue :=
  match m with
  | JDict d =>
      let '(d1, i1) :=
        if needs_role m then (Dict.set "role" (JStr "user") d, [fix_role_issue])
        else (d, []) in
      if strict_typed then
        match get "content" d1 with
        | JList items =>
            let '(items', i2) := fix_all fix_item items in
            (JDict (Dict.set "content" (JList items') d1), i1 ++ i2)
        | _ => (JDict d1, i1)
        end
      else (JDict d1, i1)
  | _ => (m, [])
  end.

Definition fix_record (obj : list (string * json))
  : list (string * json) * list Issue :=
  match get "messages" obj with
  | JList msgs =>
      let '(msgs', iss) := fix_all fix_message msgs in
      (Dict.set "messages" (JList msgs') obj, iss)
  | _ => (obj, [])
  end.
End Record_.

Definition LF : string := String (ascii_of_N 10) "".

(** Body of the loop of [fix_jsonl]: what is written to the output file
    for this line, and the issues logged. *)
Definition fix_line (entry : nat * string) : result (string * list Issue) :=
  let '(line_no, line) := entry in
  let raw := PyStr.rstrip_lf line in
  if PyStr.is_empty (PyStr.strip raw) then Ok ("", [])
  else
    match loads raw with
    | BadJson e => Ok ("", [bad_json line_no e])
    | Parsed (JDict obj) =>
        let '(obj', iss) := fix_record line_no (sample_id_of line_no obj) obj in
        Ok (dumps (JDict obj') +:+ LF, iss)
    | Parsed _ => Raise AttributeError
    end.

(** The loop of [fix_jsonl]: the text written to the output file, and the
    issues logged or the exception that ended the loop. What was written
    before an exception stays in the file. *)
Fixpoint fix_lines (entries : list (nat * string)) : string * result (list Issue) :=
  match entries with
  | [] => ("", Ok [])
  | e :: rest =>
      match fix_line e with
      | Ok (out1, iss1) =>
          let '(out2, later) := fix_lines rest in
          (out1 +:+ out2, iss2 ← later; Ok (iss1 ++ iss2))
      | Raise ex => ("", Raise ex)
      end
  end.

(** [fix_jsonl]: from the text of the input file to the text of the
    output file, and the issue list returned or the exception raised. *)
Definition fix_jsonl (text : string) : string * result (list Issue) :=
  fix_lines (enumerate 1 (file_lines text)).

End Fix.

(* ===================================================================== *)
(** * core.py: verify-system, the render-level check *)
(* ===================================================================== *)

(** What a call of the render plugin does: it returns a prompt (kept as
    [str(prompt)]), raises [TypeError], or raises another [Exception] whose
    text is [text]. *)
Inductive outcome : Type :=
| Returns (prompt : string)
| RaisesTypeError
| RaisesOther (text : string).

(** The plugin's [render], called as [render_fn(messages=..., sample=...)]
    and as [render_fn(messages)]. *)
Record RenderPlugin : Type := {
  call_keywords : list json -> list (string * json) -> outcome;
  call_positional : list json -> outcome
}.

Section Verify.
Context {builtins : PyBuiltins} {json_codec : JsonCodec}.
Variables (profile_obj : Profile) (render_fn : RenderPlugin) (strict_typed : bool).

(** [_issue(level, ...)] with the profile's level, whatever value it holds:
    the lookup [level not in _LEVEL_ORDER] hashes it. *)
Definition not_visible (line_no : nat) (sample_id : string) : result Issue :=
  let mk lvl := _issue lvl "E002_SYSTEM_NOT_VISIBLE" line_no sample_id "messages"
    "System message exists but is not present in the rendered prompt (likely dropped by the pipeline)." in
  match system_invisible_level profile_obj with
  | JStr lvl => Ok (mk lvl)
  | JList _ | JDict _ => Raise TypeError
  | _ => Ok (mk "ERROR")
  end.

(** The containment check on a rendered prompt. *)
Definition check_visible (line_no : nat) (sample_id sys_text prompt : string)
  : result (list Issue) :=
  let needle := PyStr.strip sys_text in
  if negb (PyStr.is_empty needle) && negb (PyStr.contains needle prompt) then
    i ← not_visible line_no sample_id; Ok [i]
  else Ok [].

(** The [try] statement around the render call. An exception raised by the
    call in the [except TypeError] handler is not handled by the
    [except Exception] clause next to it. *)
Definition render_and_check (line_no : nat) (sample_id sys_text : string)
    (messages : list json) (obj : list (string * json)) : result (list Issue) :=
  match call_keywords render_fn messages obj with
  | Returns prompt => check_visible line_no sample_id sys_text prompt
  | RaisesTypeError =>
      match call_positional render_fn messages with
      | Returns prompt => check_visible line_no sample_id sys_text prompt
      | RaisesTypeError => Raise TypeError
      | RaisesOther text => Raise (OtherError text)
      end
  | RaisesOther text =>
      Ok [_issue "ERROR" "E901_RENDER_PLUGIN_ERROR" line_no sample_id "messages"
            ("Render plugin error: " +:+ text)]
  end.

Definition verify_record (line_no : nat) (obj : list (string * json))
  : result (list Issue) :=
  let sample_id := sample_id_of line_no obj in
  let messages := get "messages" obj in
  sch ← _validate_messages_schema line_no sample_id messages strict_typed;
  match messages with
  | JList msgs =>
      sp ← _system_presence_and_nonempty line_no sample_id msgs profile_obj;
      sys_msgs ← with_role "system" msgs;
      let sys_texts := map (fun m => _typed_text_of_content (content_of m)) sys_msgs in
      let sys_text := PyStr.join LF sys_texts in
      if negb (truthy (system_visible profile_obj)) then Ok (sch ++ sp)
      else
        rc ← render_and_check line_no sample_id sys_text msgs obj;
        Ok (sch ++ sp ++ rc)
  | _ => Ok sch
  end.

Definition verify_line (entry : nat * string) : result (list Issue) :=
  let '(line_no, line) := entry in
  let line := PyStr.strip line in
  if PyStr.is_empty line then Ok []
  else
    match loads line with
    | BadJson e => Ok [bad_json line_no e]
    | Parsed (JDict obj) => verify_record line_no obj
    | Parsed _ => Raise AttributeError
    end.

Definition verify_system_visibility_jsonl (text : string) : result (list Issue) :=
  concat_results verify_line (enumerate 1 (file_lines text)).

End Verify.

(* ===================================================================== *)
(** * profiles.py: validation and the registry *)
(* ===================================================================== *)

(** What the loaders of the override file call: whether the module [yaml]
    was imported, and [yaml.safe_load] and [json.load] on the file opened
    at a path, each of which may raise. *)
Class ProfileFiles : Type := {
  yaml_imported : bool;
  yaml_safe_load : string -> result json;
  json_load : string -> result json
}.

Section Profiles.
Context {builtins : PyBuiltins} {files : ProfileFiles}.

(** [_load_yaml]: [yaml.safe_load(f) or {}], so a document that decodes to
    a falsy value loads as the empty mapping. *)
Definition _load_yaml (path : string) : result json :=
  if negb yaml_imported then
    Raise (RuntimeError "PyYAML is required to load YAML profiles. `pip install pyyaml`")
  else
    data ← yaml_safe_load path;
    Ok (if truthy data then data else JDict []).

Definition _load_json (path : string) : result json := json_load path.

(** [Profile.validate]. The set membership test hashes the level. *)
Definition validate (self : Profile) : result unit :=
  let lvl := system_invisible_level self in
  if negb (hashable lvl) then Raise TypeError
  else if negb (eq_str lvl "WARN" || eq_str lvl "ERROR") then
    Raise (ValueError ("system_invisible_level must be WARN|ERROR, got " +:+ py_str lvl))
  else if truthy (require_system self) && negb (truthy (system_visible self)) then
    Raise (ValueError ("profile " +:+ name self
                       +:+ ": require_system=True implies system_visible=True"))
  else if truthy (require_system self) && truthy (fold_system_into_user self) then
    Raise (ValueError ("profile " +:+ name self
                       +:+ ": fold_system_into_user must be False when require_system=True"))
  else if truthy (fold_system_into_user self) && truthy (system_visible self) then
    Raise (ValueError ("profile " +:+ name self
                       +:+ ": fold_system_into_user=True conflicts with system_visible=True"))
  else Ok ().

(** [Profile(name=n)], the dataclass defaults. *)
Definition default_profile (n : string) : Profile :=
  mkProfile n (JBool true) (JBool true) (JBool false) (JStr "ERROR").

Definition DEFAULT_PROFILES : gmap string Profile :=
  <["generic" := default_profile "generic"]>
    (<["my-vlm" := default_profile "my-vlm"]>
       (<["qwen3-vl" := default_profile "qwen3-vl"]> ∅)).

(** [for p in profs.values(): p.validate()]. *)
Fixpoint validate_each (ps : list Profile) : result unit :=
  match ps with
  | [] => Ok ()
  | p :: rest => _ ← validate p; validate_each rest
  end.
Definition validate_all (profs : gmap string Profile) : result unit :=
  validate_each (snd <$> map_to_list profs).

(** One override entry merged field by field onto the registry entry of
    the same name, or onto the defaults. *)
Definition merged_profile (profs : gmap string Profile) (n : string)
    (cfg : list (string * json)) : Profile :=
  let base := default (default_profile n) (profs !! n) in
  mkProfile n
    (get_or "require_system" (require_system base) cfg)
    (get_or "system_visible" (system_visible base) cfg)
    (get_or "fold_system_into_user" (fold_system_into_user base) cfg)
    (get_or "system_invisible_level" (system_invisible_level base) cfg).

(** The loop [for name, cfg in raw.items()]. *)
Fixpoint merge_overrides (raw : list (string * json)) (profs : gmap string Profile)
  : result (gmap string Profile) :=
  match raw with
  | [] => Ok profs
  | (n, cfg) :: rest =>
      match cfg with
      | JDict fields =>
          let p := merged_profile profs n fields in
          _ ← validate p;
          merge_overrides rest (<[n := p]> profs)
      | _ => Raise (ValueError ("profile " +:+ n +:+ " must be a mapping of fields"))
      end
  end.

Definition load_profiles (profile_file : option string)
  : result (gmap string Profile) :=
  let profs := DEFAULT_PROFILES in
  match profile_file with
  | None | Some EmptyString => _ ← validate_all profs; Ok profs
  | Some file =>
      data ← (if PyStr.endswith file ".yaml" || PyStr.endswith file ".yml"
              then _load_yaml file
              else if PyStr.endswith file ".json" then _load_json file
              else Raise (ValueError "profile_file must be .yaml/.yml or .json"));
      raw ← match data with
            | JDict d => Ok (get_or "profiles" data d)
            | _ => Raise AttributeError
            end;
      match raw with
      | JDict entries =>
          profs' ← merge_overrides entries profs;
          _ ← validate_all profs';
          Ok profs'
      | _ => Raise (ValueError "Profile file must contain a mapping under key 'profiles'")
      end
  end.

End Profiles.

(* ===================================================================== *)
(** * Dataset rows *)
(* ===================================================================== *)

(** A Python [float]: a finite rational, an infinity, or not-a-number. *)
Inductive pyfloat : Type :=
| Finite (q : Q)
| PosInf
| NegInf
| NaN.

(** Values found in the rows of a dataset; [VImage w h] is a decoded image
    object, whose [size] attribute is [(w, h)]. *)
Inductive value : Type :=
| VNone
| VBool (b : bool)
| VInt (n : Z)
| VFloat (f : pyfloat)
| VStr (s : string)
| VImage (w h : Z)
| VList (items : list value)
| VDict (fields : list (string * value)).

(** The declared type of a column: an image, a nested struct, anything else. *)
Inductive feature : Type :=
| FImage
| FScalar
| FStruct (fields : list (string * feature)).

(** [str] and [repr] of a row value. *)
Class PyValueBuiltins : Type := {
  str_value : value -> string;
  repr_value : value -> string
}.

Module Num.

(** Python compares [int] and [float] exactly; every comparison with
    not-a-number is false. *)
Definition of_int (z : Z) : pyfloat := Finite (inject_Z z).

Definition cmp (a b : pyfloat) : option comparison :=
  match a, b with
  | NaN, _ | _, NaN => None
  | Finite x, Finite y => Some (x ?= y)%Q
  | PosInf, PosInf | NegInf, NegInf => Some Eq
  | PosInf, _ | _, NegInf => Some Gt
  | _, PosInf | NegInf, _ => Some Lt
  end.

Definition lt (a b : pyfloat) : bool :=
  match cmp a b with Some Lt => true | _ => false end.
Definition gt (a b : pyfloat) : bool := lt b a.
Definition le (a b : pyfloat) : bool :=
  match cmp a b with Some Lt | Some Eq => true | _ => false end.
Definition ge (a b : pyfloat) : bool := le b a.

(** [max(a, b)]: the first argument unless the second is greater. *)
Definition max (a b : pyfloat) : pyfloat := if gt b a then b else a.

End Num.

(** [isinstance(v, int)], with the integer it denotes ([bool] is an [int]). *)
Definition as_int (v : value) : option Z :=
  match v with
  | VInt n => Some n
  | VBool b => Some (if b then 1 else 0)
  | _ => None
  end.

(** [isinstance(v, (int, float))], with the number it denotes. *)
Definition as_number (v : value) : option pyfloat :=
  match v with
  | VFloat f => Some f
  | _ => Num.of_int <$> as_int v
  end.

Definition is_none (v : value) : bool :=
  match v with VNone => true | _ => false end.

(** [row.get(k)] and [row.get(k, default)]. *)
Definition vget (k : string) (d : list (string * value)) : value :=
  default VNone (Dict.lookup k d).

(** [s.split(".")]. [cur] is the current part, reversed. *)
Fixpoint split_from (cur : string) (s : string) : list string :=
  match s with
  | EmptyString => [String.rev cur]
  | String c r =>
      if (PyStr.byte_of c =? 46)%N then String.rev cur :: split_from "" r
      else split_from (String c cur) r
  end.
Definition split_dots (s : string) : list string := split_from "" s.

(* ===================================================================== *)
(** * core.py: the dataset checker *)
(* ===================================================================== *)

Definition _find_image_columns (features : list (string * feature)) : list string :=
  omap (fun '(k, v) => match v with FImage => Some k | _ => None end) features.

(** The loop over the image columns in [_get_size_from_row]. *)
Fixpoint size_from_images (row : list (string * value)) (image_cols : list string)
  : option (Z * Z) :=
  match image_cols with
  | [] => None
  | c :: rest =>
      match vget c row with
      | VImage w h => Some (w, h)
      | VDict img =>
          match as_int (vget "width" img), as_int (vget "height" img) with
          | Some w, Some h => Some (w, h)
          | _, _ => size_from_images row rest
          end
      | _ => size_from_images row rest
      end
  end.

Definition _get_size_from_row (row : list (string * value)) (image_cols : list string)
    (w_col h_col : option string) : option (Z * Z) :=
  let explicit :=
    match w_col, h_col with
    | Some wc, Some hc =>
        if PyStr.is_empty wc || PyStr.is_empty hc then None
        else match as_int (vget wc row), as_int (vget hc row) with
             | Some w, Some h => Some (w, h)
             | _, _ => None
             end
    | _, _ => None
    end in
  match explicit with
  | Some size => Some size
  | None => size_from_images row image_cols
  end.

(** [_walk_none]: the paths of the [None] values, in traversal order. *)
Fixpoint _walk_none (obj : value) (prefix : string) : list string :=
  match obj with
  | VNone => [if PyStr.is_empty prefix then "$" else prefix]
  | VDict d =>
      (fix fields (d : list (string * value)) : list string :=
         match d with
         | [] => []
         | (k, v) :: d' =>
             _walk_none v (if PyStr.is_empty prefix then k else prefix +:+ "." +:+ k)
               ++ fields d'
         end) d
  | VList l =>
      (fix items (i : nat) (l : list value) : list string :=
         match l with
         | [] => []
         | v :: l' =>
             _walk_none v (prefix +:+ "[" +:+ PyStr.of_nat i +:+ "]") ++ items (S i) l'
         end) 0%nat l
  | _ => []
  end.

(** The size tally of one split: a dict from size to count, in insertion
    order. *)
Definition tally : Type := list ((Z * Z) * nat).

Definition size_eqb (a b : Z * Z) : bool := (a.1 =? b.1) && (a.2 =? b.2).

(** [seen_sizes[size] = seen_sizes.get(size, 0) + 1]. *)
Fixpoint count_size (size : Z * Z) (seen : tally) : tally :=
  match seen with
  | [] => [(size, 1%nat)]
  | (s, c) :: rest =>
      if size_eqb size s then (s, S c) :: rest else (s, c) :: count_size size rest
  end.

(** [sorted(items, key=lambda kv: kv[1], reverse=True)]: stable, so entries
    with equal counts keep their order. *)
Fixpoint insert_desc (x : (Z * Z) * nat) (l : tally) : tally :=
  match l with
  | [] => [x]
  | y :: l' => if (x.2 <? y.2)%nat then y :: insert_desc x l' else x :: l
  end.
Definition sorted_desc (seen : tally) : tally := foldr insert_desc [] seen.

(** [f"{w}x{h} ({c})"]. *)
Definition size_with_count (e : (Z * Z) * nat) : string :=
  PyStr.of_Z e.1.1 +:+ "x" +:+ PyStr.of_Z e.1.2 +:+ " (" +:+ PyStr.of_nat e.2 +:+ ")".

Section CheckDataset.
Context {row_builtins : PyValueBuiltins}.
Variables (expect_size : option (Z * Z)) (size_policy : string)
          (coord_field : string) (coord_keys : list string).

(** The walk down [coord_field.split(".")]. *)
Fixpoint resolve (cur : value) (parts : list string) : option value :=
  match parts with
  | [] => Some cur
  | part :: rest =>
      match cur with
      | VDict d =>
          match Dict.lookup part d with
          | Some v => resolve v rest
          | None => None
          end
      | _ => None
      end
  end.

Definition ends_with_any (k : string) (suffixes : list string) : bool :=
  existsb (PyStr.endswith (PyStr.lower k)) suffixes.

(** One round of the loop over [zip(coord_keys, vals)]. *)
Definition out_of_bounds (w h : Z) (k : string) (v : pyfloat) : bool :=
  (ends_with_any k ["x"; "x0"; "x1"; "cx"]
     && (Num.lt v (Num.of_int 0) || Num.gt v (Num.of_int w)))
  || (ends_with_any k ["y"; "y0"; "y1"; "cy"]
     && (Num.lt v (Num.of_int 0) || Num.gt v (Num.of_int h))).

(** [{k: cur.get(k) for k in coord_keys}]. *)
Definition read_coords (cur : list (string * value)) : list (string * value) :=
  fold_left (fun acc k => Dict.set k (vget k cur) acc) coord_keys [].

Definition coord_issues (row_no : nat) (sample_id : string)
    (row : list (string * value)) (size : option (Z * Z)) : list Issue :=
  if PyStr.is_empty coord_field || bool_decide (coord_keys = []) then []
  else
    match resolve (VDict row) (split_dots coord_field) with
    | Some (VDict cur) =>
        let vals := map (fun k => vget k cur) coord_keys in
        match mapM as_number vals, size with
        | Some nums, Some (w, h) =>
            if existsb (fun kv => out_of_bounds w h kv.1 kv.2) (zip coord_keys nums)
            then [_issue "WARN" "W301_COORD_OUT_OF_BOUNDS" row_no sample_id coord_field
                    ("Coordinates out of bounds for image " +:+ PyStr.of_Z w +:+ "x"
                     +:+ PyStr.of_Z h +:+ ": " +:+ repr_value (VDict (read_coords cur)))]
            else []
        | _, _ => []
        end
    | _ => []
    end.

(** Body of the loop over the rows of a split: the issues of the row and
    the size it resolved to. *)
Definition check_row (split_name : string) (image_cols : list string)
    (w_col h_col : option string) (entry : nat * list (string * value))
  : list Issue * option (Z * Z) :=
  let '(idx, row) := entry in
  let row_no := (idx + 1)%nat in
  let sample_id :=
    str_value (default (VStr (split_name +:+ ":" +:+ PyStr.of_nat row_no))
                 (Dict.lookup "id" row)) in
  let nones :=
    map (fun p => _issue "ERROR" "E102_DATASET_NONE_VALUE" row_no sample_id p
           (p +:+ " is None (often happens when missing nested key gets filled as None after cast/save)."))
        (_walk_none (VDict row) "") in
  let size := _get_size_from_row row image_cols w_col h_col in
  let sizes :=
    match size with
    | Some (w, h) =>
        match expect_size with
        | Some (ew, eh) =>
            if negb (size_eqb (w, h) (ew, eh)) then
              [_issue "ERROR" "E201_IMAGE_SIZE_MISMATCH" row_no sample_id "image"
                 ("Image size " +:+ PyStr.of_Z w +:+ "x" +:+ PyStr.of_Z h
                  +:+ " != expected " +:+ PyStr.of_Z ew +:+ "x" +:+ PyStr.of_Z eh +:+ ".")]
            else []
        | None => []
        end
    | None =>
        [_issue "WARN" "W202_IMAGE_SIZE_UNKNOWN" row_no sample_id "image"
           "Cannot determine image size (no Image column and no width/height columns)."]
    end in
  (nones ++ sizes ++ coord_issues row_no sample_id row size, size).

(** The loop over the rows: all their issues and the tally of sizes. *)
Fixpoint check_rows (split_name : string) (image_cols : list string)
    (w_col h_col : option string) (entries : list (nat * list (string * value)))
    (seen : tally) : list Issue * tally :=
  match entries with
  | [] => ([], seen)
  | e :: rest =>
      let '(here, size) := check_row split_name image_cols w_col h_col e in
      let seen1 := match size with Some sz => count_size sz seen | None => seen end in
      let '(later, seen2) := check_rows split_name image_cols w_col h_col rest seen1 in
      (here ++ later, seen2)
  end.

(** The statements after the loop over the rows: [size_policy]. *)
Definition size_policy_issues (split_name : string) (seen_sizes : tally) : list Issue :=
  if String.eqb (PyStr.lower (if PyStr.is_empty size_policy then "any" else size_policy))
       "consistent"
  then
    if (1 <? length seen_sizes)%nat then
      let top := take 5 (sorted_desc seen_sizes) in
      let msg := "Inconsistent image sizes in split " +:+ split_name +:+ ": "
                 +:+ PyStr.join ", " (map size_with_count top) in
      [_issue "WARN" "W201_IMAGE_SIZE_INCONSISTENT" 1 split_name "image" msg]
    else if (length seen_sizes =? 0)%nat then
      [_issue "WARN" "W202_IMAGE_SIZE_UNKNOWN" 1 split_name "image"
         "Cannot determine image sizes for this split."]
    else []
  else [].

(** The heuristic choice of the width and height columns. *)
Definition pick_column (features : list (string * feature)) (first second : string)
  : option string :=
  if Dict.mem first features then Some first
  else if Dict.mem second features then Some second
  else None.

(** Body of the loop over the splits. *)
Definition check_split (split_name : string) (features : list (string * feature))
    (rows : list (list (string * value))) : list Issue :=
  let image_cols := _find_image_columns features in
  let w_col := pick_column features "image_w" "width" in
  let h_col := pick_column features "image_h" "height" in
  let '(issues, seen_sizes) :=
    check_rows split_name image_cols w_col h_col (enumerate 0 rows) [] in
  issues ++ size_policy_issues split_name seen_sizes.

(** [check_dataset_on_disk] on a loaded dataset: its splits in order. *)
Definition check_dataset_on_disk
    (splits : list (string * (list (string * feature) * list (list (string * value)))))
  : list Issue :=
  concat (map (fun '(split_name, (features, rows)) => check_split split_name features rows)
            splits).

End CheckDataset.

(* ===================================================================== *)
(** * tests/dataset_checks.py: the stricter coordinate check *)
(* ===================================================================== *)

Module DatasetChecks.

Record DatasetIssue : Type := mkDatasetIssue {
  d_level : string;
  d_code : string;
  d_row : nat;
  d_sample_id : string;
  d_path : string;
  d_message : string
}.

(** [_get_by_path]. *)
Fixpoint walk_path (cur : value) (keys : list string) : value :=
  match keys with
  | [] => cur
  | key :: rest =>
      match cur with
      | VDict d =>
          match Dict.lookup key d with
          | Some v => walk_path v rest
          | None => VNone
          end
      | _ => VNone
      end
  end.
Definition _get_by_path (obj : value) (path : string) : value :=
  walk_path obj (split_dots path).

(** [_list_leaf_paths]. *)
Fixpoint _list_leaf_paths (features : feature) (prefix : string) : list string :=
  match features with
  | FStruct fs =>
      (fix fields (fs : list (string * feature)) : list string :=
         match fs with
         | [] => []
         | (k, v) :: fs' =>
             _list_leaf_paths v (if PyStr.is_empty prefix then k else prefix +:+ "." +:+ k)
               ++ fields fs'
         end) fs
  | _ => [prefix]
  end.

Section Lint.
Context {row_builtins : PyValueBuiltins}.
Variables (id_field : string) (forbid_none_paths : list string)
          (check_all_nested_leaf_nones : bool)
          (image_w_field image_h_field coordinates_prefix : string)
          (coordinates_fields : string * string * string * string)
          (max_rows : option nat).

Definition coord_issue (code : string) (i : nat) (sid msg : string) : DatasetIssue :=
  mkDatasetIssue "ERROR" code i sid coordinates_prefix msg.

(** Part (2) of the row loop: the coordinate check. *)
Definition coordinates_check (i : nat) (sid : string) (row : list (string * value))
  : list DatasetIssue :=
  let iw := vget image_w_field row in
  let ih := vget image_h_field row in
  match as_int iw, as_int ih, vget coordinates_prefix row with
  | Some w, Some h, VDict coordinates =>
      let '(f0, f1, f2, f3) := coordinates_fields in
      let x0 := vget f0 coordinates in
      let y0 := vget f1 coordinates in
      let x1 := vget f2 coordinates in
      let y1 := vget f3 coordinates in
      let coords := [x0; y0; x1; y1] in
      if existsb is_none coords then []
      else
        match as_number x0, as_number y0, as_number x1, as_number y1 with
        | Some nx0, Some ny0, Some nx1, Some ny1 =>
            let zero := Num.of_int 0 in
            (if Num.lt nx0 zero || Num.lt ny0 zero || Num.lt nx1 zero || Num.lt ny1 zero
             then [coord_issue "E103_coordinates_NEGATIVE" i sid
                     ("coordinates has negative coords: " +:+ repr_value (VList coords))]
             else [])
            ++
            (if Num.gt nx1 (Num.of_int w) || Num.gt ny1 (Num.of_int h) then
               let top := Num.max nx1 ny1 in
               let looks_like_1000 :=
                 (w <=? 600) && (h <=? 600)
                 && Num.ge top (Num.of_int 800) && Num.le top (Num.of_int 1200) in
               let code := if looks_like_1000 then "E105_coordinates_SPACE_MISMATCH"
                           else "E104_coordinates_OUT_OF_BOUNDS" in
               let hint := if looks_like_1000
                           then " (looks like 1000-space coords; expected pixel space)"
                           else "" in
               [coord_issue code i sid
                  ("coordinates exceeds image size " +:+ str_value iw +:+ "x"
                   +:+ str_value ih +:+ ": (" +:+ str_value x0 +:+ ", " +:+ str_value y0
                   +:+ ", " +:+ str_value x1 +:+ ", " +:+ str_value y1 +:+ ")" +:+ hint)]
             else [])
        | _, _, _, _ =>
            [coord_issue "E102_coordinates_BAD_TYPE" i sid
               ("coordinates coords must be numeric; got " +:+ repr_value (VList coords))]
        end
  | _, _, _ => []
  end.

(** Part (1) of the row loop: declared leaf paths that read as [None]. *)
Definition none_filled (leaf_paths : list string) (i : nat) (sid : string)
    (row : list (string * value)) : list DatasetIssue :=
  omap (fun p =>
          if is_none (_get_by_path (VDict row) p) then
            Some (mkDatasetIssue "ERROR" "E101_DATASET_NONE_FILLED" i sid p
                    (p +:+ " is None (likely filled due to missing nested key during cast/save)."))
          else None)
       leaf_paths.

Definition lint_row (split_name : string) (leaf_paths : list string)
    (entry : nat * list (string * value)) : list DatasetIssue :=
  let '(i, row) := entry in
  let sid :=
    str_value (default (VStr (split_name +:+ ":row_" +:+ PyStr.of_nat i))
                 (Dict.lookup id_field row)) in
  none_filled leaf_paths i sid row ++ coordinates_check i sid row.

(** The leaf paths of a split: those of its nested columns, then the
    caller's paths not already there. *)
Definition leaf_paths_of (features : list (string * feature)) : list string :=
  let declared :=
    if check_all_nested_leaf_nones then
      concat (map (fun '(col, f) =>
                     match f with
                     | FStruct _ => _list_leaf_paths (FStruct [(col, f)]) ""
                     | _ => []
                     end) features)
    else [] in
  declared ++ filter (fun p => negb (bool_decide (p ∈ declared))) forbid_none_paths.

Definition lint_split (split_name : string) (features : list (string * feature))
    (rows : list (list (string * value))) : list DatasetIssue :=
  let n := match max_rows with
           | None => length rows
           | Some m => Nat.min (length rows) m
           end in
  concat (map (lint_row split_name (leaf_paths_of features))
            (enumerate 0 (take n rows))).

Definition lint_dataset_on_disk
    (splits : list (string * (list (string * feature) * list (list (string * value)))))
  : list DatasetIssue :=
  concat (map (fun '(split_name, (features, rows)) => lint_split split_name features rows)
            splits).

End Lint.

End DatasetChecks.

(* ===================================================================== *)
(** * A reference JSON codec *)
(* ===================================================================== *)

(** The codec of Python's [json] module on the values of [json], written out
    so that the file-level statements can be run: [dump] is
    [json.dumps(obj, ensure_ascii=False)] with its default separators, and
    [load] is [json.loads] in strict mode. Number tokens with a fraction
    or an exponent, the constants [NaN] and [Infinity], and
    escapes of surrogate code points decode to Python values outside [json];
    the reference decoder reports them as undecodable. *)
Module RefJson.

Definition dq : ascii := ascii_of_N 34.
Definition bs : ascii := ascii_of_N 92.

Definition hex_digit (n : N) : ascii :=
  if (n <? 10)%N then ascii_of_N (48 + n) else ascii_of_N (87 + n).

(** [json.encoder.ESCAPE_DCT] for [ensure_ascii=False]. *)
Definition escape_char (c : ascii) : string :=
  let n := PyStr.byte_of c in
  if (n =? 34)%N then String bs (String dq "")
  else if (n =? 92)%N then String bs (String bs "")
  else if (n =? 10)%N then String bs "n"
  else if (n =? 13)%N then String bs "r"
  else if (n =? 9)%N then String bs "t"
  else if (n =? 8)%N then String bs "b"
  else if (n =? 12)%N then String bs "f"
  else if (n <? 32)%N then
    String bs (String "u" (String "0" (String "0"
      (String (hex_digit (n / 16)) (String (hex_digit (n mod 16)) "")))))
  else String c "".

Fixpoint escape (s : string) : string :=
  match s with
  | EmptyString => EmptyString
  | String c r => escape_char c +:+ escape r
  end.

Definition dump_str (s : string) : string :=
  String dq (escape s +:+ String dq "").

Fixpoint dump (v : json) : string :=
  match v with
  | JNull => "null"
  | JBool true => "true"
  | JBool false => "false"
  | JInt z => PyStr.of_Z z
  | JStr s => dump_str s
  | JList l => "[" +:+ PyStr.join ", " (map dump l) +:+ "]"
  | JDict d =>
      "{" +:+ PyStr.join ", " (map (fun kv => dump_str kv.1 +:+ ": " +:+ dump kv.2) d)
          +:+ "}"
  end.

(** The decoder's whitespace: space, tab, line feed, carriage return. *)
Definition is_ws (c : ascii) : bool :=
  let n := PyStr.byte_of c in
  ((n =? 32) || (n =? 9) || (n =? 10) || (n =? 13))%N.

Fixpoint skip_ws (s : string) : string :=
  match s with
  | String c r => if is_ws c then skip_ws r else s
  | EmptyString => EmptyString
  end.

Definition hex_value (c : ascii) : option N :=
  let n := PyStr.byte_of c in
  if ((48 <=? n) && (n <=? 57))%N then Some (n - 48)%N
  else if ((97 <=? n) && (n <=? 102))%N then Some (n - 87)%N
  else if ((65 <=? n) && (n <=? 70))%N then Some (n - 55)%N
  else None.

(** The UTF-8 bytes of a code point of the basic plane. *)
Definition utf8 (cp : N) : option string :=
  if (cp <? 128)%N then Some (String (ascii_of_N cp) "")
  else if (cp <? 2048)%N then
    Some (String (ascii_of_N (192 + cp / 64)) (String (ascii_of_N (128 + cp mod 64)) ""))
  else if ((55296 <=? cp) && (cp <=? 57343))%N then None
  else
    Some (String (ascii_of_N (224 + cp / 4096))
            (String (ascii_of_N (128 + (cp / 64) mod 64))
               (String (ascii_of_N (128 + cp mod 64)) ""))).

Definition simple_escape (c : ascii) : option ascii :=
  let n := PyStr.byte_of c in
  if (n =? 34)%N then Some dq
  else if (n =? 92)%N then Some bs
  else if (n =? 47)%N then Some "/"%char
  else if (n =? 98)%N then Some (ascii_of_N 8)
  else if (n =? 102)%N then Some (ascii_of_N 12)
  else if (n =? 110)%N then Some (ascii_of_N 10)
  else if (n =? 114)%N then Some (ascii_of_N 13)
  else if (n =? 116)%N then Some (ascii_of_N 9)
  else None.

(** [scanstring] after the opening quote: the decoded text and what
    follows the closing quote. *)
Fixpoint scan_string (s : string) : option (string * string) :=
  match s with
  | EmptyString => None
  | String c r =>
      if (PyStr.byte_of c =? 34)%N then Some ("", r)
      else if (PyStr.byte_of c =? 92)%N then
        match r with
        | String e r1 =>
            if (PyStr.byte_of e =? 117)%N then
              match r1 with
              | String h1 (String h2 (String h3 (String h4 r2))) =>
                  match hex_value h1, hex_value h2, hex_value h3, hex_value h4 with
                  | Some a, Some b, Some c', Some d =>
                      match utf8 (((a * 16 + b) * 16 + c') * 16 + d)%N, scan_string r2 with
                      | Some bytes, Some (t, rest) => Some (bytes +:+ t, rest)
                      | _, _ => None
                      end
                  | _, _, _, _ => None
                  end
              | _ => None
              end
            else
              match simple_escape e, scan_string r1 with
              | Some x, Some (t, rest) => Some (String x t, rest)
              | _, _ => None
              end
        | EmptyString => None
        end
      else if (PyStr.byte_of c <? 32)%N then None
      else
        match scan_string r with
        | Some (t, rest) => Some (String c t, rest)
        | None => None
        end
  end.

Definition is_digit (c : ascii) : bool :=
  let n := PyStr.byte_of c in ((48 <=? n) && (n <=? 57))%N.

(** The longest prefix of digits, and the rest. *)
Fixpoint digits (s : string) : string * string :=
  match s with
  | String c r =>
      if is_digit c then let '(ds, rest) := digits r in (String c ds, rest)
      else ("", s)
  | EmptyString => ("", "")
  end.

(** A number token has a fraction or an exponent when the integer part is
    followed by one of these. *)
Definition continues_number (rest : string) : bool :=
  match rest with
  | String c _ =>
      let n := PyStr.byte_of c in ((n =? 46) || (n =? 101) || (n =? 69))%N
  | EmptyString => false
  end.

(** The integer part of a number token: an optional minus sign, then
    either a single zero or digits that do not start with a zero. *)
Definition scan_int (s : string) : option (Z * string) :=
  let '(negative, body) :=
    match s with
    | String c r => if (PyStr.byte_of c =? 45)%N then (true, r) else (false, s)
    | EmptyString => (false, s)
    end in
  let '(ds, rest) := digits body in
  match ds with
  | EmptyString => None
  | String d more =>
      if (PyStr.byte_of d =? 48)%N && negb (PyStr.is_empty more) then None
      else if continues_number rest then None
      else
        match NilZero.uint_of_string ds with
        | Some u => Some (if negative then - Z.of_uint u else Z.of_uint u, rest)
        | None => None
        end
  end.

(** [s[n:]]. *)
Fixpoint skip_chars (n : nat) (s : string) : string :=
  match n, s with
  | S n', String _ r => skip_chars n' r
  | _, _ => s
  end.

(** [dict(pairs)]: a repeated key keeps its first place and its last
    value. *)
Definition dict_of_pairs (pairs : list (string * json)) : list (string * json) :=
  fold_left (fun acc kv => Dict.set kv.1 kv.2 acc) pairs [].

(** [scan_once], with the loops of [JSONArray] and [JSONObject]. [fuel]
    bounds the number of nested calls. *)
Fixpoint scan_value (fuel : nat) (s : string) : option (json * string) :=
  match fuel with
  | O => None
  | S fuel' =>
      match s with
      | EmptyString => None
      | String c r =>
          let n := PyStr.byte_of c in
          if (n =? 34)%N then
            match scan_string r with
            | Some (t, rest) => Some (JStr t, rest)
            | None => None
            end
          else if (n =? 123)%N then
            match skip_ws r with
            | String c1 r1 =>
                if (PyStr.byte_of c1 =? 125)%N then Some (JDict [], r1)
                else
                  match scan_members fuel' (String c1 r1) with
                  | Some (pairs, rest) => Some (JDict (dict_of_pairs pairs), rest)
                  | None => None
                  end
            | EmptyString => None
            end
          else if (n =? 91)%N then
            match skip_ws r with
            | String c1 r1 =>
                if (PyStr.byte_of c1 =? 93)%N then Some (JList [], r1)
                else
                  match scan_elements fuel' (String c1 r1) with
                  | Some (items, rest) => Some (JList items, rest)
                  | None => None
                  end
            | EmptyString => None
            end
          else if PyStr.is_prefix "null" s then Some (JNull, skip_chars 4 s)
          else if PyStr.is_prefix "true" s then Some (JBool true, skip_chars 4 s)
          else if PyStr.is_prefix "false" s then Some (JBool false, skip_chars 5 s)
          else
            match scan_int s with
            | Some (z, rest) => Some (JInt z, rest)
            | None => None
            end
      end
  end
with scan_elements (fuel : nat) (s : string) : option (list json * string) :=
  match fuel with
  | O => None
  | S fuel' =>
      match scan_value fuel' s with
      | Some (v, r) =>
          match skip_ws r with
          | String c r1 =>
              if (PyStr.byte_of c =? 93)%N then Some ([v], r1)
              else if (PyStr.byte_of c =? 44)%N then
                match scan_elements fuel' (skip_ws r1) with
                | Some (vs, rest) => Some (v :: vs, rest)
                | None => None
                end
              else None
          | EmptyString => None
          end
      | None => None
      end
  end
with scan_members (fuel : nat) (s : string) : option (list (string * json) * string) :=
  match fuel with
  | O => None
  | S fuel' =>
      match s with
      | String q r =>
          if (PyStr.byte_of q =? 34)%N then
            match scan_string r with
            | Some (k, r1) =>
                match skip_ws r1 with
                | String colon r2 =>
                    if (PyStr.byte_of colon =? 58)%N then
                      match scan_value fuel' (skip_ws r2) with
                      | Some (v, r3) =>
                          match skip_ws r3 with
                          | String c r4 =>
                              if (PyStr.byte_of c =? 125)%N then Some ([(k, v)], r4)
                              else if (PyStr.byte_of c =? 44)%N then
                                match scan_members fuel' (skip_ws r4) with
                                | Some (kvs, rest) => Some ((k, v) :: kvs, rest)
                                | None => None
                                end
                              else None
                          | EmptyString => None
                          end
                      | None => None
                      end
                    else None
                | EmptyString => None
                end
            | None => None
            end
          else None
      | EmptyString => None
      end
  end.

(** [JSONDecoder.decode]: one value between optional whitespace. *)
Definition load (s : string) : parsed :=
  match scan_value (S (String.length s)) (skip_ws s) with
  | Some (v, rest) =>
      if PyStr.is_empty (skip_ws rest) then Parsed v else BadJson "Extra data"
  | None => BadJson "Expecting value"
  end.

Definition codec : JsonCodec := {| loads := load; dumps := dump |}.

(** Test inputs are written with ['] where the JSON text has a double
    quote. *)
Definition quote_char (c : ascii) : ascii :=
  if (PyStr.byte_of c =? 39)%N then dq else c.
Fixpoint q (s : string) : string :=
  match s with
  | EmptyString => EmptyString
  | String c r => String (quote_char c) (q r)
  end.

End RefJson.

(* ===================================================================== *)
(** * Reference builtins *)
(* ===================================================================== *)

(** [repr] and [str] written out for the closed examples below. They are
    CPython's on [None], booleans, integers, and strings of printable ASCII
    without quotes or backslashes, and on lists and dicts of these. *)
Module RefBuiltins.

Definition repr_str (s : string) : string := "'" +:+ s +:+ "'".

Fixpoint repr (v : json) : string :=
  match v with
  | JNull => "None"
  | JBool true => "True"
  | JBool false => "False"
  | JInt z => PyStr.of_Z z
  | JStr s => repr_str s
  | JList l => "[" +:+ PyStr.join ", " (map repr l) +:+ "]"
  | JDict d =>
      "{" +:+ PyStr.join ", " (map (fun kv => repr_str kv.1 +:+ ": " +:+ repr kv.2) d)
          +:+ "}"
  end.

Definition str (v : json) : string :=
  match v with JStr s => s | _ => repr v end.

Definition builtins : PyBuiltins :=
  {| py_str := str; py_repr := repr; py_str_of_str := fun s => eq_refl |}.

(** The same for row values; a float or an image prints as a mark. *)
Fixpoint repr_row (v : value) : string :=
  match v with
  | VNone => "None"
  | VBool true => "True"
  | VBool false => "False"
  | VInt z => PyStr.of_Z z
  | VFloat _ => "<float>"
  | VStr s => repr_str s
  | VImage _ _ => "<image>"
  | VList l => "[" +:+ PyStr.join ", " (map repr_row l) +:+ "]"
  | VDict d =>
      "{" +:+ PyStr.join ", " (map (fun kv => repr_str kv.1 +:+ ": " +:+ repr_row kv.2) d)
          +:+ "}"
  end.

Definition str_row (v : value) : string :=
  match v with VStr s => s | _ => repr_row v end.

Definition row_builtins : PyValueBuiltins :=
  {| str_value := str_row; repr_value := repr_row |}.

(** No override file can be read. *)
Definition no_files : ProfileFiles :=
  {| yaml_imported := true;
     yaml_safe_load := fun _ => Raise (OtherError "No such file or directory");
     json_load := fun _ => Raise (OtherError "No such file or directory") |}.

End RefBuiltins.

(* ===================================================================== *)
(** * Vocabulary of the properties *)
(* ===================================================================== *)

(** A message with role [r]. *)
Definition has_role (r : string) (m : json) : bool :=
  match m with
  | JDict d => eq_str (get "role" d) r
  | _ => false
  end.

(** The system messages of a record, and their extracted texts. *)
Definition system_messages (messages : list json) : list json :=
  filter (fun m => has_role "system" m = true) messages.
Definition system_texts (messages : list json) : list string :=
  map (fun m => _typed_text_of_content (content_of m)) (system_messages messages).

(** The extracted text of a message is blank after trimming. *)
Definition blank_text (m : json) : bool :=
  PyStr.is_empty (PyStr.strip (_typed_text_of_content (content_of m))).

(** The newline-concatenation of all system texts is blank after trimming. *)
Definition blank_concatenation (messages : list json) : bool :=
  PyStr.is_empty (PyStr.strip (PyStr.join LF (system_texts messages))).

(** A message as a JSON object with a role and a plain-text content. *)
Definition msg (role content : string) : json :=
  JDict [("role", JStr role); ("content", JStr content)].

(** Every built-in profile. *)
Definition generic : Profile :=
  mkProfile "generic" (JBool true) (JBool true) (JBool false) (JStr "ERROR").

(* ===================================================================== *)
(** * core.py: the severity policy *)
(* ===================================================================== *)

(** The upper case of the ligatures U+FB00..U+FB06, by their last byte. *)
Definition ligature_upper (last : N) : string :=
  if (last =? 128)%N then "FF"
  else if (last =? 129)%N then "FI"
  else if (last =? 130)%N then "FL"
  else if (last =? 131)%N then "FFI"
  else if (last =? 132)%N then "FFL"
  else "ST".

Definition upper_ascii (c : ascii) : ascii :=
  let n := PyStr.byte_of c in
  if ((97 <=? n) && (n <=? 122))%N then ascii_of_N (n - 32) else c.

(** [str.upper()] on the ASCII letters and on the letters outside ASCII
    whose upper case is made of ASCII letters: U+00DF, U+0131, U+017F and
    the ligatures U+FB00..U+FB06. The upper case of any other letter stays
    outside ASCII, and the program compares the result with ASCII words
    only. *)
Fixpoint str_upper (s : string) : string :=
  match s with
  | EmptyString => EmptyString
  | String a r =>
      let plain := String (upper_ascii a) (str_upper r) in
      match r with
      | String b r1 =>
          let x := PyStr.byte_of a in
          let y := PyStr.byte_of b in
          if ((x =? 195) && (y =? 159))%N then "SS" +:+ str_upper r1
          else if ((x =? 196) && (y =? 177))%N then "I" +:+ str_upper r1
          else if ((x =? 197) && (y =? 191))%N then "S" +:+ str_upper r1
          else
            match r1 with
            | String c r2 =>
                let z := PyStr.byte_of c in
                if ((x =? 239) && (y =? 172) && (128 <=? z) && (z <=? 134))%N
                then ligature_upper z +:+ str_upper r2
                else plain
            | EmptyString => plain
            end
      | EmptyString => plain
      end
  end.

(** [_LEVEL_ORDER.get(lvl, 2)]. *)
Definition level_rank (lvl : string) : nat := default 2%nat (_LEVEL_ORDER lvl).

(** [should_fail]: some issue is at or above the threshold [fail_on]. *)
Definition should_fail (issues : list Issue) (fail_on : string) : bool :=
  let thr := level_rank (str_upper (if PyStr.is_empty fail_on then "ERROR" else fail_on)) in
  existsb (fun i => (thr <=? level_rank (level i))%nat) issues.

(** The record with a blank and a non-blank system message. *)
Definition two_system_messages : list json :=
  [msg "system" "   "; msg "system" "Be brief."; msg "user" "hi"].

(** The one issue of a record whose [messages] is not a list. *)
Definition messages_not_a_list {builtins : PyBuiltins} (line_no : nat) (obj : list (string * json))
  : Issue :=
  mkIssue "ERROR" "E003_SCHEMA_MISMATCH" line_no (sample_id_of line_no obj) "messages"
    "`messages` must be a list.".

(** ** Vocabulary of the codec laws *)

Import RefJson.

(** A decoded value: the keys of every dict are distinct. *)
Inductive well_formed : json -> Prop :=
| wf_null : well_formed JNull
| wf_bool b : well_formed (JBool b)
| wf_int n : well_formed (JInt n)
| wf_str s : well_formed (JStr s)
| wf_list l : Forall well_formed l -> well_formed (JList l)
| wf_dict d :
    NoDup (map fst d) -> Forall (fun kv => well_formed kv.2) d -> well_formed (JDict d).

(** Structural induction on [json] through its lists. *)
Fixpoint json_induction (P : json -> Prop)
    (Hnull : P JNull) (Hbool : forall b, P (JBool b)) (Hint : forall n, P (JInt n))
    (Hstr : forall s, P (JStr s))
    (Hlist : forall l, Forall P l -> P (JList l))
    (Hdict : forall d, Forall (fun kv => P kv.2) d -> P (JDict d))
    (v : json) {struct v} : P v :=
  let go := json_induction P Hnull Hbool Hint Hstr Hlist Hdict in
  match v with
  | JNull => Hnull
  | JBool b => Hbool b
  | JInt n => Hint n
  | JStr s => Hstr s
  | JList l =>
      Hlist l ((fix all (l : list json) : Forall P l :=
                  match l with
                  | [] => Forall_nil_2 P
                  | x :: l' => Forall_cons_2 P x l' (go x) (all l')
                  end) l)
  | JDict d =>
      Hdict d ((fix all (d : list (string * json)) : Forall (fun kv => P kv.2) d :=
                  match d with
                  | [] => Forall_nil_2 _
                  | kv :: d' => Forall_cons_2 (fun kv => P kv.2) kv d' (go kv.2) (all d')
                  end) d)
  end.

(** Calls of the scanner needed to read a value back. *)
Fixpoint cost (v : json) : nat :=
  S match v with
    | JList l => foldr (fun x acc => S (cost x + acc)) 0%nat l
    | JDict d => foldr (fun kv acc => S (cost kv.2 + acc)) 0%nat d
    | _ => 0%nat
    end.

(** No line feed and no carriage return in a text. *)
Fixpoint one_line (s : string) : bool :=
  match s with
  | EmptyString => true
  | String c r =>
      negb (PyStr.byte_of c =? 10)%N && negb (PyStr.byte_of c =? 13)%N && one_line r
  end.

(** What the safe-fix transform relies on in [json.loads] and [json.dumps]:
    decoding gives dicts with distinct keys, an encoded value decodes to
    itself, and an encoding is one non-blank line. *)
Class JsonCodecLaws {json_codec : JsonCodec} : Prop := {
  loads_well_formed : forall s v, loads s = Parsed v -> well_formed v;
  loads_dumps : forall v, well_formed v -> loads (dumps v) = Parsed v;
  dumps_one_line : forall v, one_line (dumps v) = true;
  dumps_not_blank : forall v, PyStr.is_empty (PyStr.strip (dumps v)) = false
}.

(** What may follow a value inside a document: nothing, a comma, or a
    closing bracket or brace. *)
Definition delimited (rest : string) : bool :=
  match rest with
  | EmptyString => true
  | String c _ =>
      let n := PyStr.byte_of c in ((n =? 44) || (n =? 93) || (n =? 125))%N
  end.

Definition starts_with_digit (s : string) : bool :=
  match s with String c _ => is_digit c | EmptyString => false end.

(** The first character of an encoded value. *)
Definition value_start (c : ascii) : bool :=
  let n := PyStr.byte_of c in
  is_digit c
  || existsb (N.eqb n) [45; 34; 91; 123; 110; 116; 102]%N.

Definition elements_cost (l : list json) : nat :=
  foldr (fun x acc => S (cost x + acc)) 0%nat l.
Definition members_cost (d : list (string * json)) : nat :=
  foldr (fun kv acc => S (cost kv.2 + acc)) 0%nat d.

(** A value whose encoding the scanner reads back, with enough fuel and
    before any delimiter. *)
Definition reads_back (v : json) : Prop :=
  forall fuel rest, (cost v <= fuel)%nat -> delimited rest = true ->
    scan_value fuel (dump v +:+ rest) = Some (v, rest).

Definition member_text (kv : string * json) : string :=
  dump_str kv.1 +:+ ": " +:+ dump kv.2.

(** A character that is no part of any whitespace code point. *)
Definition solid (c : ascii) : bool :=
  negb (PyStr.is_space1 c) && (PyStr.byte_of c <? 128)%N.

(** ** Vocabulary of the safe-fix transform *)

(** Rule (b) applies to some item of the content list of a message. *)
Definition untyped_text_block (m : json) : bool :=
  match m with
  | JDict d =>
      match get "content" d with
      | JList items => existsb needs_type items
      | _ => false
      end
  | _ => false
  end.

(** Some safe-fix rule modifies the record: a message has role ['usr'], or,
    in strict-typed mode, a content block has a [text] key and no [type]
    key. *)
Definition touched (strict_typed : bool) (obj : list (string * json)) : bool :=
  match get "messages" obj with
  | JList msgs =>
      existsb (fun m => needs_role m || (strict_typed && untyped_text_block m)) msgs
  | _ => false
  end.

(** The line written for a record. *)
Definition written_line {json_codec : JsonCodec} (obj : list (string * json)) : string :=
  dumps (JDict obj) +:+ LF.

(** A record as the transform leaves it: decoded, and with nothing left
    for either rule. *)
Definition settled (strict_typed : bool) (obj : list (string * json)) : Prop :=
  well_formed (JDict obj) /\ touched strict_typed obj = false.

(** The text of a file made of these lines. *)
Definition file_of (lines : list string) : string := foldr String.append "" lines.

(** ** Vocabulary of the profile registry *)

(** The three invariants of a profile, on the truth values of its fields,
    and a level that is [WARN] or [ERROR]. *)
Definition valid_profile (p : Profile) : Prop :=
  (system_invisible_level p = JStr "WARN" \/ system_invisible_level p = JStr "ERROR")
  /\ (truthy (require_system p) = true -> truthy (system_visible p) = true)
  /\ (truthy (require_system p) = true -> truthy (fold_system_into_user p) = false)
  /\ (truthy (fold_system_into_user p) = true -> truthy (system_visible p) = false).

(** The file name ends in [.yaml] or [.yml]. *)
Definition yaml_suffix (file : string) : bool :=
  PyStr.endswith file ".yaml" || PyStr.endswith file ".yml".

(** The loader that [load_profiles] picks for the file name returns
    [data]. *)
Definition read_as {files : ProfileFiles} (file : string) (data : json) : Prop :=
  if yaml_suffix file then _load_yaml file = Ok data
  else PyStr.endswith file ".json" = true /\ _load_json file = Ok data.

(** An override file whose content decodes to [data], by [yaml.safe_load]
    as by [json.load], with the module [yaml] imported. *)
Definition json_file (data : json) : ProfileFiles :=
  {| yaml_imported := true;
     yaml_safe_load := fun _ => Ok data;
     json_load := fun _ => Ok data |}.

(** ** Render plugins for the examples *)

(** A plugin whose [render] takes [messages] alone and fails on it: the
    keyword call raises [TypeError], the positional call raises [text]. *)
Definition positional_failing (text : string) : RenderPlugin :=
  {| call_keywords := fun _ _ => RaisesTypeError;
     call_positional := fun _ => RaisesOther text |}.

(** A plugin that accepts the keyword call and fails on it. *)
Definition keyword_failing (text : string) : RenderPlugin :=
  {| call_keywords := fun _ _ => RaisesOther text;
     call_positional := fun _ => RaisesOther text |}.

(** Two records with a system message each. *)
Definition two_records : string :=
  RefJson.q "{'id': 'r1', 'messages': [{'role': 'system', 'content': 'Be brief.'}]}" +:+ LF
  +:+ RefJson.q "{'id': 'r2', 'messages': [{'role': 'system', 'content': 'Be kind.'}]}" +:+ LF.

(** ** Vocabulary of the dataset checker *)

(** The size a row of a split resolves to. *)
Definition row_size (features : list (string * feature)) (row : list (string * value))
  : option (Z * Z) :=
  _get_size_from_row row (_find_image_columns features)
    (pick_column features "image_w" "width") (pick_column features "image_h" "height").

(** The resolved sizes of a split, row by row. *)
Definition sizes_of (features : list (string * feature))
    (rows : list (list (string * value))) : list (Z * Z) :=
  omap (row_size features) rows.

(** The tally a list of sizes builds. *)
Definition tally_of (sizes : list (Z * Z)) (seen : tally) : tally :=
  fold_left (fun seen size => count_size size seen) sizes seen.

(** How many rows resolved to [size]. *)
Definition occurrences (size : Z * Z) (sizes : list (Z * Z)) : nat :=
  length (filter (fun s => s = size) sizes).

(** The count the tally holds for a size, zero when it holds none. *)
Fixpoint tally_count (size : Z * Z) (seen : tally) : nat :=
  match seen with
  | [] => 0%nat
  | (s, c) :: rest => if size_eqb size s then c else tally_count size rest
  end.

(** Entries in order of decreasing count. *)
Definition by_count_desc (a b : (Z * Z) * nat) : Prop := (b.2 <= a.2)%nat.

(** The aggregated warning of a split, listing [top]. *)
Definition inconsistent_sizes (split_name : string) (top : tally) : Issue :=
  mkIssue "WARN" "W201_IMAGE_SIZE_INCONSISTENT" 1 split_name "image"
    ("Inconsistent image sizes in split " +:+ split_name +:+ ": "
     +:+ PyStr.join ", " (map size_with_count top)).

(** The split-level warning that no size could be determined. *)
Definition sizes_unknown (split_name : string) : Issue :=
  mkIssue "WARN" "W202_IMAGE_SIZE_UNKNOWN" 1 split_name "image"
    "Cannot determine image sizes for this split.".

(** A row with explicit integral width and height columns. *)
Definition sized_row (w h : Z) : list (string * value) :=
  [("image_w", VInt w); ("image_h", VInt h)].

(** Nine rows of 512x512 and one of 640x480. *)
Definition mixed_rows : list (list (string * value)) :=
  replicate 9 (sized_row 512 512) ++ [sized_row 640 480].

Definition size_columns : list (string * feature) :=
  [("image_w", FScalar); ("image_h", FScalar)].

(** ** Vocabulary of the stricter coordinate check *)

(** A coordinate beyond the side of the image. *)
Definition exceeds (v : pyfloat) (side : Z) : bool := Num.gt v (Num.of_int side).

(** A coordinate below zero. *)
Definition negative (v : pyfloat) : bool := Num.lt v (Num.of_int 0).

(** A coordinate in the band from 800 to 1200. *)
Definition in_band (v : pyfloat) : bool :=
  Num.ge v (Num.of_int 800) && Num.le v (Num.of_int 1200).

(** The heuristic: both sides at most 600 and the coordinate in the band. *)
Definition alternate_space (w h : Z) (v : pyfloat) : bool :=
  (w <=? 600) && (h <=? 600) && in_band v.

(** The codes of the stricter coordinate check. *)
Definition codes_of (issues : list DatasetChecks.DatasetIssue) : list string :=
  map DatasetChecks.d_code issues.

(** The default names of the coordinate keys. *)
Definition xyxy : string * string * string * string := ("x0", "y0", "x1", "y1").

(** A row with an image size and a coordinates mapping. *)
Definition box_row (w h : Z) (x0 y0 x1 y1 : value) : list (string * value) :=
  [("image_w", VInt w); ("image_h", VInt h);
   ("coordinates", VDict [("x0", x0); ("y0", y0); ("x1", x1); ("y1", y1)])].

(** [math.isnan(v)]. *)
Definition is_nan (v : pyfloat) : bool :=
  match v with NaN => true | _ => false end.

(** ** Files for the examples *)

(** A file with a record, a blank line and a line that does not decode. *)
Definition three_lines : string :=
  RefJson.q "{'id': 'a', 'messages': []}" +:+ LF +:+ "   " +:+ LF +:+ "{oops" +:+ LF.

(** A record in compact form, and the same record as [json.dumps] writes
    it. *)
Definition compact_line : string := RefJson.q "{'id':'t1','messages':[]}" +:+ LF.
Definition spaced_line : string := RefJson.q "{'id': 't1', 'messages': []}" +:+ LF.

(** A file in which both rules apply, next to a blank and a bad line. *)
Definition typo_file : string :=
  RefJson.q "{'id':'x','messages':[{'role':'usr','content':[{'text':'hi'}]}]}" +:+ LF
  +:+ LF
  +:+ "nonsense" +:+ LF
  +:+ RefJson.q "{'messages': [{'role': 'assistant', 'content': 'ok'}]}".

Definition typo_file_fixed : string :=
  RefJson.q "{'id': 'x', 'messages': [{'role': 'user', 'content': [{'text': 'hi', 'type': 'text'}]}]}"
  +:+ LF
  +:+ RefJson.q "{'messages': [{'role': 'assistant', 'content': 'ok'}]}" +:+ LF.

(* ===================================================================== *)
(** * Vocabulary of the further properties *)
(* ===================================================================== *)

(** ** Vocabulary of the linter *)

(** A typed content item the strict schema accepts: an object with a
    [type]; a text item holds a string, an image item holds an image. *)
Definition accepted_item (it : json) : bool :=
  match it with
  | JDict d =>
      truthy (get "type" d)
      && (if eq_str (get "type" d) "text" then is_str (get "text" d)
          else if eq_str (get "type" d) "image" then Dict.mem "image" d
          else true)
  | _ => false
  end.

(** A content the schema accepts: in strict mode a list of accepted items,
    otherwise a string, a list or an object. *)
Definition accepted_content (strict_typed : bool) (content : json) : bool :=
  if strict_typed then
    match content with JList items => forallb accepted_item items | _ => false end
  else is_str content || is_list content || is_dict content.

(** A message the schema accepts: an object with one of the four roles and
    an accepted content. *)
Definition accepted_message (strict_typed : bool) (m : json) : bool :=
  match m with
  | JDict d =>
      existsb (eq_str (get "role" d)) _ALLOWED_ROLES
      && Dict.mem "content" d
      && accepted_content strict_typed (get "content" d)
  | _ => false
  end.

(** An issue of line [n] and sample [sid], at level [ERROR]. *)
Definition error_of (n : nat) (sid : string) (i : Issue) : Prop :=
  level i = "ERROR" /\ line i = n /\ sample_id i = sid.

(** The codes of the chat-schema linter. *)
Definition lint_codes : list string :=
  ["E001_INFER_HAS_ASSISTANT"; "E001_TRAIN_MISSING_ASSISTANT"; "E002_SYSTEM_REQUIRED";
   "E002_SYSTEM_EMPTY"; "E003_SCHEMA_MISMATCH"; "E004_BAD_JSON";
   "E011_MISSING_TYPE_FIELDS"; "E012_BAD_FIELD_TYPE"].

(** One result reports at least as much as another: both raise the same
    exception, or both return and the first is at least as long. *)
Definition reports_more (r1 r2 : result (list Issue)) : Prop :=
  match r1, r2 with
  | Ok more, Ok less => (length less <= length more)%nat
  | Raise e1, Raise e2 => e1 = e2
  | _, _ => False
  end.


(** The two issues of the mode check: a train sample without an assistant
    turn, and an infer sample whose first assistant turn is message [i]. *)
Definition train_missing_assistant (n : nat) (sid : string) : Issue :=
  mkIssue "ERROR" "E001_TRAIN_MISSING_ASSISTANT" n sid "messages"
    "Train sample contains no assistant turn (no supervision label).".
Definition infer_has_assistant (n : nat) (sid : string) (i : nat) : Issue :=
  mkIssue "ERROR" "E001_INFER_HAS_ASSISTANT" n sid
    ("messages[" +:+ PyStr.of_nat i +:+ "].role")
    "Inference sample contains an assistant turn (risk of label leakage / wrong prompt).".

(** A user turn answered by the assistant. *)
Definition question_and_answer : list json :=
  [msg "user" "hi"; msg "assistant" "hello"; msg "assistant" "again"].

(** The issue of a record without the system message its profile requires. *)
Definition system_required (n : nat) (sid : string) : Issue :=
  mkIssue "ERROR" "E002_SYSTEM_REQUIRED" n sid "messages"
    "Profile requires a role='system' message, but none is present.".

(** A profile that requires nothing. *)
Definition lenient : Profile :=
  mkProfile "lenient" (JBool false) (JBool false) (JBool false) (JStr "WARN").

(** What the linter may raise: a value without [get], or an unhashable
    role. *)
Definition lint_exception (e : exn) : Prop := e = AttributeError \/ e = TypeError.

(** An issue of the linter on a file of [count] lines: an error with one of
    the linter's codes, on one of the lines. *)
Definition lint_issue (count : nat) (i : Issue) : Prop :=
  level i = "ERROR" /\ In (code i) lint_codes /\ (1 <= line i <= count)%nat.

(** An issue of the linter on line [n]. *)
Definition lint_error (n : nat) (i : Issue) : Prop :=
  level i = "ERROR" /\ In (code i) lint_codes /\ line i = n.

(** A message the linter can read: an object whose role can be hashed. *)
Definition readable_message (m : json) : bool :=
  match m with
  | JDict d => hashable (get "role" d)
  | _ => false
  end.

(** A file whose record misspells a role, and the issue the linter has for
    it. *)
Definition usr_record : string :=
  RefJson.q "{'id': 'u1', 'messages': [{'role': 'usr', 'content': 'hi'}, {'role': 'assistant', 'content': 'ok'}]}"
  +:+ LF.
Definition invalid_role_usr : Issue :=
  mkIssue "ERROR" "E003_SCHEMA_MISMATCH" 1 "u1" "messages[0].role" "Invalid role: 'usr'.".

(** ** Vocabulary of the safe-fix transform, continued *)

(** An issue of the transform on a file of [count] lines: the note of a
    repaired role, the note of an added type (strict mode only), or the
    error of a line that does not decode. *)
Definition fix_issue (strict_typed : bool) (count : nat) (i : Issue) : Prop :=
  (1 <= line i <= count)%nat
  /\ ((level i = "INFO" /\ code i = "I901_FIX_ROLE_USR")
      \/ (level i = "INFO" /\ code i = "I902_FIX_ADD_TYPE_TEXT" /\ strict_typed = true)
      \/ (level i = "ERROR" /\ code i = "E004_BAD_JSON")).

(** The role of a message after the repair. *)
Definition repaired_role (role : json) : json :=
  if eq_str role "usr" then JStr "user" else role.

(** An item and its repair: the same item, or the item with the key [type]
    added at the end. *)
Definition item_kept (it it' : json) : Prop :=
  it' = it
  \/ exists d, it = JDict d /\ Dict.lookup "type" d = None
               /\ it' = JDict (d ++ [("type", JStr "text")]).

(** A content and its repair: the same content, or a list of the same
    length whose items are kept. *)
Definition content_kept (content content' : json) : Prop :=
  content' = content
  \/ exists items items', content = JList items /\ content' = JList items'
                          /\ Forall2 item_kept items items'.

(** A message and its repair: a value that is not an object is left alone;
    an object keeps its keys in order and all its fields, but for the
    repaired role and content. *)
Definition message_kept (m m' : json) : Prop :=
  match m with
  | JDict d =>
      exists d', m' = JDict d' /\ Dict.keys d' = Dict.keys d
                 /\ get "role" d' = repaired_role (get "role" d)
                 /\ content_kept (get "content" d) (get "content" d')
                 /\ (forall k, k <> "role" -> k <> "content" ->
                               Dict.lookup k d' = Dict.lookup k d)
  | _ => m' = m
  end.

(** ** Vocabulary of the visibility check *)

(** The issue of a system text that the rendered prompt does not hold. *)
Definition system_not_visible (lvl : string) (n : nat) (sid : string) : Issue :=
  mkIssue lvl "E002_SYSTEM_NOT_VISIBLE" n sid "messages"
    "System message exists but is not present in the rendered prompt (likely dropped by the pipeline).".

(** A plugin that renders every sample to the same prompt. *)
Definition constant_plugin (prompt : string) : RenderPlugin :=
  {| call_keywords := fun _ _ => Returns prompt;
     call_positional := fun _ => Returns prompt |}.

(** A valid profile whose visibility issue is a warning. *)
Definition warn_only : Profile :=
  mkProfile "warn-only" (JBool true) (JBool true) (JBool false) (JStr "WARN").

(** ** Vocabulary of the profile registry, continued *)

(** The file name has one of the suffixes of an override file. *)
Definition override_suffix (file : string) : bool :=
  PyStr.endswith file ".yaml" || PyStr.endswith file ".yml" || PyStr.endswith file ".json".

(** An override entry that relaxes [my-vlm], and a file that holds it. *)
Definition relaxed_fields : list (string * json) :=
  [("require_system", JBool false); ("system_invisible_level", JStr "WARN")].
Definition relaxed_overrides : list (string * json) :=
  [("my-vlm", JDict relaxed_fields)].

(** ** Vocabulary of the dataset checks, continued *)

(** Structural induction on [value] through its lists and dicts. *)
Fixpoint value_induction (P : value -> Prop)
    (Hnone : P VNone) (Hbool : forall b, P (VBool b)) (Hint : forall n, P (VInt n))
    (Hfloat : forall f, P (VFloat f)) (Hstr : forall s, P (VStr s))
    (Himage : forall w h, P (VImage w h))
    (Hlist : forall l, Forall P l -> P (VList l))
    (Hdict : forall d, Forall (fun kv => P kv.2) d -> P (VDict d))
    (v : value) {struct v} : P v :=
  let go := value_induction P Hnone Hbool Hint Hfloat Hstr Himage Hlist Hdict in
  match v with
  | VNone => Hnone
  | VBool b => Hbool b
  | VInt n => Hint n
  | VFloat f => Hfloat f
  | VStr s => Hstr s
  | VImage w h => Himage w h
  | VList l =>
      Hlist l ((fix all (l : list value) : Forall P l :=
                  match l with
                  | [] => Forall_nil_2 P
                  | x :: l' => Forall_cons_2 P x l' (go x) (all l')
                  end) l)
  | VDict d =>
      Hdict d ((fix all (d : list (string * value)) : Forall (fun kv => P kv.2) d :=
                  match d with
                  | [] => Forall_nil_2 _
                  | kv :: d' => Forall_cons_2 (fun kv => P kv.2) kv d' (go kv.2) (all d')
                  end) d)
  end.

(** A value that is neither a list nor a mapping. *)
Definition is_scalar (v : value) : bool :=
  match v with VList _ | VDict _ => false | _ => true end.

(** The keys of a row whose value is [None]. *)
Definition none_keys (row : list (string * value)) : list string :=
  omap (fun kv => if is_none kv.2 then Some kv.1 else None) row.

(** A row with a nested mapping and a list. *)
Definition nested_row : list (string * value) :=
  [("id", VStr "r1");
   ("meta", VDict [("a", VNone); ("tags", VList [VInt 1; VNone])])].

(** Some issue of the list has this code. *)
Definition reports (c : string) (issues : list Issue) : bool :=
  existsb (fun i => String.eqb (code i) c) issues.

(** Three rows of 512x512. *)
Definition uniform_rows : list (list (string * value)) :=
  replicate 3 (sized_row 512 512).

(** ** Vocabulary of the declared leaves *)


(** A key without a dot. *)
Fixpoint dot_free (s : string) : bool :=
  match s with
  | EmptyString => true
  | String c r => negb (PyStr.byte_of c =? 46)%N && dot_free r
  end.


(** The value under the key [k]: [None] when there is no mapping or no such
    key. *)
Definition child (k : string) (v : value) : value :=
  match v with VDict d => vget k d | _ => VNone end.





(* ===================================================================== *)
(** * Facts about strings and dicts *)
(* ===================================================================== *)


Lemma sapp_cons (c : ascii) (s t : string) : String c s +:+ t = String c (s +:+ t).
Proof. reflexivity. Qed.

Lemma sapp_nil_l (t : string) : "" +:+ t = t.
Proof. reflexivity. Qed.

Lemma sapp_nil_r (s : string) : s +:+ "" = s.
Proof. induction s as [|c s IH]; [reflexivity|]. rewrite sapp_cons, IH. reflexivity. Qed.

Lemma sapp_assoc (s t u : string) : (s +:+ t) +:+ u = s +:+ (t +:+ u).
Proof. induction s as [|c s IH]; [reflexivity|]. rewrite !sapp_cons, IH. reflexivity. Qed.

Lemma length_sapp (s t : string) :
  String.length (s +:+ t) = (String.length s + String.length t)%nat.
Proof. induction s as [|c s IH]; [reflexivity|]. rewrite sapp_cons. cbn. rewrite IH. reflexivity. Qed.

Lemma rev_app_spec (s acc : string) : String.rev_app s acc = String.rev s +:+ acc.
Proof.
  unfold String.rev. revert acc.
  induction s as [|c s IH]; intros acc; [reflexivity|].
  cbn [String.rev_app]. rewrite IH, (IH (String c "")), sapp_assoc. reflexivity.
Qed.

Lemma rev_cons (c : ascii) (s : string) : String.rev (String c s) = String.rev s +:+ String c "".
Proof. unfold String.rev at 1. cbn [String.rev_app]. apply rev_app_spec. Qed.

Lemma rev_app_distr (s t : string) : String.rev (s +:+ t) = String.rev t +:+ String.rev s.
Proof.
  induction s as [|c s IH].
  - rewrite sapp_nil_l, sapp_nil_r. reflexivity.
  - rewrite sapp_cons, !rev_cons, IH, sapp_assoc. reflexivity.
Qed.

Lemma rev_involutive (s : string) : String.rev (String.rev s) = s.
Proof.
  induction s as [|c s IH]; [reflexivity|].
  rewrite rev_cons, rev_app_distr, IH. reflexivity.
Qed.



Lemma lookup_set_eq {V} (k : string) (v : V) (d : list (string * V)) :
  Dict.lookup k (Dict.set k v d) = Some v.
Proof.
  induction d as [|[k' v'] d IH]; cbn.
  - rewrite String.eqb_refl. reflexivity.
  - destruct (String.eqb k k') eqn:E; cbn; rewrite E; [reflexivity|exact IH].
Qed.

Lemma lookup_set_ne {V} (k k0 : string) (v : V) (d : list (string * V)) :
  k0 <> k -> Dict.lookup k0 (Dict.set k v d) = Dict.lookup k0 d.
Proof.
  intros Hne. induction d as [|[k' v'] d IH]; cbn.
  - apply String.eqb_neq in Hne. rewrite Hne. reflexivity.
  - destruct (String.eqb k k') eqn:E; cbn.
    + apply String.eqb_eq in E as <-. apply String.eqb_neq in Hne. rewrite Hne. reflexivity.
    + rewrite IH. reflexivity.
Qed.

Lemma set_same {V} (k : string) (v : V) (d : list (string * V)) :
  Dict.lookup k d = Some v -> Dict.set k v d = d.
Proof.
  induction d as [|[k' v'] d IH]; cbn; [discriminate|].
  destruct (String.eqb k k') eqn:E.
  - intros [= ->]. reflexivity.
  - intros H. rewrite IH by exact H. reflexivity.
Qed.

Lemma lookup_None {V} (k : string) (d : list (string * V)) :
  Dict.lookup k d = None <-> k ∉ map fst d.
Proof.
  induction d as [|[k' v'] d IH]; cbn.
  - split; [intros _; apply not_elem_of_nil|reflexivity].
  - rewrite not_elem_of_cons. destruct (String.eqb k k') eqn:E.
    + apply String.eqb_eq in E. split; [discriminate|]. intros [Hne _]. contradiction.
    + apply String.eqb_neq in E. rewrite IH. tauto.
Qed.

Lemma set_fresh {V} (k : string) (v : V) (d : list (string * V)) :
  k ∉ map fst d -> Dict.set k v d = d ++ [(k, v)].
Proof.
  induction d as [|[k' v'] d IH]; cbn; [reflexivity|].
  rewrite not_elem_of_cons. intros [Hne Hd].
  apply String.eqb_neq in Hne. rewrite Hne, IH by exact Hd. reflexivity.
Qed.

Lemma keys_set {V} (k : string) (v : V) (d : list (string * V)) :
  map fst (Dict.set k v d)
  = if Dict.mem k d then map fst d else map fst d ++ [k].
Proof.
  unfold Dict.mem. induction d as [|[k' v'] d IH]; cbn; [reflexivity|].
  destruct (String.eqb k k') eqn:E; cbn; [reflexivity|].
  rewrite IH. destruct (Dict.lookup k d); reflexivity.
Qed.

Lemma NoDup_keys_set {V} (k : string) (v : V) (d : list (string * V)) :
  NoDup (map fst d) -> NoDup (map fst (Dict.set k v d)).
Proof.
  intros Hnd. rewrite keys_set. unfold Dict.mem.
  destruct (Dict.lookup k d) eqn:E; [exact Hnd|].
  apply lookup_None in E. apply NoDup_app. repeat split; [exact Hnd| |apply NoDup_singleton].
  intros x Hx Hx'. apply list_elem_of_singleton in Hx' as ->. contradiction.
Qed.

Lemma Forall_values_set {V} (P : V -> Prop) (k : string) (v : V) (d : list (string * V)) :
  P v -> Forall (fun kv => P kv.2) d -> Forall (fun kv => P kv.2) (Dict.set k v d).
Proof.
  intros Hv. induction 1 as [|[k' v'] d Hkv Hd IH]; cbn.
  - repeat constructor. exact Hv.
  - destruct (String.eqb k k'); constructor; assumption.
Qed.



(* ===================================================================== *)
(** * The reference codec satisfies the codec laws *)
(* ===================================================================== *)

Section ReferenceCodec.

Lemma scan_string_step (c : ascii) (X t rest : string) :
  scan_string X = Some (t, rest) ->
  scan_string (escape_char c +:+ X) = Some (String c t, rest).
Proof.
  intros HX.
  destruct c as [[] [] [] [] [] [] [] []].
  all: match goal with |- context [escape_char ?c] =>
         let e := eval vm_compute in (escape_char c) in change (escape_char c) with e end.
  all: rewrite ?sapp_cons, ?sapp_nil_l.
  all: cbn [scan_string]; cbn; rewrite ?HX; reflexivity.
Qed.

Lemma scan_string_escape (s rest : string) :
  scan_string (escape s +:+ String dq rest) = Some (s, rest).
Proof.
  induction s as [|c s IH].
  - reflexivity.
  - cbn [escape]. rewrite sapp_assoc. apply scan_string_step, IH.
Qed.


Lemma delimited_no_digit (rest : string) :
  delimited rest = true -> starts_with_digit rest = false /\ continues_number rest = false.
Proof.
  destruct rest as [|c r]; [split; reflexivity|].
  unfold delimited, starts_with_digit, continues_number, is_digit.
  generalize (PyStr.byte_of c). intros n Hn.
  rewrite !orb_true_iff, !N.eqb_eq in Hn.
  destruct Hn as [[->| ->]| ->]; split; reflexivity.
Qed.

Lemma digits_of_uint (d : Decimal.uint) (rest : string) :
  starts_with_digit rest = false ->
  digits (NilEmpty.string_of_uint d +:+ rest) = (NilEmpty.string_of_uint d, rest).
Proof.
  intros Hr. induction d; cbn [NilEmpty.string_of_uint];
    rewrite ?sapp_cons, ?sapp_nil_l; cbn [digits];
    try (change (is_digit _) with true; cbn iota; rewrite IHd; reflexivity).
  destruct rest as [|c r]; [reflexivity|].
  cbn [digits]. cbn in Hr. rewrite Hr. reflexivity.
Qed.

Lemma nzhead_no_zero (d d' : Decimal.uint) : Decimal.nzhead d <> Decimal.D0 d'.
Proof. induction d; cbn; try discriminate; assumption. Qed.

Lemma unorm_zero_head (d d' : Decimal.uint) :
  Decimal.unorm d = Decimal.D0 d' -> d' = Decimal.Nil.
Proof.
  unfold Decimal.unorm. pose proof (nzhead_no_zero d) as Hnz.
  destruct (Decimal.nzhead d); try discriminate; try (intros H; exfalso; eapply Hnz; exact H).
  intros [= <-]. reflexivity.
Qed.

Lemma to_uint_normal (p : positive) : Decimal.unorm (Pos.to_uint p) = Pos.to_uint p.
Proof.
  rewrite <- (Unsigned.to_of (Pos.to_uint p)), Unsigned.of_to. reflexivity.
Qed.

Lemma to_uint_head (p : positive) (d' : Decimal.uint) : Pos.to_uint p <> Decimal.D0 d'.
Proof.
  intros H. pose proof (to_uint_normal p) as Hn. rewrite H in Hn.
  pose proof (unorm_zero_head _ _ Hn) as ->.
  apply (Unsigned.to_uint_nonzero p). exact H.
Qed.

(** The digits of a positive number, scanned back. *)
Lemma scan_digits_pos (p : positive) (rest : string) :
  starts_with_digit rest = false ->
  exists c more,
    NilZero.string_of_uint (Pos.to_uint p) = String c more
    /\ (PyStr.byte_of c =? 45)%N = false
    /\ ((PyStr.byte_of c =? 48)%N && negb (PyStr.is_empty more)) = false
    /\ digits (String c more +:+ rest) = (String c more, rest)
    /\ NilZero.uint_of_string (String c more) = Some (Pos.to_uint p).
Proof.
  intros Hr.
  pose proof (Unsigned.to_uint_nonnil p) as Hnil.
  pose proof (to_uint_head p) as Hhead.
  pose proof (NilZero.usu (Pos.to_uint p) Hnil) as Husu.
  pose proof (digits_of_uint (Pos.to_uint p) rest Hr) as Hdig.
  unfold NilZero.string_of_uint in *.
  destruct (Pos.to_uint p) as [|d|d|d|d|d|d|d|d|d|d] eqn:E; [congruence| |..].
  1: exfalso; eapply Hhead; reflexivity.
  all: cbn [NilEmpty.string_of_uint] in *; eexists _, _; repeat split; try reflexivity;
       assumption.
Qed.

Lemma scan_int_of_Z (z : Z) (rest : string) :
  delimited rest = true ->
  scan_int (PyStr.of_Z z +:+ rest) = Some (z, rest).
Proof.
  intros Hd. destruct (delimited_no_digit rest Hd) as [Hnd Hnc].
  unfold PyStr.of_Z. destruct z as [|p|p]; cbn [Z.to_int NilZero.string_of_int].
  - change (NilZero.string_of_uint (Decimal.D0 Decimal.Nil)) with "0".
    unfold scan_int. rewrite sapp_cons, sapp_nil_l.
    change ((PyStr.byte_of "0" =? 45)%N) with false. cbn iota.
    cbn [digits]. change (is_digit "0") with true. cbn iota.
    destruct rest as [|c r].
    + reflexivity.
    + cbn [digits]. cbn in Hnd. rewrite Hnd. cbn in Hnc |- *. rewrite Hnc. reflexivity.
  - destruct (scan_digits_pos p rest Hnd) as (c & more & -> & H45 & H48 & Hdig & Hu).
    unfold scan_int. rewrite sapp_cons, H45. rewrite <- sapp_cons, Hdig, H48, Hnc, Hu.
    unfold Z.of_uint. rewrite Unsigned.of_to. reflexivity.
  - destruct (scan_digits_pos p rest Hnd) as (c & more & -> & H45 & H48 & Hdig & Hu).
    unfold scan_int. rewrite sapp_cons.
    change ((PyStr.byte_of "-" =? 45)%N) with true. cbn iota.
    rewrite Hdig, H48, Hnc, Hu.
    unfold Z.of_uint. rewrite Unsigned.of_to. reflexivity.
Qed.


Lemma of_Z_start (z : Z) :
  exists c s, PyStr.of_Z z = String c s /\ (is_digit c || (PyStr.byte_of c =? 45)%N) = true.
Proof.
  unfold PyStr.of_Z. destruct z as [|p|p]; cbn [Z.to_int NilZero.string_of_int].
  - eexists _, _. split; reflexivity.
  - destruct (scan_digits_pos p "" eq_refl) as (c & more & -> & _ & _ & Hdig & _).
    exists c, more. split; [reflexivity|].
    rewrite sapp_cons in Hdig. cbn [digits] in Hdig.
    destruct (is_digit c); [reflexivity|discriminate Hdig].
  - eexists _, _. split; reflexivity.
Qed.

Lemma join_cons2 (sep a b : string) (l : list string) :
  PyStr.join sep (a :: b :: l) = a +:+ sep +:+ PyStr.join sep (b :: l).
Proof. reflexivity. Qed.

Lemma dump_start (v : json) :
  exists c s, dump v = String c s /\ value_start c = true.
Proof.
  destruct v as [|[]|z|s|l|d]; try (eexists _, _; split; reflexivity).
  destruct (of_Z_start z) as (c & s & E & Hc). exists c, s. split; [exact E|].
  unfold value_start. cbn [existsb].
  apply orb_true_iff in Hc as [->| ->]; [reflexivity|].
  rewrite orb_true_r. reflexivity.
Qed.

(** A value start is not whitespace and closes nothing. *)
Lemma value_start_facts (c : ascii) :
  value_start c = true ->
  is_ws c = false /\ (PyStr.byte_of c =? 93)%N = false /\ (PyStr.byte_of c =? 125)%N = false
  /\ PyStr.is_space1 c = false /\ (PyStr.byte_of c <? 128)%N = true.
Proof.
  destruct c as [[] [] [] [] [] [] [] []]; intros Hc; try discriminate Hc;
    repeat split; reflexivity.
Qed.

Lemma skip_ws_dump (v : json) (t : string) : skip_ws (dump v +:+ t) = dump v +:+ t.
Proof.
  destruct (dump_start v) as (c & s & -> & Hc).
  apply value_start_facts in Hc as (Hws & _). rewrite sapp_cons. cbn [skip_ws].
  rewrite Hws. reflexivity.
Qed.

Lemma scan_value_number (f : nat) (c : ascii) (r : string) :
  (is_digit c || (PyStr.byte_of c =? 45)%N) = true ->
  scan_value (S f) (String c r)
  = match scan_int (String c r) with
    | Some (z, rest) => Some (JInt z, rest)
    | None => None
    end.
Proof.
  destruct c as [[] [] [] [] [] [] [] []]; intros Hc; try discriminate Hc; reflexivity.
Qed.


Lemma scan_elements_dump (l : list json) :
  Forall reads_back l -> l <> [] ->
  forall fuel rest, (elements_cost l <= fuel)%nat ->
    scan_elements fuel (PyStr.join ", " (map dump l) +:+ String "]" rest) = Some (l, rest).
Proof.
  induction 1 as [|v l Hv Hl IH]; [congruence|]. intros _ fuel rest Hfuel.
  cbn [elements_cost foldr] in Hfuel. fold (elements_cost l) in Hfuel.
  destruct fuel as [|f]; [lia|]. cbn [scan_elements].
  destruct l as [|w l'].
  - cbn [map PyStr.join].
    rewrite (Hv f (String "]" rest)) by (reflexivity || lia). reflexivity.
  - cbn [map]. rewrite join_cons2, !sapp_assoc.
    change (", " +:+ ?x) with (String "," (String " " x)).
    rewrite (Hv f) by (reflexivity || lia).
    cbn [skip_ws]. change (is_ws ",") with false. cbn iota.
    change ((PyStr.byte_of "," =? 93)%N) with false.
    change ((PyStr.byte_of "," =? 44)%N) with true. cbn iota.
    cbn [skip_ws]. change (is_ws " ") with true. cbn iota.
    change (dump w :: map dump l') with (map dump (w :: l')).
    assert (skip_ws (PyStr.join ", " (map dump (w :: l')) +:+ String "]" rest)
            = PyStr.join ", " (map dump (w :: l')) +:+ String "]" rest) as ->.
    { destruct l' as [|x l'']; cbn [map PyStr.join]; rewrite ?sapp_assoc;
        apply skip_ws_dump. }
    rewrite IH by (congruence || lia). reflexivity.
Qed.

Lemma skip_ws_member (kv : string * json) (t : string) :
  skip_ws (member_text kv +:+ t) = member_text kv +:+ t.
Proof. unfold member_text, dump_str. rewrite !sapp_assoc, !sapp_cons. reflexivity. Qed.

Lemma scan_members_dump (d : list (string * json)) :
  Forall (fun kv => reads_back kv.2) d -> d <> [] ->
  forall fuel rest, (members_cost d <= fuel)%nat ->
    scan_members fuel (PyStr.join ", " (map member_text d) +:+ String "}" rest)
    = Some (d, rest).
Proof.
  induction 1 as [|[k v] d Hv Hd IH]; [congruence|]. intros _ fuel rest Hfuel.
  cbn [members_cost foldr snd] in Hfuel. fold (members_cost d) in Hfuel.
  destruct fuel as [|f]; [lia|]. cbn [snd] in Hv.
  assert (forall R, delimited R = true ->
            scan_members (S f) (member_text (k, v) +:+ R)
            = match skip_ws R with
              | String c r4 =>
                  if (PyStr.byte_of c =? 125)%N then Some ([(k, v)], r4)
                  else if (PyStr.byte_of c =? 44)%N then
                    match scan_members f (skip_ws r4) with
                    | Some (kvs, rest) => Some ((k, v) :: kvs, rest)
                    | None => None
                    end
                  else None
              | EmptyString => None
              end) as Hstep.
  { intros R HR. unfold member_text, dump_str. cbn [fst snd].
    rewrite !sapp_assoc, !sapp_cons, !sapp_assoc. rewrite !sapp_cons, sapp_nil_l.
    cbn [scan_members]. change ((PyStr.byte_of dq =? 34)%N) with true. cbn iota.
    rewrite scan_string_escape.
    cbn [skip_ws]. change (is_ws ":") with false. cbn iota.
    change ((PyStr.byte_of ":" =? 58)%N) with true. cbn iota.
    cbn [skip_ws]. change (is_ws " ") with true. cbn iota.
    rewrite sapp_nil_l, skip_ws_dump, (Hv f R) by (assumption || lia). reflexivity. }
  destruct d as [|kv d'].
  - cbn [map PyStr.join]. rewrite Hstep by reflexivity. reflexivity.
  - cbn [map]. rewrite join_cons2, !sapp_assoc.
    change (", " +:+ ?x) with (String "," (String " " x)).
    rewrite Hstep by reflexivity.
    cbn [skip_ws]. change (is_ws ",") with false. cbn iota.
    change ((PyStr.byte_of "," =? 125)%N) with false.
    change ((PyStr.byte_of "," =? 44)%N) with true. cbn iota.
    cbn [skip_ws]. change (is_ws " ") with true. cbn iota.
    change (member_text kv :: map member_text d') with (map member_text (kv :: d')).
    assert (skip_ws (PyStr.join ", " (map member_text (kv :: d')) +:+ String "}" rest)
            = PyStr.join ", " (map member_text (kv :: d')) +:+ String "}" rest) as ->.
    { destruct d' as [|x d'']; cbn [map PyStr.join]; rewrite ?sapp_assoc;
        apply skip_ws_member. }
    rewrite IH by (congruence || lia). reflexivity.
Qed.

Lemma dict_of_pairs_onto (d acc : list (string * json)) :
  NoDup (map fst (acc ++ d)) ->
  fold_left (fun acc kv => Dict.set kv.1 kv.2 acc) d acc = acc ++ d.
Proof.
  revert acc. induction d as [|[k v] d IH]; intros acc Hnd; cbn [fold_left].
  - rewrite app_nil_r. reflexivity.
  - cbn [fst snd]. rewrite set_fresh.
    + rewrite IH; rewrite <- app_assoc; [reflexivity|exact Hnd].
    + rewrite map_app in Hnd. apply NoDup_app in Hnd as (_ & Hdisj & _).
      intros Hin. apply (Hdisj k Hin). cbn. apply list_elem_of_here.
Qed.

Lemma dict_of_pairs_distinct (d : list (string * json)) :
  NoDup (map fst d) -> dict_of_pairs d = d.
Proof. intros Hnd. apply (dict_of_pairs_onto d []). exact Hnd. Qed.

Lemma dict_of_pairs_well_formed (P : json -> Prop) (pairs : list (string * json)) :
  Forall (fun kv => P kv.2) pairs ->
  NoDup (map fst (dict_of_pairs pairs)) /\ Forall (fun kv => P kv.2) (dict_of_pairs pairs).
Proof.
  unfold dict_of_pairs.
  assert (forall acc, NoDup (map fst acc) -> Forall (fun kv => P kv.2) acc ->
            Forall (fun kv => P kv.2) pairs ->
            NoDup (map fst (fold_left (fun acc kv => Dict.set kv.1 kv.2 acc) pairs acc))
            /\ Forall (fun kv => P kv.2)
                 (fold_left (fun acc kv => Dict.set kv.1 kv.2 acc) pairs acc)) as Hgen.
  { induction pairs as [|[k v] pairs IH]; intros acc Hnd Hacc Hp; cbn [fold_left].
    - split; assumption.
    - apply Forall_cons in Hp as [Hv Hp]. apply IH; [| |exact Hp].
      + apply NoDup_keys_set, Hnd.
      + apply Forall_values_set; assumption. }
  intros Hp. apply Hgen; [constructor|constructor|exact Hp].
Qed.

(** Every well-formed value is read back from its encoding. *)
Lemma scan_value_dump (v : json) : well_formed v -> reads_back v.
Proof.
  induction v as [|b|z|s|l IH|d IH] using json_induction; intros Hwf fuel rest Hfuel Hrest;
    (destruct fuel as [|f]; [cbn in Hfuel; lia|]).
  - reflexivity.
  - destruct b; reflexivity.
  - cbn [dump]. destruct (of_Z_start z) as (c & s & E & Hc).
    pose proof (scan_int_of_Z z rest Hrest) as Hscan.
    rewrite E in Hscan |- *. rewrite sapp_cons in Hscan |- *.
    rewrite (scan_value_number f c _ Hc), Hscan. reflexivity.
  - cbn [dump]. unfold dump_str. rewrite sapp_cons, sapp_assoc, sapp_cons, sapp_nil_l.
    cbn [scan_value]. change ((PyStr.byte_of dq =? 34)%N) with true. cbn iota.
    rewrite scan_string_escape. reflexivity.
  - inversion Hwf as [| | | |l' Hl|]; subst.
    assert (Forall reads_back l) as Hrb.
    { apply Forall_forall. intros x Hx. rewrite Forall_forall in IH, Hl. auto. }
    cbn [dump]. repeat (rewrite sapp_cons || rewrite sapp_nil_l || rewrite sapp_assoc).
    cbn [scan_value]. change ((PyStr.byte_of "[" =? 34)%N) with false.
    change ((PyStr.byte_of "[" =? 123)%N) with false.
    change ((PyStr.byte_of "[" =? 91)%N) with true. cbn iota.
    destruct l as [|x l'].
    + reflexivity.
    + assert (exists c r, PyStr.join ", " (map dump (x :: l')) +:+ String "]" rest = String c r
                /\ is_ws c = false /\ (PyStr.byte_of c =? 93)%N = false) as (c & r & E & Hws & H93).
      { destruct (dump_start x) as (c & r & Ex & Hc).
        apply value_start_facts in Hc as (Hws & H93 & _).
        destruct l' as [|y l'']; cbn [map PyStr.join]; rewrite ?sapp_assoc, Ex, sapp_cons;
          eexists _, _; repeat split; eassumption. }
      rewrite E. cbn [skip_ws]. rewrite Hws, H93, <- E.
      rewrite (scan_elements_dump (x :: l') Hrb) by (congruence || (cbn in Hfuel |- *; lia)).
      reflexivity.
  - inversion Hwf as [| | | | |d' Hnd Hd]; subst.
    assert (Forall (fun kv => reads_back kv.2) d) as Hrb.
    { apply Forall_forall. intros x Hx. rewrite Forall_forall in IH, Hd. auto. }
    cbn [dump]. repeat (rewrite sapp_cons || rewrite sapp_nil_l || rewrite sapp_assoc).
    cbn [scan_value]. change ((PyStr.byte_of "{" =? 34)%N) with false.
    change ((PyStr.byte_of "{" =? 123)%N) with true. cbn iota.
    destruct d as [|x d'].
    + reflexivity.
    + change (fun kv : string * json => dump_str kv.1 +:+ ": " +:+ dump kv.2) with member_text.
      assert (exists r, PyStr.join ", " (map member_text (x :: d')) +:+ String "}" rest
                        = String dq r) as (r & E).
      { destruct d' as [|y d'']; cbn [map PyStr.join]; unfold member_text at 1, dump_str;
          rewrite ?sapp_assoc, !sapp_cons; eexists; reflexivity. }
      rewrite E. cbn [skip_ws]. change (is_ws dq) with false. cbn iota.
      change ((PyStr.byte_of dq =? 125)%N) with false. cbn iota. rewrite <- E.
      rewrite (scan_members_dump (x :: d') Hrb) by (congruence || (cbn in Hfuel |- *; lia)).
      rewrite dict_of_pairs_distinct by exact Hnd. reflexivity.
Qed.

Lemma length_join_elements (l : list json) :
  Forall (fun v => (cost v <= String.length (dump v))%nat) l ->
  (elements_cost l <= String.length (PyStr.join ", " (map dump l)) + 1)%nat.
Proof.
  induction 1 as [|x l Hx Hl IH]; [cbn; lia|].
  cbn [elements_cost foldr]. fold (elements_cost l).
  destruct l as [|y l'].
  - cbn. lia.
  - cbn [map] in IH |- *. rewrite join_cons2, !length_sapp. cbn [String.length]. lia.
Qed.

Lemma length_join_members (d : list (string * json)) :
  Forall (fun kv => (cost kv.2 <= String.length (dump kv.2))%nat) d ->
  (members_cost d <= String.length (PyStr.join ", " (map member_text d)) + 1)%nat.
Proof.
  induction 1 as [|x d Hx Hd IH]; [cbn; lia|].
  cbn [members_cost foldr]. fold (members_cost d).
  assert (cost x.2 <= String.length (member_text x))%nat as Hm.
  { unfold member_text. rewrite !length_sapp. lia. }
  destruct d as [|y d'].
  - cbn [map PyStr.join members_cost foldr]. lia.
  - cbn [map] in IH |- *. rewrite join_cons2, !length_sapp. cbn [String.length]. lia.
Qed.

Lemma cost_le_length (v : json) : (cost v <= String.length (dump v))%nat.
Proof.
  induction v as [|b|z|s|l IH|d IH] using json_induction.
  - cbn. lia.
  - destruct b; cbn; lia.
  - cbn [dump cost]. destruct (of_Z_start z) as (c & s & -> & _). cbn. lia.
  - cbn. lia.
  - pose proof (length_join_elements l IH) as H.
    cbn [cost dump]. fold (elements_cost l). rewrite !length_sapp. cbn [String.length]. lia.
  - pose proof (length_join_members d IH) as H.
    cbn [cost dump]. fold (members_cost d).
    change (fun kv : string * json => dump_str kv.1 +:+ ": " +:+ dump kv.2) with member_text.
    rewrite !length_sapp. cbn [String.length]. lia.
Qed.

Lemma load_dump (v : json) : well_formed v -> load (dump v) = Parsed v.
Proof.
  intros Hwf. unfold load.
  pose proof (skip_ws_dump v "") as Hskip. rewrite sapp_nil_r in Hskip. rewrite Hskip.
  pose proof (scan_value_dump v Hwf (S (String.length (dump v))) "") as Hscan.
  rewrite sapp_nil_r in Hscan. rewrite Hscan; [reflexivity| |reflexivity].
  pose proof (cost_le_length v). lia.
Qed.

Lemma scan_well_formed (fuel : nat) :
  (forall s v r, scan_value fuel s = Some (v, r) -> well_formed v)
  /\ (forall s l r, scan_elements fuel s = Some (l, r) -> Forall well_formed l)
  /\ (forall s d r, scan_members fuel s = Some (d, r) -> Forall (fun kv => well_formed kv.2) d).
Proof.
  induction fuel as [|f (IHv & IHe & IHm)]; [repeat split; discriminate|].
  repeat split.
  - intros s v r. cbn [scan_value]. destruct s as [|c s]; [discriminate|].
    destruct (PyStr.byte_of c =? 34)%N.
    { destruct (scan_string s) as [[t r1]|]; [|discriminate].
      intros [= <- <-]. constructor. }
    destruct (PyStr.byte_of c =? 123)%N.
    { destruct (skip_ws s) as [|c1 r1]; [discriminate|].
      destruct (PyStr.byte_of c1 =? 125)%N.
      - intros [= <- <-]. constructor; constructor.
      - destruct (scan_members f (String c1 r1)) as [[pairs r2]|] eqn:Em; [|discriminate].
        intros [= <- <-].
        destruct (dict_of_pairs_well_formed well_formed pairs (IHm _ _ _ Em)).
        constructor; assumption. }
    destruct (PyStr.byte_of c =? 91)%N.
    { destruct (skip_ws s) as [|c1 r1]; [discriminate|].
      destruct (PyStr.byte_of c1 =? 93)%N.
      - intros [= <- <-]. constructor; constructor.
      - destruct (scan_elements f (String c1 r1)) as [[items r2]|] eqn:Ee; [|discriminate].
        intros [= <- <-]. constructor. eauto. }
    destruct (PyStr.is_prefix "null" (String c s)); [intros [= <- <-]; constructor|].
    destruct (PyStr.is_prefix "true" (String c s)); [intros [= <- <-]; constructor|].
    destruct (PyStr.is_prefix "false" (String c s)); [intros [= <- <-]; constructor|].
    destruct (scan_int (String c s)) as [[z r1]|]; [|discriminate].
    intros [= <- <-]. constructor.
  - intros s l r. cbn [scan_elements].
    destruct (scan_value f s) as [[v r1]|] eqn:Ev; [|discriminate].
    destruct (skip_ws r1) as [|c r2]; [discriminate|].
    destruct (PyStr.byte_of c =? 93)%N; [intros [= <- <-]; repeat constructor; eauto|].
    destruct (PyStr.byte_of c =? 44)%N; [|discriminate].
    destruct (scan_elements f (skip_ws r2)) as [[vs r3]|] eqn:Ee; [|discriminate].
    intros [= <- <-]. constructor; eauto.
  - intros s d r. cbn [scan_members]. destruct s as [|q0 s]; [discriminate|].
    destruct (PyStr.byte_of q0 =? 34)%N; [|discriminate].
    destruct (scan_string s) as [[k r1]|]; [|discriminate].
    destruct (skip_ws r1) as [|colon r2]; [discriminate|].
    destruct (PyStr.byte_of colon =? 58)%N; [|discriminate].
    destruct (scan_value f (skip_ws r2)) as [[v r3]|] eqn:Ev; [|discriminate].
    destruct (skip_ws r3) as [|c r4]; [discriminate|].
    destruct (PyStr.byte_of c =? 125)%N; [intros [= <- <-]; repeat constructor; cbn; eauto|].
    destruct (PyStr.byte_of c =? 44)%N; [|discriminate].
    destruct (scan_members f (skip_ws r4)) as [[kvs r5]|] eqn:Em; [|discriminate].
    intros [= <- <-]. constructor; cbn; eauto.
Qed.

Lemma load_well_formed (s : string) (v : json) : load s = Parsed v -> well_formed v.
Proof.
  unfold load.
  destruct (scan_value _ _) as [[v' r]|] eqn:E; [|discriminate].
  destruct (PyStr.is_empty (skip_ws r)); [|discriminate].
  intros [= <-]. eapply scan_well_formed, E.
Qed.

Lemma one_line_app (s t : string) : one_line (s +:+ t) = one_line s && one_line t.
Proof.
  induction s as [|c s IH]; [reflexivity|].
  rewrite sapp_cons. cbn [one_line]. rewrite IH, andb_assoc. reflexivity.
Qed.

Lemma one_line_rev (s : string) : one_line (String.rev s) = one_line s.
Proof.
  induction s as [|c s IH]; [reflexivity|].
  rewrite rev_cons, one_line_app, IH. cbn [one_line].
  rewrite andb_true_r. apply andb_comm.
Qed.

Lemma one_line_join (sep : string) (parts : list string) :
  one_line sep = true -> Forall (fun p => one_line p = true) parts ->
  one_line (PyStr.join sep parts) = true.
Proof.
  intros Hsep. induction 1 as [|p parts Hp Hps IH]; [reflexivity|].
  destruct parts as [|p' parts']; [exact Hp|].
  rewrite join_cons2, !one_line_app, Hp, Hsep, IH. reflexivity.
Qed.

Lemma one_line_escape_char (c : ascii) : one_line (escape_char c) = true.
Proof. destruct c as [[] [] [] [] [] [] [] []]; reflexivity. Qed.

Lemma one_line_escape (s : string) : one_line (escape s) = true.
Proof.
  induction s as [|c s IH]; [reflexivity|].
  cbn [escape]. rewrite one_line_app, one_line_escape_char, IH. reflexivity.
Qed.

Lemma one_line_dump_str (s : string) : one_line (dump_str s) = true.
Proof.
  unfold dump_str. cbn [one_line]. rewrite one_line_app, one_line_escape. reflexivity.
Qed.

Lemma one_line_uint (d : Decimal.uint) : one_line (NilEmpty.string_of_uint d) = true.
Proof. induction d; cbn [NilEmpty.string_of_uint one_line]; try rewrite IHd; reflexivity. Qed.

Lemma one_line_of_Z (z : Z) : one_line (PyStr.of_Z z) = true.
Proof.
  unfold PyStr.of_Z, NilZero.string_of_int, NilZero.string_of_uint.
  destruct (Z.to_int z) as [d|d]; destruct d; try reflexivity;
    cbn [one_line]; try apply one_line_uint;
    change (NilEmpty.string_of_uint (?D d)) with (NilEmpty.string_of_uint (D d));
    try (rewrite one_line_uint; reflexivity).
Qed.

Lemma one_line_dump (v : json) : one_line (dump v) = true.
Proof.
  induction v as [|b|z|s|l IH|d IH] using json_induction.
  - reflexivity.
  - destruct b; reflexivity.
  - apply one_line_of_Z.
  - apply one_line_dump_str.
  - cbn [dump]. rewrite !one_line_app, one_line_join; [reflexivity|reflexivity|].
    apply Forall_map. exact IH.
  - cbn [dump]. rewrite !one_line_app, one_line_join; [reflexivity|reflexivity|].
    apply Forall_map. eapply Forall_impl; [exact IH|].
    intros [k x] Hx. cbn in Hx |- *. rewrite !one_line_app, one_line_dump_str, Hx. reflexivity.
Qed.


Lemma solid_facts (c : ascii) :
  solid c = true ->
  PyStr.is_space1 c = false
  /\ (forall x, PyStr.is_space2 c x = false)
  /\ (forall x y, PyStr.is_space3 c x y = false).
Proof.
  unfold solid. rewrite andb_true_iff, negb_true_iff, N.ltb_lt. intros [H1 Hlt].
  split; [exact H1|]. unfold PyStr.is_space2, PyStr.is_space3.
  assert ((PyStr.byte_of c =? 194)%N = false) as -> by (apply N.eqb_neq; lia).
  assert ((PyStr.byte_of c =? 225)%N = false) as -> by (apply N.eqb_neq; lia).
  assert ((PyStr.byte_of c =? 226)%N = false) as -> by (apply N.eqb_neq; lia).
  assert ((PyStr.byte_of c =? 227)%N = false) as -> by (apply N.eqb_neq; lia).
  split; reflexivity.
Qed.

Lemma lstrip_solid (c : ascii) (s : string) :
  solid c = true -> PyStr.lstrip (String c s) = String c s.
Proof.
  intros Hc. destruct (solid_facts c Hc) as (H1 & H2 & H3).
  cbn [PyStr.lstrip]. rewrite H1. destruct s as [|b r1]; [reflexivity|].
  rewrite H2. destruct r1 as [|d r2]; [reflexivity|]. rewrite H3. reflexivity.
Qed.

Lemma lstrip_rev_keeps_last (c : ascii) :
  solid c = true ->
  forall n s, (String.length s <= n)%nat ->
    exists p, PyStr.lstrip_rev (s +:+ String c "") = p +:+ String c "".
Proof.
  intros Hc. destruct (solid_facts c Hc) as (H1 & H2 & H3).
  induction n as [|n IH]; intros s Hlen.
  - destruct s; [|cbn in Hlen; lia]. exists "". rewrite !sapp_nil_l. cbn [PyStr.lstrip_rev]. rewrite H1. reflexivity.
  - destruct s as [|x s1].
    { exists "". rewrite !sapp_nil_l. cbn [PyStr.lstrip_rev]. rewrite H1. reflexivity. }
    cbn [String.length] in Hlen. rewrite sapp_cons. cbn [PyStr.lstrip_rev].
    destruct (PyStr.is_space1 x); [apply IH; lia|].
    destruct s1 as [|y s2].
    { rewrite sapp_nil_l, H2. exists (String x ""). reflexivity. }
    cbn [String.length] in Hlen. rewrite sapp_cons.
    destruct (PyStr.is_space2 y x); [apply IH; lia|].
    destruct s2 as [|z s3].
    { rewrite sapp_nil_l, H3. exists (String x (String y "")). reflexivity. }
    cbn [String.length] in Hlen. rewrite sapp_cons.
    destruct (PyStr.is_space3 z y x); [apply IH; lia|].
    exists (String x (String y (String z s3))). reflexivity.
Qed.

Lemma strip_solid (c : ascii) (s : string) :
  solid c = true -> PyStr.is_empty (PyStr.strip (String c s)) = false.
Proof.
  intros Hc. unfold PyStr.strip, PyStr.rstrip. rewrite (lstrip_solid c s Hc), rev_cons.
  destruct (lstrip_rev_keeps_last c Hc _ (String.rev s) (le_n _)) as [p ->].
  rewrite rev_app_distr. reflexivity.
Qed.

Lemma value_start_solid (c : ascii) : value_start c = true -> solid c = true.
Proof.
  intros Hc. apply value_start_facts in Hc as (_ & _ & _ & H1 & Hlt).
  unfold solid. rewrite H1, Hlt. reflexivity.
Qed.

Lemma dump_not_blank (v : json) : PyStr.is_empty (PyStr.strip (dump v)) = false.
Proof.
  destruct (dump_start v) as (c & s & -> & Hc). apply strip_solid, value_start_solid, Hc.
Qed.

(** The reference codec satisfies the laws. *)
Lemma reference_codec_laws : @JsonCodecLaws RefJson.codec.
Proof.
  split.
  - exact load_well_formed.
  - exact load_dump.
  - exact one_line_dump.
  - exact dump_not_blank.
Qed.

End ReferenceCodec.

(* ===================================================================== *)
(** * System presence and non-emptiness *)
(* ===================================================================== *)

Section SystemCheck.
Variables (line_no : nat) (sample_id : string).

Lemma with_role_of_dicts (r : string) (messages : list json) :
  Forall (fun m => is_dict m = true) messages ->
  with_role r messages = Ok (filter (fun m => has_role r m = true) messages).
Proof.
  induction 1 as [|m rest Hm _ IH]; [reflexivity|].
  destruct m; try discriminate Hm.
  rewrite filter_cons.
  cbn [with_role role_of mbind result_bind has_role]. rewrite IH.
  cbn [mbind result_bind].
  destruct (eq_str (get "role" fields) r).
  - rewrite decide_True by reflexivity. reflexivity.
  - rewrite decide_False by discriminate. reflexivity.
Qed.

Lemma first_blank_spec (sys_msgs : list json) :
  first_blank line_no sample_id sys_msgs
  = if existsb blank_text sys_msgs then [system_empty line_no sample_id] else [].
Proof.
  induction sys_msgs as [|m rest IH]; [reflexivity|].
  cbn [first_blank existsb _is_blank_text]. unfold blank_text at 1.
  destruct (PyStr.is_empty _); [reflexivity|exact IH].
Qed.

Lemma existsb_filter_nonempty {A} (f : A -> bool) (l : list A) :
  existsb f l = true -> filter (fun a => f a = true) l <> [].
Proof.
  induction l as [|a l IH]; [discriminate|].
  cbn [existsb]. rewrite filter_cons. destruct (f a) eqn:E; cbn.
  - intros _. rewrite decide_True by reflexivity. discriminate.
  - intros Hl. rewrite decide_False by discriminate. auto.
Qed.
End SystemCheck.

(** C1, as the code has it: for a record whose messages are all objects and
    include a system message, under a profile that requires one, the check
    returns the single system-empty error (code [E002_SYSTEM_EMPTY], path
    [messages]) when some system message has a text that is blank after
    trimming, and no issue otherwise. *)
Theorem system_empty_iff_some_blank
    (line_no : nat) (sample_id : string) (messages : list json) (profile_obj : Profile) :
  truthy (require_system profile_obj) = true ->
  Forall (fun m => is_dict m = true) messages ->
  existsb (has_role "system") messages = true ->
  _system_presence_and_nonempty line_no sample_id messages profile_obj
  = Ok (if existsb blank_text (system_messages messages)
        then [system_empty line_no sample_id] else [])
  /\ code (system_empty line_no sample_id) = "E002_SYSTEM_EMPTY"
  /\ path (system_empty line_no sample_id) = "messages"
  /\ level (system_empty line_no sample_id) = "ERROR".
Proof.
  intros Hreq Hdicts Hsys. split; [|repeat split].
  unfold _system_presence_and_nonempty. rewrite Hreq. cbn [negb].
  rewrite (with_role_of_dicts "system" messages Hdicts). cbn [mbind result_bind].
  fold (system_messages messages).
  pose proof (existsb_filter_nonempty _ _ Hsys) as Hne.
  fold (system_messages messages) in Hne.
  destruct (system_messages messages) as [|m rest] eqn:E; [congruence|].
  rewrite first_blank_spec. reflexivity.
Qed.


Lemma system_empty_iff_some_blank_witness :
  _system_presence_and_nonempty 1 "t2" two_system_messages generic
  = Ok [system_empty 1 "t2"].
Proof.
  exact (proj1 (system_empty_iff_some_blank 1 "t2" two_system_messages generic
                  eq_refl
                  ltac:(repeat constructor)
                  eq_refl)).
Defined.

(** C1 as stated fails: the concatenation of the two system texts is not
    blank, and the check still reports the system-empty error. *)
Lemma system_empty_not_by_concatenation :
  blank_concatenation two_system_messages = false
  /\ _system_presence_and_nonempty 1 "t2" two_system_messages generic
     = Ok [system_empty 1 "t2"].
Proof. split; reflexivity. Qed.


(* ===================================================================== *)
(** * The hard stop of the linter *)
(* ===================================================================== *)


Lemma lint_record_not_a_list {builtins : PyBuiltins}
    (mode : string) (profile_obj : Profile) (strict_typed : bool)
    (line_no : nat) (obj : list (string * json)) :
  is_list (get "messages" obj) = false ->
  lint_record mode profile_obj strict_typed line_no obj
  = Ok [messages_not_a_list line_no obj].
Proof.
  intros Hnl. unfold lint_record, _validate_messages_schema.
  destruct (get "messages" obj); try discriminate Hnl; reflexivity.
Qed.

(** C6: a line that decodes to a JSON object whose [messages] is not a list
    yields exactly one issue, the schema mismatch at path [messages],
    whatever the mode, the profile and the strictness: nothing of the
    per-message, system or supervision checks is reported. *)
Theorem non_list_messages_single_issue {builtins : PyBuiltins} {json_codec : JsonCodec}
    (mode : string) (profile_obj : Profile) (strict_typed : bool)
    (line_no : nat) (line : string) (obj : list (string * json)) :
  PyStr.is_empty (PyStr.strip line) = false ->
  loads (PyStr.strip line) = Parsed (JDict obj) ->
  is_list (get "messages" obj) = false ->
  lint_line mode profile_obj strict_typed (line_no, line)
  = Ok [messages_not_a_list line_no obj].
Proof.
  intros Hne Hload Hnl. unfold lint_line. rewrite Hne, Hload.
  apply lint_record_not_a_list, Hnl.
Qed.

Lemma non_list_messages_single_issue_witness :
  lint_line (builtins := RefBuiltins.builtins) (json_codec := RefJson.codec) "infer" generic true
    (1%nat, RefJson.q "{'id': 't9', 'messages': 'hello'}")
  = Ok [mkIssue "ERROR" "E003_SCHEMA_MISMATCH" 1 "t9" "messages"
          "`messages` must be a list."].
Proof.
  exact (non_list_messages_single_issue (builtins := RefBuiltins.builtins) (json_codec := RefJson.codec)
           "infer" generic true 1 (RefJson.q "{'id': 't9', 'messages': 'hello'}")
           [("id", JStr "t9"); ("messages", JStr "hello")]
           eq_refl eq_refl eq_refl).
Defined.

(* ===================================================================== *)
(** * The safe-fix transform on one record *)
(* ===================================================================== *)

Lemma get_set_eq (k : string) (v : json) (d : list (string * json)) :
  get k (Dict.set k v d) = v.
Proof. unfold get. rewrite lookup_set_eq. reflexivity. Qed.

Lemma get_set_ne (k k0 : string) (v : json) (d : list (string * json)) :
  k0 <> k -> get k0 (Dict.set k v d) = get k0 d.
Proof. intros Hne. unfold get. rewrite lookup_set_ne by exact Hne. reflexivity. Qed.

Lemma mem_set_eq (k : string) (v : json) (d : list (string * json)) :
  Dict.mem k (Dict.set k v d) = true.
Proof. unfold Dict.mem. rewrite lookup_set_eq. reflexivity. Qed.

Lemma get_list_lookup (k : string) (d : list (string * json)) (l : list json) :
  get k d = JList l -> Dict.lookup k d = Some (JList l).
Proof. unfold get. destruct (Dict.lookup k d); [intros ->; reflexivity|discriminate]. Qed.

Section FixRecord.
Context {builtins : PyBuiltins}.
Variables (strict_typed : bool).

Lemma fix_all_fst (f g : json -> json * list Issue) (l : list json) :
  (forall x, (f x).1 = (g x).1) -> (fix_all f l).1 = (fix_all g l).1.
Proof.
  intros Hfg. induction l as [|x l IH]; [reflexivity|].
  cbn [fix_all]. specialize (Hfg x).
  destruct (f x) as [x1 i1], (g x) as [x2 i2], (fix_all f l) as [l1 j1],
    (fix_all g l) as [l2 j2]. cbn in *. congruence.
Qed.

Lemma fix_all_unchanged (f : json -> json * list Issue) (l : list json) :
  Forall (fun x => f x = (x, [])) l -> fix_all f l = (l, []).
Proof.
  induction 1 as [|x l Hx Hl IH]; [reflexivity|].
  cbn [fix_all]. rewrite Hx, IH. reflexivity.
Qed.

Lemma fix_all_Forall (P : json -> Prop) (f : json -> json * list Issue) (l : list json) :
  Forall (fun x => P (f x).1) l -> Forall P (fix_all f l).1.
Proof.
  induction 1 as [|x l Hx Hl IH]; [constructor|].
  cbn [fix_all]. destruct (f x) as [x' i1], (fix_all f l) as [l' i2]. cbn in *.
  constructor; assumption.
Qed.

Lemma fix_item_unchanged (n : nat) (sid : string) (it : json) :
  needs_type it = false -> fix_item n sid it = (it, []).
Proof. intros Hn. unfold fix_item. destruct it; try reflexivity. rewrite Hn. reflexivity. Qed.

Lemma fix_item_settled (n : nat) (sid : string) (it : json) :
  needs_type (fix_item n sid it).1 = false.
Proof.
  unfold fix_item. destruct it; try reflexivity.
  destruct (needs_type (JDict fields)) eqn:E; [|exact E].
  cbn [fst needs_type]. rewrite mem_set_eq. reflexivity.
Qed.

Lemma existsb_false_Forall {A} (f : A -> bool) (l : list A) :
  existsb f l = false <-> Forall (fun x => f x = false) l.
Proof.
  induction l as [|x l IH]; cbn [existsb].
  - split; [constructor|reflexivity].
  - rewrite orb_false_iff, IH, Forall_cons. reflexivity.
Qed.

Lemma fix_message_unchanged (n : nat) (sid : string) (m : json) :
  needs_role m = false -> (strict_typed && untyped_text_block m) = false ->
  fix_message strict_typed n sid m = (m, []).
Proof.
  intros Hr Hb. unfold fix_message. destruct m as [| | | | |d]; try reflexivity.
  rewrite Hr. destruct strict_typed; [|reflexivity].
  cbn [andb untyped_text_block] in Hb.
  destruct (get "content" d) as [| | | |items|] eqn:Ec; try reflexivity.
  apply existsb_false_Forall in Hb.
  rewrite (fix_all_unchanged (fix_item n sid) items).
  - rewrite set_same by (apply get_list_lookup, Ec). reflexivity.
  - eapply Forall_impl; [exact Hb|]. intros it. apply fix_item_unchanged.
Qed.

Lemma fix_message_settled (n : nat) (sid : string) (m : json) :
  let m' := (fix_message strict_typed n sid m).1 in
  needs_role m' = false /\ (strict_typed && untyped_text_block m') = false.
Proof.
  unfold fix_message. destruct m as [| | | | |d];
    try (split; [reflexivity|apply andb_false_r]).
  set (d1 := (if needs_role (JDict d)
              then (Dict.set "role" (JStr "user") d, [fix_role_issue n sid])
              else (d, [])).1).
  assert (eq_str (get "role" d1) "usr" = false) as Hrole.
  { subst d1. destruct (needs_role (JDict d)) eqn:E; cbn [fst].
    - rewrite get_set_eq. reflexivity.
    - exact E. }
  destruct (needs_role (JDict d)); cbn [fst] in d1; subst d1;
    (destruct strict_typed; [|split; [exact Hrole|reflexivity]]);
    (match goal with |- context [get "content" ?D] =>
       destruct (get "content" D) as [| | | |items|] eqn:Ec end);
    try (cbn [fst needs_role untyped_text_block andb]; rewrite ?Ec; split;
         [exact Hrole|reflexivity]).
  all: pose proof (fix_all_Forall (fun x => needs_type x = false) (fix_item n sid) items) as Hall;
    destruct (fix_all (fix_item n sid) items) as [items' i2];
    cbn [fst needs_role untyped_text_block andb];
    rewrite get_set_ne by discriminate; rewrite !get_set_eq; split;
    [first [reflexivity|exact Hrole]|];
    apply existsb_false_Forall, Hall, Forall_forall; intros it _; apply fix_item_settled.
Qed.

Lemma fix_record_unchanged (n : nat) (sid : string) (obj : list (string * json)) :
  touched strict_typed obj = false -> fix_record strict_typed n sid obj = (obj, []).
Proof.
  unfold touched, fix_record.
  destruct (get "messages" obj) as [| | | |msgs|] eqn:Em; try reflexivity.
  intros Ht. apply existsb_false_Forall in Ht.
  rewrite (fix_all_unchanged (fix_message strict_typed n sid) msgs).
  - rewrite set_same by (apply get_list_lookup, Em). reflexivity.
  - eapply Forall_impl; [exact Ht|]. intros m Hm. apply orb_false_iff in Hm as [Hr Hb].
    apply fix_message_unchanged; assumption.
Qed.

Lemma fix_record_settled (n : nat) (sid : string) (obj : list (string * json)) :
  touched strict_typed (fix_record strict_typed n sid obj).1 = false.
Proof.
  unfold fix_record.
  destruct (get "messages" obj) as [| | | |msgs|] eqn:Em;
    try (cbn [fst]; unfold touched; rewrite Em; reflexivity).
  pose proof (fix_all_Forall
                (fun m => needs_role m || (strict_typed && untyped_text_block m) = false)
                (fix_message strict_typed n sid) msgs) as Hall.
  destruct (fix_all (fix_message strict_typed n sid) msgs) as [msgs' iss]. cbn [fst] in *.
  unfold touched. rewrite get_set_eq. apply existsb_false_Forall, Hall, Forall_forall.
  intros m _. destruct (fix_message_settled n sid m) as [-> ->]. reflexivity.
Qed.

End FixRecord.

(* ===================================================================== *)
(** * The safe-fix transform on lines and files *)
(* ===================================================================== *)

Lemma get_well_formed (k : string) (d : list (string * json)) :
  Forall (fun kv => well_formed kv.2) d -> well_formed (get k d).
Proof.
  unfold get. induction 1 as [|[k' v] d Hv Hd IH]; cbn; [constructor|].
  destruct (String.eqb k k'); [exact Hv|exact IH].
Qed.

Lemma well_formed_set (k : string) (v : json) (d : list (string * json)) :
  well_formed v -> well_formed (JDict d) -> well_formed (JDict (Dict.set k v d)).
Proof.
  intros Hv Hd. inversion Hd as [| | | | |d' Hnd Hvals]; subst. constructor.
  - apply NoDup_keys_set, Hnd.
  - apply (Forall_values_set well_formed); assumption.
Qed.

Lemma well_formed_get (k : string) (d : list (string * json)) :
  well_formed (JDict d) -> well_formed (get k d).
Proof. intros Hd. inversion Hd; subst. apply get_well_formed. assumption. Qed.

Lemma well_formed_items (l : list json) : well_formed (JList l) -> Forall well_formed l.
Proof. intros Hl. inversion Hl; subst. assumption. Qed.

Section FixWellFormed.
Context {builtins : PyBuiltins}.
Variables (strict_typed : bool) (n : nat) (sid : string).

Lemma fix_item_well_formed (it : json) :
  well_formed it -> well_formed (fix_item n sid it).1.
Proof.
  intros Hit. unfold fix_item. destruct it; try exact Hit.
  destruct (needs_type (JDict fields)); [|exact Hit].
  cbn [fst]. apply well_formed_set; [constructor|exact Hit].
Qed.

Lemma fix_message_well_formed (m : json) :
  well_formed m -> well_formed (fix_message strict_typed n sid m).1.
Proof.
  intros Hm. unfold fix_message. destruct m as [| | | | |d]; try exact Hm.
  set (r := if needs_role (JDict d)
            then (Dict.set "role" (JStr "user") d, [fix_role_issue n sid])
            else (d, [])).
  assert (well_formed (JDict r.1)) as Hr.
  { subst r. destruct (needs_role (JDict d)); cbn [fst]; [|exact Hm].
    apply well_formed_set; [constructor|exact Hm]. }
  destruct r as [d1 i1]. cbn [fst] in Hr.
  destruct strict_typed; [|exact Hr].
  pose proof (well_formed_get "content" d1 Hr) as Hc.
  destruct (get "content" d1) as [| | | |items|]; try exact Hr.
  pose proof (fix_all_Forall well_formed (fix_item n sid) items) as Hall.
  destruct (fix_all (fix_item n sid) items) as [items' i2]. cbn [fst] in *.
  apply well_formed_set; [|exact Hr]. constructor. apply Hall.
  eapply Forall_impl; [apply well_formed_items, Hc|]. apply fix_item_well_formed.
Qed.

Lemma fix_record_well_formed (obj : list (string * json)) :
  well_formed (JDict obj) -> well_formed (JDict (fix_record strict_typed n sid obj).1).
Proof.
  intros Ho. unfold fix_record.
  pose proof (well_formed_get "messages" obj Ho) as Hm.
  destruct (get "messages" obj) as [| | | |msgs|]; try exact Ho.
  pose proof (fix_all_Forall well_formed (fix_message strict_typed n sid) msgs) as Hall.
  destruct (fix_all (fix_message strict_typed n sid) msgs) as [msgs' iss]. cbn [fst] in *.
  apply well_formed_set; [|exact Ho]. constructor. apply Hall.
  eapply Forall_impl; [apply well_formed_items, Hm|]. apply fix_message_well_formed.
Qed.

End FixWellFormed.

(** ** Lines *)

Lemma drop_lf_one_line (s : string) : one_line s = true -> PyStr.drop_lf s = s.
Proof.
  destruct s as [|c r]; [reflexivity|]. cbn [one_line PyStr.drop_lf].
  destruct (PyStr.byte_of c =? 10)%N; [discriminate|reflexivity].
Qed.

Lemma rstrip_lf_line (x : string) : one_line x = true -> PyStr.rstrip_lf (x +:+ LF) = x.
Proof.
  intros Hx. unfold PyStr.rstrip_lf. rewrite rev_app_distr.
  change (String.rev LF) with LF. unfold LF at 1. rewrite sapp_cons, sapp_nil_l.
  cbn [PyStr.drop_lf]. change (PyStr.byte_of (ascii_of_N 10) =? 10)%N with true. cbn iota.
  rewrite drop_lf_one_line by (rewrite one_line_rev; exact Hx).
  apply rev_involutive.
Qed.

Lemma lines_from_line (x cur rest : string) :
  one_line x = true ->
  lines_from cur (x +:+ LF +:+ rest) = (String.rev cur +:+ x +:+ LF) :: lines_from "" rest.
Proof.
  revert cur. induction x as [|c x IH]; intros cur Hx.
  - rewrite !sapp_nil_l. unfold LF. rewrite sapp_cons, sapp_nil_l.
    cbn [lines_from]. change (PyStr.byte_of (ascii_of_N 10) =? 10)%N with true. cbn iota.
    rewrite rev_cons. reflexivity.
  - cbn [one_line] in Hx. apply andb_true_iff in Hx as [Hc Hx].
    apply andb_true_iff in Hc as [H10 H13]. apply negb_true_iff in H10, H13.
    rewrite sapp_cons. cbn [lines_from]. rewrite H10, H13, IH by exact Hx.
    rewrite rev_cons, sapp_assoc. reflexivity.
Qed.

Section FixLines.
Context {builtins : PyBuiltins} {json_codec : JsonCodec}.
Variables (strict_typed : bool).

Lemma fix_lines_app (l1 l2 : list (nat * string)) :
  fix_lines strict_typed (l1 ++ l2)
  = match fix_lines strict_typed l1 with
    | (out1, Ok iss1) =>
        (out1 +:+ (fix_lines strict_typed l2).1,
         iss2 ← (fix_lines strict_typed l2).2; Ok (iss1 ++ iss2))
    | (out1, Raise ex) => (out1, Raise ex)
    end.
Proof.
  induction l1 as [|e l1 IH].
  - cbn. destruct (fix_lines strict_typed l2) as [o [i|ex]]; cbn; reflexivity.
  - cbn [app fix_lines]. rewrite IH.
    destruct (fix_line strict_typed e) as [[o1 i1]|]; [|reflexivity].
    destruct (fix_lines strict_typed l1) as [o2 [i2|ex]]; [|reflexivity].
    destruct (fix_lines strict_typed l2) as [o3 [i3|ex]]; cbn;
      rewrite sapp_assoc, ?app_assoc; reflexivity.
Qed.

Lemma fix_line_blank (n : nat) (line : string) :
  PyStr.is_empty (PyStr.strip (PyStr.rstrip_lf line)) = true ->
  fix_line strict_typed (n, line) = Ok ("", []).
Proof. intros Hb. unfold fix_line. rewrite Hb. reflexivity. Qed.

Lemma fix_line_malformed (n : nat) (line e : string) :
  PyStr.is_empty (PyStr.strip (PyStr.rstrip_lf line)) = false ->
  loads (PyStr.rstrip_lf line) = BadJson e ->
  fix_line strict_typed (n, line) = Ok ("", [bad_json n e]).
Proof. intros Hb He. unfold fix_line. rewrite Hb, He. reflexivity. Qed.

Lemma fix_line_untouched (n : nat) (line : string) (obj : list (string * json)) :
  PyStr.is_empty (PyStr.strip (PyStr.rstrip_lf line)) = false ->
  loads (PyStr.rstrip_lf line) = Parsed (JDict obj) ->
  touched strict_typed obj = false ->
  fix_line strict_typed (n, line) = Ok (written_line obj, []).
Proof.
  intros Hb He Ht. unfold fix_line. rewrite Hb, He, fix_record_unchanged by exact Ht.
  reflexivity.
Qed.

End FixLines.

(* ===================================================================== *)
(** * Properties of the safe-fix transform *)
(* ===================================================================== *)

(** C9: the transform drops unusable lines. A blank line writes nothing and
    logs nothing; a line that does not decode writes nothing and logs
    exactly one [E004_BAD_JSON] error whose sample id is [line_<n>]; and a
    line that writes nothing leaves the output file as the other lines
    make it. *)
Theorem fix_drops_unusable_lines {builtins : PyBuiltins} {json_codec : JsonCodec}
    (strict_typed : bool) (n : nat) (line : string) :
  (PyStr.is_empty (PyStr.strip (PyStr.rstrip_lf line)) = true ->
   fix_line strict_typed (n, line) = Ok ("", []))
  /\ (forall e,
        PyStr.is_empty (PyStr.strip (PyStr.rstrip_lf line)) = false ->
        loads (PyStr.rstrip_lf line) = BadJson e ->
        fix_line strict_typed (n, line) = Ok ("", [bad_json n e])
        /\ code (bad_json n e) = "E004_BAD_JSON"
        /\ level (bad_json n e) = "ERROR"
        /\ sample_id (bad_json n e) = "line_" +:+ PyStr.of_nat n)
  /\ (forall iss before after out1 iss1,
        fix_line strict_typed (n, line) = Ok ("", iss) ->
        fix_lines strict_typed before = (out1, Ok iss1) ->
        fix_lines strict_typed (before ++ (n, line) :: after)
        = (out1 +:+ (fix_lines strict_typed after).1,
           iss2 ← (fix_lines strict_typed after).2; Ok (iss1 ++ iss ++ iss2))).
Proof.
  split; [apply fix_line_blank|]. split.
  - intros e Hb He. split; [apply fix_line_malformed; assumption|]. repeat split.
  - intros iss before after out1 iss1 Hline Hbefore.
    rewrite fix_lines_app, Hbefore. cbn [fix_lines]. rewrite Hline.
    destruct (fix_lines strict_typed after) as [out2 [iss2|ex]]; reflexivity.
Qed.


Lemma fix_drops_unusable_lines_witness :
  fix_line (builtins := RefBuiltins.builtins) (json_codec := RefJson.codec) false (3%nat, "{oops" +:+ LF)
  = Ok ("", [mkIssue "ERROR" "E004_BAD_JSON" 3 "line_3" "$" "Invalid JSON: Expecting value"]).
Proof.
  exact (proj1 (proj1 (proj2 (fix_drops_unusable_lines
                                (builtins := RefBuiltins.builtins) (json_codec := RefJson.codec)
                                false 3 ("{oops" +:+ LF)))
                  "Expecting value" eq_refl eq_refl)).
Defined.

(** The whole file: only the record is written. *)
Example fix_three_lines :
  fix_jsonl (builtins := RefBuiltins.builtins) (json_codec := RefJson.codec) false three_lines
  = (RefJson.q "{'id': 'a', 'messages': []}" +:+ LF,
     Ok [mkIssue "ERROR" "E004_BAD_JSON" 3 "line_3" "$" "Invalid JSON: Expecting value"]).
Proof. vm_compute. reflexivity. Qed.

(** C4, as the code has it: a line that decodes to an object and is modified
    by neither rule is written as the encoding of the decoded object and
    logs nothing. The written line decodes to the same object, and it is the
    input line itself whenever the input line is an encoding followed by a
    line feed. *)
Theorem untouched_line_is_reencoded {builtins : PyBuiltins} {json_codec : JsonCodec} {laws : JsonCodecLaws}
    (strict_typed : bool) (n : nat) (line : string) (obj : list (string * json)) :
  PyStr.is_empty (PyStr.strip (PyStr.rstrip_lf line)) = false ->
  loads (PyStr.rstrip_lf line) = Parsed (JDict obj) ->
  touched strict_typed obj = false ->
  fix_line strict_typed (n, line) = Ok (written_line obj, [])
  /\ loads (PyStr.rstrip_lf (written_line obj)) = Parsed (JDict obj)
  /\ (forall v, well_formed v -> line = dumps v +:+ LF -> written_line obj = line).
Proof.
  intros Hb He Ht. split; [apply fix_line_untouched; assumption|]. split.
  - unfold written_line. rewrite rstrip_lf_line by apply dumps_one_line.
    apply loads_dumps. eapply loads_well_formed, He.
  - intros v Hv ->. rewrite rstrip_lf_line in He by apply dumps_one_line.
    rewrite (loads_dumps v Hv) in He. injection He as ->. reflexivity.
Qed.


Lemma untouched_line_is_reencoded_witness :
  fix_line (builtins := RefBuiltins.builtins) (json_codec := RefJson.codec) true (1%nat, compact_line)
  = Ok (spaced_line, []).
Proof.
  exact (proj1 (untouched_line_is_reencoded
                  (builtins := RefBuiltins.builtins) (json_codec := RefJson.codec)
                  (laws := reference_codec_laws)
                  true 1 compact_line [("id", JStr "t1"); ("messages", JList [])]
                  eq_refl eq_refl eq_refl)).
Defined.

(** C4 as stated fails: the record is modified by neither rule, and the
    line written differs from the line read. *)
Lemma untouched_line_not_byte_identical :
  RefJson.load (PyStr.rstrip_lf compact_line)
  = Parsed (JDict [("id", JStr "t1"); ("messages", JList [])])
  /\ touched true [("id", JStr "t1"); ("messages", JList [])] = false
  /\ fix_jsonl (builtins := RefBuiltins.builtins) (json_codec := RefJson.codec) true compact_line
     = (spaced_line, Ok [])
  /\ String.eqb spaced_line compact_line = false.
Proof. repeat split; vm_compute; reflexivity. Qed.

(** ** Idempotence *)

Section Idempotence.
Context {builtins : PyBuiltins} {json_codec : JsonCodec} {laws : JsonCodecLaws}.
Variables (strict_typed : bool).

(** What one line contributes to the output: nothing, or the line of a
    settled record. *)
Lemma fix_line_writes (e : nat * string) (chunk : string) (iss : list Issue) :
  fix_line strict_typed e = Ok (chunk, iss) ->
  chunk = "" \/ exists obj, chunk = written_line obj /\ settled strict_typed obj.
Proof.
  destruct e as [n line]. unfold fix_line.
  destruct (PyStr.is_empty _); [intros [= <- <-]; left; reflexivity|].
  destruct (loads (PyStr.rstrip_lf line)) as [v|e] eqn:El;
    [|intros [= <- <-]; left; reflexivity].
  destruct v as [| | | | |obj]; try discriminate.
  pose proof (fix_record_settled strict_typed n (sample_id_of n obj) obj) as Hs.
  pose proof (fix_record_well_formed strict_typed n (sample_id_of n obj) obj
                (loads_well_formed _ _ El)) as Hw.
  destruct (fix_record strict_typed n (sample_id_of n obj) obj) as [obj' iss'].
  intros [= <- <-]. right. exists obj'. split; [reflexivity|]. split; assumption.
Qed.

Lemma fix_lines_write (entries : list (nat * string)) :
  exists objs, Forall (settled strict_typed) objs
               /\ (fix_lines strict_typed entries).1 = file_of (map written_line objs).
Proof.
  induction entries as [|e entries IH].
  - exists []. split; [constructor|reflexivity].
  - cbn [fix_lines].
    destruct (fix_line strict_typed e) as [[chunk i1]|] eqn:El;
      [|exists []; split; [constructor|reflexivity]].
    destruct IH as (objs & Hobjs & IH).
    destruct (fix_lines strict_typed entries) as [out2 later]. cbn [fst] in *.
    subst out2.
    destruct (fix_line_writes e chunk i1 El) as [->|(obj & -> & Hobj)].
    + exists objs. split; [exact Hobjs|reflexivity].
    + exists (obj :: objs). split; [constructor; assumption|reflexivity].
Qed.

(** A written file reads back as its lines. *)
Lemma file_lines_written (objs : list (list (string * json))) :
  file_lines (file_of (map written_line objs)) = map written_line objs.
Proof.
  unfold file_lines. induction objs as [|obj objs IH]; [reflexivity|].
  cbn [map file_of foldr]. unfold written_line at 1. rewrite sapp_assoc.
  rewrite lines_from_line by apply dumps_one_line.
  fold (file_of (map written_line objs)). rewrite IH. reflexivity.
Qed.

(** The line of a settled record is written again as it is. *)
Lemma fix_line_settled (n : nat) (obj : list (string * json)) :
  settled strict_typed obj ->
  fix_line strict_typed (n, written_line obj) = Ok (written_line obj, []).
Proof.
  intros [Hw Ht]. apply fix_line_untouched; [| |exact Ht]; unfold written_line;
    rewrite rstrip_lf_line by apply dumps_one_line.
  - apply dumps_not_blank.
  - apply loads_dumps, Hw.
Qed.

Lemma fix_lines_settled (objs : list (list (string * json))) (n : nat) :
  Forall (settled strict_typed) objs ->
  fix_lines strict_typed (enumerate n (map written_line objs))
  = (file_of (map written_line objs), Ok []).
Proof.
  intros Hobjs. revert n. induction Hobjs as [|obj objs Hobj _ IH]; intros n;
    [reflexivity|].
  cbn [map enumerate fix_lines]. rewrite fix_line_settled by exact Hobj.
  rewrite IH. reflexivity.
Qed.

End Idempotence.

(** C5: the transform is idempotent. Applied to the output file of any
    application, it writes that file again, returns, and reports no issue. *)
Theorem fix_jsonl_idempotent
    {builtins : PyBuiltins} {json_codec : JsonCodec} {laws : JsonCodecLaws}
    (strict_typed : bool) (text : string) :
  fix_jsonl strict_typed (fix_jsonl strict_typed text).1
  = ((fix_jsonl strict_typed text).1, Ok []).
Proof.
  unfold fix_jsonl.
  destruct (fix_lines_write strict_typed (enumerate 1 (file_lines text)))
    as (objs & Hobjs & ->).
  rewrite file_lines_written. apply fix_lines_settled, Hobjs.
Qed.


Lemma fix_jsonl_idempotent_witness :
  fix_jsonl (builtins := RefBuiltins.builtins) (json_codec := RefJson.codec) true
    (fix_jsonl (builtins := RefBuiltins.builtins) (json_codec := RefJson.codec) true
       typo_file).1
  = ((fix_jsonl (builtins := RefBuiltins.builtins) (json_codec := RefJson.codec) true
        typo_file).1, Ok []).
Proof.
  exact (fix_jsonl_idempotent
           (builtins := RefBuiltins.builtins) (json_codec := RefJson.codec)
           (laws := reference_codec_laws) true typo_file).
Defined.

(** A file with a typo, a blank line and a line that does not decode: the
    first application repairs and reports, the second changes nothing. *)
Example fix_jsonl_twice :
  fix_jsonl (builtins := RefBuiltins.builtins) (json_codec := RefJson.codec) true typo_file
  = (typo_file_fixed,
     Ok [fix_role_issue 1 "x"; fix_type_issue 1 "x"; bad_json 3 "Expecting value"])
  /\ fix_jsonl (builtins := RefBuiltins.builtins) (json_codec := RefJson.codec) true
       typo_file_fixed
     = (typo_file_fixed, Ok []).
Proof. split; vm_compute; reflexivity. Qed.

(* ===================================================================== *)
(** * Failures of the render plugin *)
(* ===================================================================== *)

Section RenderFailures.
Context {builtins : PyBuiltins}.
Variables (profile_obj : Profile) (render_fn : RenderPlugin).

(** A failure of the keyword call other than [TypeError] becomes an issue. *)
Lemma render_failure_reported (line_no : nat) (sid sys_text text : string)
    (messages : list json) (obj : list (string * json)) :
  call_keywords render_fn messages obj = RaisesOther text ->
  render_and_check profile_obj render_fn line_no sid sys_text messages obj
  = Ok [mkIssue "ERROR" "E901_RENDER_PLUGIN_ERROR" line_no sid "messages"
          ("Render plugin error: " +:+ text)].
Proof. intros Hk. unfold render_and_check. rewrite Hk. reflexivity. Qed.

(** A failure of the fallback call leaves the function as an exception. *)
Lemma fallback_failure_propagates (line_no : nat) (sid sys_text text : string)
    (messages : list json) (obj : list (string * json)) :
  call_keywords render_fn messages obj = RaisesTypeError ->
  call_positional render_fn messages = RaisesOther text ->
  render_and_check profile_obj render_fn line_no sid sys_text messages obj
  = Raise (OtherError text).
Proof. intros Hk Hp. unfold render_and_check. rewrite Hk, Hp. reflexivity. Qed.

End RenderFailures.

(** C2 fails on the code: when the keyword call raises [TypeError] and the
    fallback call raises, the whole pass ends with that exception, and
    reports neither the first record nor the second; a plugin that fails on
    the keyword call itself gets one issue per record. *)
Theorem render_fallback_failure_aborts :
  verify_system_visibility_jsonl (builtins := RefBuiltins.builtins)
    (json_codec := RefJson.codec) generic (positional_failing "boom") false two_records
  = Raise (OtherError "boom")
  /\ verify_system_visibility_jsonl (builtins := RefBuiltins.builtins)
       (json_codec := RefJson.codec) generic (keyword_failing "boom") false two_records
     = Ok [mkIssue "ERROR" "E901_RENDER_PLUGIN_ERROR" 1 "r1" "messages"
             "Render plugin error: boom";
           mkIssue "ERROR" "E901_RENDER_PLUGIN_ERROR" 2 "r2" "messages"
             "Render plugin error: boom"].
Proof. split; vm_compute; reflexivity. Qed.

(* ===================================================================== *)
(** * The profile registry *)
(* ===================================================================== *)

Section Registry.
Context {builtins : PyBuiltins} {files : ProfileFiles}.

Lemma validate_Ok (p : Profile) : validate p = Ok () <-> valid_profile p.
Proof.
  unfold validate, valid_profile.
  destruct (system_invisible_level p) as [| | |lvl| |]; cbn [hashable negb eq_str orb];
    try (split; [discriminate|intros [[H|H] _]; discriminate H]).
  destruct (String.eqb lvl "WARN") eqn:Ew; [apply String.eqb_eq in Ew as ->|];
    [|destruct (String.eqb lvl "ERROR") eqn:Ee; [apply String.eqb_eq in Ee as ->|]];
    cbn [orb negb].
  3: { apply String.eqb_neq in Ew, Ee. split; [discriminate|].
       intros [[[= H]|[= H]] _]; contradiction. }
  all: destruct (truthy (require_system p)), (truthy (system_visible p)),
         (truthy (fold_system_into_user p)); cbn [andb negb];
       split; try discriminate; try (intros _; repeat split; auto; discriminate).
  all: intros (_ & H1 & H2 & H3);
       try (specialize (H1 eq_refl)); try (specialize (H2 eq_refl));
       try (specialize (H3 eq_refl)); discriminate.
Qed.

Lemma validate_each_Ok (ps : list Profile) :
  validate_each ps = Ok () <-> Forall valid_profile ps.
Proof.
  induction ps as [|p ps IH]; cbn [validate_each].
  - split; [constructor|reflexivity].
  - rewrite Forall_cons, <- IH, <- validate_Ok.
    destruct (validate p) as [[]|e]; cbn [mbind result_bind].
    + split; [auto|intros [_ Hps]; exact Hps].
    + split; [discriminate|intros [Hp _]; discriminate Hp].
Qed.

Lemma validate_all_Ok (profs : gmap string Profile) :
  validate_all profs = Ok () <-> map_Forall (fun _ p => valid_profile p) profs.
Proof.
  unfold validate_all. rewrite validate_each_Ok, map_Forall_to_list, Forall_fmap.
  apply Forall_iff. intros [k p]. reflexivity.
Qed.

Lemma default_profile_valid (n : string) : valid_profile (default_profile n).
Proof. unfold valid_profile. cbn. repeat split; auto; discriminate. Qed.

Lemma defaults_valid : map_Forall (fun _ p => valid_profile p) DEFAULT_PROFILES.
Proof.
  unfold DEFAULT_PROFILES.
  apply map_Forall_insert_2; [apply default_profile_valid|].
  apply map_Forall_insert_2; [apply default_profile_valid|].
  apply map_Forall_insert_2; [apply default_profile_valid|].
  apply map_Forall_empty.
Qed.

Lemma merge_overrides_valid (raw : list (string * json)) (profs reg : gmap string Profile) :
  map_Forall (fun _ p => valid_profile p) profs ->
  merge_overrides raw profs = Ok reg ->
  map_Forall (fun _ p => valid_profile p) reg.
Proof.
  revert profs. induction raw as [|[n cfg] raw IH]; intros profs Hprofs.
  - intros [= <-]. exact Hprofs.
  - cbn [merge_overrides]. destruct cfg as [| | | | |fields]; try discriminate.
    destruct (validate (merged_profile profs n fields)) as [[]|e] eqn:Ev; [|discriminate].
    cbn [mbind result_bind]. apply IH. apply map_Forall_insert_2; [|exact Hprofs].
    apply validate_Ok, Ev.
Qed.

(** The first override that fails validation ends the merge. *)
Lemma merge_overrides_abort (before after : list (string * json))
    (profs reached : gmap string Profile) (n : string) (fields : list (string * json))
    (e : exn) :
  merge_overrides before profs = Ok reached ->
  validate (merged_profile reached n fields) = Raise e ->
  merge_overrides (before ++ (n, JDict fields) :: after) profs = Raise e.
Proof.
  revert profs. induction before as [|[n0 cfg0] before IH]; intros profs.
  - intros [= ->] Hv. cbn [app merge_overrides]. rewrite Hv. reflexivity.
  - cbn [app merge_overrides]. destruct cfg0 as [| | | | |fields0]; try discriminate.
    destruct (validate (merged_profile profs n0 fields0)) as [[]|e0]; [|discriminate].
    cbn [mbind result_bind]. apply IH.
Qed.

(** What [load_profiles] does once the loader has returned the mapping
    [d]. *)
Lemma load_profiles_read (file : string) (d : list (string * json)) :
  PyStr.is_empty file = false ->
  read_as file (JDict d) ->
  load_profiles (Some file)
  = match get_or "profiles" (JDict d) d with
    | JDict entries =>
        profs ← merge_overrides entries DEFAULT_PROFILES;
        _ ← validate_all profs;
        Ok profs
    | _ => Raise (ValueError "Profile file must contain a mapping under key 'profiles'")
    end.
Proof.
  intros Hfile Hread. unfold load_profiles. destruct file as [|c file]; [discriminate Hfile|].
  unfold read_as, yaml_suffix in Hread.
  destruct (PyStr.endswith (String c file) ".yaml" || PyStr.endswith (String c file) ".yml").
  - rewrite Hread. reflexivity.
  - destruct Hread as [-> ->]. reflexivity.
Qed.

End Registry.

(** C3: loading either raises or returns a registry in which every profile
    satisfies the three invariants and has level [WARN] or [ERROR];
    validation accepts exactly the profiles that do; and when the file
    that is read holds an override whose merged profile fails validation,
    after overrides that merge, the load raises that error and returns no
    registry, whatever follows the override in the file. *)
Theorem load_profiles_all_or_nothing {builtins : PyBuiltins} {files : ProfileFiles}
    (profile_file : option string) :
  ((exists e, load_profiles profile_file = Raise e)
   \/ (exists reg, load_profiles profile_file = Ok reg
                   /\ map_Forall (fun _ p => valid_profile p) reg))
  /\ (forall p, validate p = Ok () <-> valid_profile p)
  /\ (forall file d before after reached n fields e,
        PyStr.is_empty file = false ->
        read_as file (JDict d) ->
        get_or "profiles" (JDict d) d = JDict (before ++ (n, JDict fields) :: after) ->
        merge_overrides before DEFAULT_PROFILES = Ok reached ->
        validate (merged_profile reached n fields) = Raise e ->
        load_profiles (Some file) = Raise e).
Proof.
  split; [|split; [apply validate_Ok|]].
  2: { intros file d before after reached n fields e Hfile Hread Hraw Hm Hv.
       rewrite (load_profiles_read file d Hfile Hread), Hraw.
       rewrite (merge_overrides_abort before after _ reached n fields e Hm Hv).
       reflexivity. }
  destruct (load_profiles profile_file) as [reg|e] eqn:El; [right|left; eauto].
  exists reg. split; [reflexivity|]. revert El. unfold load_profiles.
  assert (validate_all DEFAULT_PROFILES = Ok ()) as Hd by apply validate_all_Ok, defaults_valid.
  destruct profile_file as [[|c file]|];
    try (rewrite Hd; cbn [mbind result_bind]; intros [= <-]; apply defaults_valid).
  clear Hd. destruct (if _ : bool then _ else _) as [data|e]; [|discriminate].
  cbn [mbind result_bind]. destruct data as [| | | | |d]; try discriminate.
  cbn [mbind result_bind]. destruct (get_or "profiles" (JDict d) d) as [| | | | |entries];
    try discriminate.
  destruct (merge_overrides entries DEFAULT_PROFILES) as [reg'|e] eqn:Em; [|discriminate].
  cbn [mbind result_bind]. destruct (validate_all reg') as [[]|e]; [|discriminate].
  cbn [mbind result_bind]. intros [= <-].
  eapply merge_overrides_valid; [apply defaults_valid|exact Em].
Qed.

(** A YAML file in which the second override hides the system message that
    [generic] requires: the load raises, and the first override is not
    returned. *)
Lemma load_profiles_all_or_nothing_witness :
  load_profiles (builtins := RefBuiltins.builtins)
    (files := json_file (JDict [("profiles", JDict [
       ("my-vlm", JDict [("require_system", JBool false)]);
       ("generic", JDict [("system_visible", JBool false)]);
       ("extra", JDict [])])]))
    (Some "profiles.yaml")
  = Raise (ValueError "profile generic: require_system=True implies system_visible=True").
Proof.
  apply (proj2 (proj2 (load_profiles_all_or_nothing (builtins := RefBuiltins.builtins)
                         (files := json_file (JDict [("profiles", JDict [
                            ("my-vlm", JDict [("require_system", JBool false)]);
                            ("generic", JDict [("system_visible", JBool false)]);
                            ("extra", JDict [])])]))
                         None))
           "profiles.yaml"
           [("profiles", JDict [
              ("my-vlm", JDict [("require_system", JBool false)]);
              ("generic", JDict [("system_visible", JBool false)]);
              ("extra", JDict [])])]
           [("my-vlm", JDict [("require_system", JBool false)])]
           [("extra", JDict [])]
           (<["my-vlm" := mkProfile "my-vlm" (JBool false) (JBool true) (JBool false)
                            (JStr "ERROR")]> DEFAULT_PROFILES)
           "generic" [("system_visible", JBool false)]).
  - reflexivity.
  - vm_compute. reflexivity.
  - reflexivity.
  - vm_compute. reflexivity.
  - vm_compute. reflexivity.
Defined.

(** An override file that makes [my-vlm] not require a system message, and
    one that hides the system message of [generic]. *)
Example load_profiles_override :
  load_profiles (builtins := RefBuiltins.builtins)
    (files := json_file (JDict [("profiles", JDict [("my-vlm",
       JDict [("require_system", JBool false); ("system_invisible_level", JStr "WARN")])])]))
    (Some "profiles.json")
  = Ok (<["my-vlm" := mkProfile "my-vlm" (JBool false) (JBool true) (JBool false) (JStr "WARN")]>
          DEFAULT_PROFILES).
Proof. vm_compute. reflexivity. Qed.

Example load_profiles_rejects :
  load_profiles (builtins := RefBuiltins.builtins)
    (files := json_file (JDict [("generic", JDict [("system_visible", JBool false)]);
                                ("extra", JDict [])]))
    (Some "profiles.json")
  = Raise (ValueError "profile generic: require_system=True implies system_visible=True").
Proof. vm_compute. reflexivity. Qed.

(* ===================================================================== *)
(** * The size tally of a split *)
(* ===================================================================== *)

Lemma size_eqb_eq (a b : Z * Z) : size_eqb a b = true <-> a = b.
Proof.
  destruct a as [a1 a2], b as [b1 b2]. unfold size_eqb. cbn [fst snd].
  rewrite andb_true_iff, !Z.eqb_eq. split; [intros [-> ->]; reflexivity|].
  intros [= -> ->]. split; reflexivity.
Qed.

Lemma size_eqb_refl (a : Z * Z) : size_eqb a a = true.
Proof. apply size_eqb_eq. reflexivity. Qed.

Lemma size_eqb_neq (a b : Z * Z) : size_eqb a b = false <-> a <> b.
Proof.
  rewrite <- size_eqb_eq. destruct (size_eqb a b); split; congruence.
Qed.

Lemma tally_count_count_size (size s : Z * Z) (seen : tally) :
  tally_count s (count_size size seen)
  = (tally_count s seen + if size_eqb s size then 1 else 0)%nat.
Proof.
  induction seen as [|[s0 c0] seen IH]; cbn [count_size tally_count].
  - destruct (size_eqb s size); reflexivity.
  - destruct (size_eqb size s0) eqn:E0; cbn [tally_count].
    + apply size_eqb_eq in E0 as ->.
      destruct (size_eqb s s0); lia.
    + destruct (size_eqb s s0) eqn:E1; [|exact IH].
      apply size_eqb_eq in E1 as ->.
      rewrite (proj2 (size_eqb_neq s0 size)); [lia|].
      apply size_eqb_neq in E0. congruence.
Qed.

Lemma keys_count_size (size : Z * Z) (seen : tally) :
  map fst (count_size size seen)
  = if bool_decide (size ∈ map fst seen) then map fst seen else map fst seen ++ [size].
Proof.
  induction seen as [|[s0 c0] seen IH]; cbn [count_size map fst].
  - rewrite bool_decide_eq_false_2 by apply not_elem_of_nil. reflexivity.
  - destruct (size_eqb size s0) eqn:E0.
    + apply size_eqb_eq in E0 as ->.
      rewrite bool_decide_eq_true_2 by apply list_elem_of_here. reflexivity.
    + apply size_eqb_neq in E0. cbn [map fst]. rewrite IH.
      destruct (bool_decide (size ∈ map fst seen)) eqn:Eb.
      * apply bool_decide_eq_true in Eb.
        rewrite bool_decide_eq_true_2 by (apply list_elem_of_further, Eb). reflexivity.
      * apply bool_decide_eq_false in Eb.
        rewrite bool_decide_eq_false_2; [reflexivity|].
        rewrite elem_of_cons. intros [?|?]; contradiction.
Qed.

Lemma NoDup_count_size (size : Z * Z) (seen : tally) :
  NoDup (map fst seen) -> NoDup (map fst (count_size size seen)).
Proof.
  intros Hnd. rewrite keys_count_size.
  destruct (bool_decide (size ∈ map fst seen)) eqn:Eb; [exact Hnd|].
  apply bool_decide_eq_false in Eb. apply NoDup_app. repeat split.
  - exact Hnd.
  - intros x Hx Hx'. apply list_elem_of_singleton in Hx' as ->. contradiction.
  - apply NoDup_singleton.
Qed.

Lemma positive_count_size (size : Z * Z) (seen : tally) :
  Forall (fun e => (0 < e.2)%nat) seen -> Forall (fun e => (0 < e.2)%nat) (count_size size seen).
Proof.
  induction 1 as [|[s0 c0] seen H0 Hs IH]; cbn [count_size].
  - repeat constructor.
  - destruct (size_eqb size s0); constructor; cbn in *; try assumption; lia.
Qed.

Lemma occurrences_cons (s size : Z * Z) (sizes : list (Z * Z)) :
  occurrences s (size :: sizes)
  = ((if size_eqb s size then 1 else 0) + occurrences s sizes)%nat.
Proof.
  unfold occurrences. rewrite filter_cons.
  destruct (size_eqb s size) eqn:E.
  - apply size_eqb_eq in E as ->. rewrite decide_True by reflexivity. reflexivity.
  - apply size_eqb_neq in E. rewrite decide_False by congruence. reflexivity.
Qed.

(** The tally counts the occurrences of every size, on top of what it
    held. *)
Lemma tally_of_spec (sizes : list (Z * Z)) (seen : tally) :
  NoDup (map fst seen) -> Forall (fun e => (0 < e.2)%nat) seen ->
  NoDup (map fst (tally_of sizes seen))
  /\ Forall (fun e => (0 < e.2)%nat) (tally_of sizes seen)
  /\ forall s, tally_count s (tally_of sizes seen)
               = (tally_count s seen + occurrences s sizes)%nat.
Proof.
  revert seen. induction sizes as [|size sizes IH]; intros seen Hnd Hpos.
  - repeat split; try assumption. intros s. unfold occurrences. cbn. lia.
  - cbn [tally_of fold_left]. fold (tally_of sizes (count_size size seen)).
    destruct (IH (count_size size seen) (NoDup_count_size _ _ Hnd)
                (positive_count_size _ _ Hpos)) as (H1 & H2 & H3).
    repeat split; try assumption. intros s.
    rewrite H3, tally_count_count_size, occurrences_cons. lia.
Qed.

Lemma tally_count_elem (s : Z * Z) (c : nat) (seen : tally) :
  NoDup (map fst seen) -> (s, c) ∈ seen -> tally_count s seen = c.
Proof.
  induction seen as [|[s0 c0] seen IH]; cbn [map fst tally_count].
  - intros _ Hin. apply elem_of_nil in Hin. contradiction.
  - intros Hnd Hin. apply NoDup_cons in Hnd as [Hfresh Hnd].
    apply elem_of_cons in Hin as [[= -> ->]|Hin].
    + rewrite size_eqb_refl. reflexivity.
    + rewrite (proj2 (size_eqb_neq s s0)); [apply IH; assumption|].
      intros ->. apply Hfresh. apply list_elem_of_fmap. exists (s0, c). split; [reflexivity|exact Hin].
Qed.

Lemma tally_count_positive (s : Z * Z) (seen : tally) :
  (0 < tally_count s seen)%nat -> (s, tally_count s seen) ∈ seen.
Proof.
  induction seen as [|[s0 c0] seen IH]; cbn [tally_count]; [lia|].
  destruct (size_eqb s s0) eqn:E.
  - apply size_eqb_eq in E as ->. intros _. apply list_elem_of_here.
  - intros Hp. apply list_elem_of_further, IH, Hp.
Qed.

(** ** Sorting by count *)

Lemma insert_desc_Permutation (x : (Z * Z) * nat) (l : tally) :
  Permutation (insert_desc x l) (x :: l).
Proof.
  induction l as [|y l IH]; cbn [insert_desc]; [reflexivity|].
  destruct (x.2 <? y.2)%nat; [|reflexivity].
  rewrite IH. apply Permutation_swap.
Qed.

Lemma sorted_desc_Permutation (l : tally) : Permutation (sorted_desc l) l.
Proof.
  unfold sorted_desc. induction l as [|x l IH]; [reflexivity|].
  cbn [foldr]. rewrite insert_desc_Permutation, IH. reflexivity.
Qed.

Lemma insert_desc_sorted (x : (Z * Z) * nat) (l : tally) :
  StronglySorted by_count_desc l -> StronglySorted by_count_desc (insert_desc x l).
Proof.
  induction 1 as [|y l Hl IH Hy]; cbn [insert_desc].
  - repeat constructor.
  - destruct (x.2 <? y.2)%nat eqn:E.
    + apply Nat.ltb_lt in E. constructor; [exact IH|].
      rewrite insert_desc_Permutation. constructor; [unfold by_count_desc; lia|exact Hy].
    + apply Nat.ltb_ge in E. constructor; [constructor; assumption|].
      constructor; [exact E|]. eapply Forall_impl; [exact Hy|].
      intros z Hz. unfold by_count_desc in *. lia.
Qed.

Lemma sorted_desc_sorted (l : tally) : StronglySorted by_count_desc (sorted_desc l).
Proof.
  unfold sorted_desc. induction l as [|x l IH]; [constructor|].
  cbn [foldr]. apply insert_desc_sorted, IH.
Qed.

Lemma sorted_take_drop (n : nat) (l : tally) :
  StronglySorted by_count_desc l ->
  StronglySorted by_count_desc (take n l)
  /\ Forall (fun t => Forall (by_count_desc t) (drop n l)) (take n l).
Proof.
  intros Hl. revert n. induction Hl as [|x l Hl IH Hx]; intros n.
  - rewrite take_nil. split; constructor.
  - destruct n as [|n]; [split; constructor|].
    cbn [take drop]. destruct (IH n) as [H1 H2]. split.
    + constructor; [exact H1|]. apply Forall_take, Hx.
    + constructor; [apply Forall_drop, Hx|exact H2].
Qed.

(* ===================================================================== *)
(** * Size policy [consistent] *)
(* ===================================================================== *)

Lemma map_snd_enumerate {A} (n : nat) (l : list A) : map snd (enumerate n l) = l.
Proof.
  revert n. induction l as [|a l IH]; intros n; [reflexivity|].
  cbn. rewrite IH. reflexivity.
Qed.

Lemma occurrences_positive (size : Z * Z) (sizes : list (Z * Z)) :
  (0 < occurrences size sizes)%nat <-> size ∈ sizes.
Proof.
  induction sizes as [|s sizes IH].
  - unfold occurrences. cbn. rewrite elem_of_nil. lia.
  - rewrite occurrences_cons, elem_of_cons, <- IH.
    destruct (size_eqb size s) eqn:E.
    + apply size_eqb_eq in E. split; [auto|lia].
    + apply size_eqb_neq in E. split; [intros H; right; lia|intros [?|?]; [contradiction|lia]].
Qed.

Section SplitTally.
Context {row_builtins : PyValueBuiltins}.
Variables (expect_size : option (Z * Z)) (coord_field : string) (coord_keys : list string)
          (split_name : string) (image_cols : list string) (w_col h_col : option string).

Lemma check_rows_tally (entries : list (nat * list (string * value))) (seen : tally) :
  (check_rows expect_size coord_field coord_keys split_name image_cols w_col h_col
     entries seen).2
  = tally_of (omap (fun row => _get_size_from_row row image_cols w_col h_col)
                (map snd entries)) seen.
Proof.
  revert seen. induction entries as [|[idx row] entries IH]; intros seen; [reflexivity|].
  cbn [check_rows map snd omap list_omap].
  unfold check_row at 1.
  destruct (_get_size_from_row row image_cols w_col h_col) as [[w h]|] eqn:Es.
  - specialize (IH (count_size (w, h) seen)).
    destruct (check_rows _ _ _ _ _ _ _ entries (count_size (w, h) seen)) as [later seen2].
    cbn [snd] in *. rewrite IH. reflexivity.
  - specialize (IH seen).
    destruct (check_rows _ _ _ _ _ _ _ entries seen) as [later seen2].
    cbn [snd] in *. rewrite IH. reflexivity.
Qed.

End SplitTally.

(** What the statements after the row loop emit under the policy. *)
Lemma size_policy_issues_consistent (size_policy split_name : string) (seen : tally) :
  PyStr.lower size_policy = "consistent" ->
  size_policy_issues size_policy split_name seen
  = match seen with
    | [] => [sizes_unknown split_name]
    | [_] => []
    | _ => [inconsistent_sizes split_name (take 5 (sorted_desc seen))]
    end.
Proof.
  intros Hp. unfold size_policy_issues.
  destruct size_policy as [|c p]; [discriminate Hp|].
  cbn [PyStr.is_empty]. rewrite Hp. cbn [String.eqb].
  change (String.eqb "consistent" "consistent") with true. cbn iota.
  destruct seen as [|e1 [|e2 rest]]; reflexivity.
Qed.

(** C7: under the policy [consistent], what a split emits after its rows:
    one aggregated warning listing the (at most five) most frequent sizes
    with their counts when more than one distinct size was resolved, one
    split-level size-unknown warning when none was, and nothing when exactly
    one was. The tally holds each resolved size once, with the number of
    rows that resolved to it. *)
Theorem consistent_policy_split_issues {row_builtins : PyValueBuiltins}
    (expect_size : option (Z * Z)) (size_policy coord_field : string)
    (coord_keys : list string) (split_name : string)
    (features : list (string * feature)) (rows : list (list (string * value))) :
  PyStr.lower size_policy = "consistent" ->
  let sizes := sizes_of features rows in
  let seen := tally_of sizes [] in
  let top := take 5 (sorted_desc seen) in
  check_split expect_size size_policy coord_field coord_keys split_name features rows
  = (check_rows expect_size coord_field coord_keys split_name
       (_find_image_columns features) (pick_column features "image_w" "width")
       (pick_column features "image_h" "height") (enumerate 0 rows) []).1
    ++ match seen with
       | [] => [sizes_unknown split_name]
       | [_] => []
       | _ => [inconsistent_sizes split_name top]
       end
  /\ NoDup (map fst seen)
  /\ (forall size c, (size, c) ∈ seen <-> size ∈ sizes /\ c = occurrences size sizes)
  /\ length top = Nat.min 5 (length seen)
  /\ Permutation (top ++ drop 5 (sorted_desc seen)) seen
  /\ StronglySorted by_count_desc top
  /\ Forall (fun t => Forall (by_count_desc t) (drop 5 (sorted_desc seen))) top.
Proof.
  intros Hp sizes seen top.
  destruct (tally_of_spec sizes [] (NoDup_nil_2) (Forall_nil_2 _)) as (Hnd & Hpos & Hcount).
  fold seen in Hnd, Hpos, Hcount. cbn [tally_count] in Hcount.
  split; [|split; [exact Hnd|split; [|split; [|split; [|apply sorted_take_drop, sorted_desc_sorted]]]]].
  - unfold check_split.
    pose proof (check_rows_tally expect_size coord_field coord_keys split_name
                  (_find_image_columns features) (pick_column features "image_w" "width")
                  (pick_column features "image_h" "height") (enumerate 0 rows) []) as Ht.
    rewrite map_snd_enumerate in Ht. fold (sizes_of features rows) in Ht.
    destruct (check_rows _ _ _ _ _ _ _ (enumerate 0 rows) []) as [issues seen'].
    cbn [fst snd] in *. subst seen'. fold sizes. fold seen.
    rewrite size_policy_issues_consistent by exact Hp. reflexivity.
  - intros size c. split.
    + intros Hin. pose proof (tally_count_elem size c seen Hnd Hin) as Hc.
      rewrite Hcount in Hc. split; [|lia].
      apply occurrences_positive. rewrite Forall_forall in Hpos.
      specialize (Hpos _ Hin). cbn in Hpos. lia.
    + intros [Hin ->]. apply occurrences_positive in Hin.
      pose proof (Hcount size) as Hs. try rewrite Nat.add_0_l in Hs.
      rewrite <- Hs. apply tally_count_positive. rewrite Hs. exact Hin.
  - unfold top. rewrite length_take, (Permutation_length (sorted_desc_Permutation seen)).
    reflexivity.
  - unfold top. rewrite take_drop. apply sorted_desc_Permutation.
Qed.

Lemma consistent_policy_split_issues_witness :
  check_split (row_builtins := RefBuiltins.row_builtins) None "consistent" "" []
    "data" size_columns mixed_rows
  = [mkIssue "WARN" "W201_IMAGE_SIZE_INCONSISTENT" 1 "data" "image"
       "Inconsistent image sizes in split data: 512x512 (9), 640x480 (1)"].
Proof.
  exact (proj1 (consistent_policy_split_issues (row_builtins := RefBuiltins.row_builtins)
                  None "consistent" "" [] "data" size_columns mixed_rows eq_refl)).
Defined.

(* ===================================================================== *)
(** * Comparison of Python numbers *)
(* ===================================================================== *)

Lemma cmp_antisym (a b : pyfloat) : Num.cmp b a = CompOpp <$> Num.cmp a b.
Proof.
  destruct a as [x| | |], b as [y| | |]; try reflexivity.
  cbn. rewrite (Qcompare_antisym x y). destruct (y ?= x)%Q; reflexivity.
Qed.

Lemma le_not_gt (a b : pyfloat) : Num.le a b = true -> Num.gt a b = false.
Proof.
  unfold Num.le, Num.gt, Num.lt. rewrite (cmp_antisym a b).
  destruct (Num.cmp a b) as [[]|]; cbn; congruence.
Qed.

Lemma ge_not_lt (a b : pyfloat) : Num.ge a b = true -> Num.lt a b = false.
Proof.
  unfold Num.ge, Num.le, Num.lt. rewrite (cmp_antisym a b).
  destruct (Num.cmp a b) as [[]|]; cbn; congruence.
Qed.

Lemma gt_finite (x : Q) (z : Z) :
  Num.gt (Finite x) (Num.of_int z) = true <-> (inject_Z z < x)%Q.
Proof.
  unfold Num.gt, Num.lt, Num.of_int, Num.cmp. rewrite Qlt_alt.
  destruct (inject_Z z ?= x)%Q; split; congruence.
Qed.

Lemma ge_finite (x : Q) (z : Z) :
  Num.ge (Finite x) (Num.of_int z) = true <-> (inject_Z z <= x)%Q.
Proof.
  unfold Num.ge, Num.le, Num.of_int, Num.cmp. rewrite Qle_alt.
  destruct (inject_Z z ?= x)%Q; split; congruence.
Qed.

Lemma le_finite (x : Q) (z : Z) :
  Num.le (Finite x) (Num.of_int z) = true <-> (x <= inject_Z z)%Q.
Proof.
  unfold Num.le, Num.of_int, Num.cmp. rewrite Qle_alt.
  destruct (x ?= inject_Z z)%Q; split; congruence.
Qed.

Lemma gt_finite_finite (x y : Q) : Num.gt (Finite x) (Finite y) = true <-> (y < x)%Q.
Proof.
  unfold Num.gt, Num.lt, Num.cmp. rewrite Qlt_alt.
  destruct (y ?= x)%Q; split; congruence.
Qed.

(** With sides of at most 600, a coordinate within its side is below the
    band. *)
Lemma within_side_not_in_band (v : pyfloat) (side : Z) :
  side <= 600 -> exceeds v side = false -> in_band v = false.
Proof.
  intros Hs Hv. unfold in_band. destruct v as [x| | |]; try reflexivity.
  destruct (Num.ge (Finite x) (Num.of_int 800)) eqn:E; [|reflexivity].
  apply ge_finite in E. exfalso.
  assert (~ (inject_Z side < x)%Q) as Hn.
  { intros Hlt. apply gt_finite in Hlt. unfold exceeds in Hv. congruence. }
  apply Hn. apply Qlt_le_trans with (inject_Z 800); [|exact E].
  rewrite <- Zlt_Qlt. lia.
Qed.

(** When only one of the two checked coordinates is out of bounds, the
    larger one, on which the heuristic is computed, decides as that
    coordinate does. *)
Lemma alternate_space_only_x1 (w h : Z) (x1 y1 : pyfloat) :
  exceeds x1 w = true -> exceeds y1 h = false ->
  alternate_space w h (Num.max x1 y1) = alternate_space w h x1.
Proof.
  intros Hx Hy. unfold Num.max. destruct (Num.gt y1 x1) eqn:E; [|reflexivity].
  unfold alternate_space.
  destruct (w <=? 600) eqn:Ew; [|reflexivity].
  destruct (h <=? 600) eqn:Eh; [|reflexivity]. cbn [andb].
  apply Z.leb_le in Ew, Eh.
  rewrite (within_side_not_in_band y1 h Eh Hy).
  destruct x1 as [x| | |], y1 as [y| | |]; try reflexivity;
    try (cbn in Hx, Hy, E; discriminate).
  apply gt_finite_finite in E.
  unfold in_band. destruct (Num.ge (Finite x) (Num.of_int 800)) eqn:E8; [|reflexivity].
  apply ge_finite in E8. exfalso.
  assert (~ (inject_Z h < y)%Q) as Hn.
  { intros Hlt. apply gt_finite in Hlt. unfold exceeds in Hy. congruence. }
  apply Hn. apply Qlt_trans with x; [|exact E].
  apply Qlt_le_trans with (inject_Z 800); [|exact E8]. rewrite <- Zlt_Qlt. lia.
Qed.

Lemma alternate_space_only_y1 (w h : Z) (x1 y1 : pyfloat) :
  is_nan x1 = false -> exceeds x1 w = false -> exceeds y1 h = true ->
  alternate_space w h (Num.max x1 y1) = alternate_space w h y1.
Proof.
  intros Hnan Hx Hy. unfold Num.max. destruct (Num.gt y1 x1) eqn:E; [reflexivity|].
  unfold alternate_space.
  destruct (w <=? 600) eqn:Ew; [|reflexivity].
  destruct (h <=? 600) eqn:Eh; [|reflexivity]. cbn [andb].
  apply Z.leb_le in Ew, Eh.
  rewrite (within_side_not_in_band x1 w Ew Hx).
  destruct x1 as [x| | |], y1 as [y| | |]; try reflexivity;
    try (cbn in Hnan, Hx, Hy, E; discriminate).
  assert (~ (x < y)%Q) as Hxy.
  { intros Hlt. apply gt_finite_finite in Hlt. congruence. }
  unfold in_band. destruct (Num.ge (Finite y) (Num.of_int 800)) eqn:E8; [|reflexivity].
  apply ge_finite in E8. exfalso.
  assert (~ (inject_Z w < x)%Q) as Hn.
  { intros Hlt. apply gt_finite in Hlt. unfold exceeds in Hx. congruence. }
  apply Hn. apply Qlt_le_trans with y; [|apply Qnot_lt_le, Hxy].
  apply Qlt_le_trans with (inject_Z 800); [|exact E8]. rewrite <- Zlt_Qlt. lia.
Qed.

(* ===================================================================== *)
(** * The stricter coordinate check *)
(* ===================================================================== *)

Section Coordinates.
Context {row_builtins : PyValueBuiltins}.
Variables (image_w_field image_h_field coordinates_prefix : string)
          (f0 f1 f2 f3 : string) (i : nat) (sid : string)
          (row coordinates : list (string * value)) (w h : Z).
Hypothesis (Hw : as_int (vget image_w_field row) = Some w).
Hypothesis (Hh : as_int (vget image_h_field row) = Some h).
Hypothesis (Hc : vget coordinates_prefix row = VDict coordinates).

Local Abbreviation check :=
  (DatasetChecks.coordinates_check image_w_field image_h_field coordinates_prefix
     (f0, f1, f2, f3) i sid row).

Lemma number_not_none (v : value) (n : pyfloat) : as_number v = Some n -> is_none v = false.
Proof. destruct v; (discriminate || reflexivity). Qed.

Lemma coordinates_check_none :
  existsb is_none [vget f0 coordinates; vget f1 coordinates;
                   vget f2 coordinates; vget f3 coordinates] = true ->
  check = [].
Proof.
  intros Hn. unfold DatasetChecks.coordinates_check. rewrite Hw, Hh, Hc, Hn.
  reflexivity.
Qed.

Lemma coordinates_check_bad_type :
  existsb is_none [vget f0 coordinates; vget f1 coordinates;
                   vget f2 coordinates; vget f3 coordinates] = false ->
  mapM as_number [vget f0 coordinates; vget f1 coordinates;
                  vget f2 coordinates; vget f3 coordinates] = None ->
  codes_of check = ["E102_coordinates_BAD_TYPE"].
Proof.
  intros Hn Hbad. unfold DatasetChecks.coordinates_check. rewrite Hw, Hh, Hc, Hn.
  cbn [mapM mbind option_bind mret option_ret] in Hbad.
  destruct (as_number (vget f0 coordinates)), (as_number (vget f1 coordinates)),
    (as_number (vget f2 coordinates)), (as_number (vget f3 coordinates));
    try discriminate Hbad; reflexivity.
Qed.

Lemma coordinates_check_numeric (x0 y0 x1 y1 : pyfloat) :
  as_number (vget f0 coordinates) = Some x0 -> as_number (vget f1 coordinates) = Some y0 ->
  as_number (vget f2 coordinates) = Some x1 -> as_number (vget f3 coordinates) = Some y1 ->
  codes_of check
  = (if negative x0 || negative y0 || negative x1 || negative y1
     then ["E103_coordinates_NEGATIVE"] else [])
    ++ (if exceeds x1 w || exceeds y1 h
        then [if alternate_space w h (Num.max x1 y1)
              then "E105_coordinates_SPACE_MISMATCH"
              else "E104_coordinates_OUT_OF_BOUNDS"]
        else []).
Proof.
  intros H0 H1 H2 H3. unfold DatasetChecks.coordinates_check.
  rewrite Hw, Hh, Hc. cbn [existsb].
  rewrite (number_not_none _ _ H0), (number_not_none _ _ H1),
    (number_not_none _ _ H2), (number_not_none _ _ H3). cbn [orb].
  rewrite H0, H1, H2, H3. unfold codes_of. rewrite map_app.
  fold (negative x0) (negative y0) (negative x1) (negative y1).
  fold (exceeds x1 w) (exceeds y1 h).
  unfold alternate_space, in_band. rewrite andb_assoc.
  destruct (negative x0 || negative y0 || negative x1 || negative y1);
    destruct (exceeds x1 w || exceeds y1 h); cbn [map app DatasetChecks.d_code
      DatasetChecks.coord_issue]; try reflexivity;
    destruct ((w <=? 600) && (h <=? 600) && Num.ge (Num.max x1 y1) (Num.of_int 800)
              && Num.le (Num.max x1 y1) (Num.of_int 1200)); reflexivity.
Qed.

End Coordinates.

(** C8, as the code has it: for a row with integral image sides and a coordinates mapping whose
    four values are all present, the stricter check reports a non-numeric
    value under [E102], a negative coordinate under [E103], and an [x1] or
    [y1] beyond its side under [E105] when both sides are at most 600 and
    the larger of [x1] and [y1] lies in the band from 800 to 1200, under
    [E104] otherwise; the four codes are distinct. When only one of [x1],
    [y1] is beyond its side (and [x1] is a number), the heuristic decides on
    that coordinate. *)
Theorem strict_coordinate_codes {row_builtins : PyValueBuiltins}
    (image_w_field image_h_field coordinates_prefix f0 f1 f2 f3 : string)
    (i : nat) (sid : string) (row coordinates : list (string * value)) (w h : Z) :
  as_int (vget image_w_field row) = Some w ->
  as_int (vget image_h_field row) = Some h ->
  vget coordinates_prefix row = VDict coordinates ->
  existsb is_none [vget f0 coordinates; vget f1 coordinates;
                   vget f2 coordinates; vget f3 coordinates] = false ->
  let check := DatasetChecks.coordinates_check image_w_field image_h_field
                 coordinates_prefix (f0, f1, f2, f3) i sid row in
  (mapM as_number [vget f0 coordinates; vget f1 coordinates;
                   vget f2 coordinates; vget f3 coordinates] = None ->
   codes_of check = ["E102_coordinates_BAD_TYPE"])
  /\ (forall x0 y0 x1 y1,
        as_number (vget f0 coordinates) = Some x0 ->
        as_number (vget f1 coordinates) = Some y0 ->
        as_number (vget f2 coordinates) = Some x1 ->
        as_number (vget f3 coordinates) = Some y1 ->
        codes_of check
        = (if negative x0 || negative y0 || negative x1 || negative y1
           then ["E103_coordinates_NEGATIVE"] else [])
          ++ (if exceeds x1 w || exceeds y1 h
              then [if alternate_space w h (Num.max x1 y1)
                    then "E105_coordinates_SPACE_MISMATCH"
                    else "E104_coordinates_OUT_OF_BOUNDS"]
              else [])
        /\ (exceeds x1 w = true -> exceeds y1 h = false ->
            alternate_space w h (Num.max x1 y1) = alternate_space w h x1)
        /\ (is_nan x1 = false -> exceeds x1 w = false -> exceeds y1 h = true ->
            alternate_space w h (Num.max x1 y1) = alternate_space w h y1))
  /\ NoDup ["E102_coordinates_BAD_TYPE"; "E103_coordinates_NEGATIVE";
            "E104_coordinates_OUT_OF_BOUNDS"; "E105_coordinates_SPACE_MISMATCH"].
Proof.
  intros Hw Hh Hc Hnone check. split; [|split].
  - exact (coordinates_check_bad_type image_w_field image_h_field coordinates_prefix
             f0 f1 f2 f3 i sid row coordinates w h Hw Hh Hc Hnone).
  - intros x0 y0 x1 y1 H0 H1 H2 H3. split; [|split].
    + exact (coordinates_check_numeric image_w_field image_h_field coordinates_prefix
               f0 f1 f2 f3 i sid row coordinates w h Hw Hh Hc x0 y0 x1 y1 H0 H1 H2 H3).
    + exact (alternate_space_only_x1 w h x1 y1).
    + exact (alternate_space_only_y1 w h x1 y1).
  - apply (bool_decide_unpack _). vm_compute. reflexivity.
Qed.

(** A 512x512 image with [x1 = 900] and [y1 = 950]. *)
Lemma strict_coordinate_codes_witness :
  codes_of (DatasetChecks.coordinates_check (row_builtins := RefBuiltins.row_builtins)
              "image_w" "image_h" "coordinates" xyxy 0 "row_0"
              (box_row 512 512 (VInt 50) (VInt 80) (VInt 900) (VInt 950)))
  = ["E105_coordinates_SPACE_MISMATCH"].
Proof.
  exact (proj1 (proj1 (proj2 (strict_coordinate_codes
                                (row_builtins := RefBuiltins.row_builtins)
                                "image_w" "image_h" "coordinates" "x0" "y0" "x1" "y1"
                                0 "row_0"
                                (box_row 512 512 (VInt 50) (VInt 80) (VInt 900) (VInt 950))
                                [("x0", VInt 50); ("y0", VInt 80); ("x1", VInt 900);
                                 ("y1", VInt 950)]
                                512 512 eq_refl eq_refl eq_refl eq_refl))
                  (Num.of_int 50) (Num.of_int 80) (Num.of_int 900) (Num.of_int 950)
                  eq_refl eq_refl eq_refl eq_refl)).
Defined.

(** C8 as stated fails on a 512x512 image. With [x1 = 900] and [y1 = 1500],
    [x1] is beyond the width and in the band, and the code is [E104]; with
    [x1 = 900] and [y1 = 700], [y1] is beyond the height and outside the
    band, and the code is [E105]; with [x1] not a number and [y1 = 900], the
    only coordinate beyond its side is in the band, and the code is
    [E104]. *)
Lemma strict_alternate_space_not_per_coordinate :
  (codes_of (DatasetChecks.coordinates_check (row_builtins := RefBuiltins.row_builtins)
               "image_w" "image_h" "coordinates" xyxy 0 "row_0"
               (box_row 512 512 (VInt 50) (VInt 80) (VInt 900) (VInt 1500)))
   = ["E104_coordinates_OUT_OF_BOUNDS"]
   /\ exceeds (Num.of_int 900) 512 = true
   /\ alternate_space 512 512 (Num.of_int 900) = true)
  /\ (codes_of (DatasetChecks.coordinates_check (row_builtins := RefBuiltins.row_builtins)
                  "image_w" "image_h" "coordinates" xyxy 0 "row_0"
                  (box_row 512 512 (VInt 50) (VInt 80) (VInt 900) (VInt 700)))
      = ["E105_coordinates_SPACE_MISMATCH"]
      /\ exceeds (Num.of_int 700) 512 = true
      /\ alternate_space 512 512 (Num.of_int 700) = false)
  /\ (codes_of (DatasetChecks.coordinates_check (row_builtins := RefBuiltins.row_builtins)
                  "image_w" "image_h" "coordinates" xyxy 0 "row_0"
                  (box_row 512 512 (VInt 50) (VInt 80) (VFloat NaN) (VInt 900)))
      = ["E104_coordinates_OUT_OF_BOUNDS"]
      /\ exceeds NaN 512 = false
      /\ exceeds (Num.of_int 900) 512 = true
      /\ alternate_space 512 512 (Num.of_int 900) = true).
Proof. repeat split; vm_compute; reflexivity. Qed.

(** C10: the stricter check compares only [x1] with the width and [y1] with
    the height. It reports nothing when one of the four values of the
    coordinates mapping is [None]; and with integral sides, numeric,
    non-negative coordinates, [x1] within the width and [y1] within the
    height, it reports nothing, wherever [x0] and [y0] lie. *)
Theorem strict_check_bounds_only_x1_y1 {row_builtins : PyValueBuiltins}
    (image_w_field image_h_field coordinates_prefix f0 f1 f2 f3 : string)
    (i : nat) (sid : string) (row : list (string * value)) :
  let check := DatasetChecks.coordinates_check image_w_field image_h_field
                 coordinates_prefix (f0, f1, f2, f3) i sid row in
  (forall coordinates,
     vget coordinates_prefix row = VDict coordinates ->
     existsb is_none [vget f0 coordinates; vget f1 coordinates;
                      vget f2 coordinates; vget f3 coordinates] = true ->
     check = [])
  /\ (forall w h coordinates x0 y0 x1 y1,
        as_int (vget image_w_field row) = Some w ->
        as_int (vget image_h_field row) = Some h ->
        vget coordinates_prefix row = VDict coordinates ->
        as_number (vget f0 coordinates) = Some x0 ->
        as_number (vget f1 coordinates) = Some y0 ->
        as_number (vget f2 coordinates) = Some x1 ->
        as_number (vget f3 coordinates) = Some y1 ->
        Num.ge x0 (Num.of_int 0) = true -> Num.ge y0 (Num.of_int 0) = true ->
        Num.ge x1 (Num.of_int 0) = true -> Num.ge y1 (Num.of_int 0) = true ->
        Num.le x1 (Num.of_int w) = true -> Num.le y1 (Num.of_int h) = true ->
        check = []).
Proof.
  intros check. split.
  - intros coordinates Hc Hn. subst check. unfold DatasetChecks.coordinates_check.
    rewrite Hc, Hn.
    destruct (as_int (vget image_w_field row)), (as_int (vget image_h_field row));
      reflexivity.
  - intros w h coordinates x0 y0 x1 y1 Hw Hh Hc H0 H1 H2 H3 P0 P1 P2 P3 Bx By.
    pose proof (coordinates_check_numeric image_w_field image_h_field coordinates_prefix
                  f0 f1 f2 f3 i sid row coordinates w h Hw Hh Hc x0 y0 x1 y1
                  H0 H1 H2 H3) as Hcodes.
    fold check in Hcodes. unfold negative, exceeds in Hcodes.
    rewrite (ge_not_lt _ _ P0), (ge_not_lt _ _ P1), (ge_not_lt _ _ P2),
      (ge_not_lt _ _ P3), (le_not_gt _ _ Bx), (le_not_gt _ _ By) in Hcodes.
    destruct check; [reflexivity|discriminate Hcodes].
Qed.

(** A 512x512 image with [x0 = 900] and [y0 = 700], and a box whose [y0] is
    missing. *)
Lemma strict_check_bounds_only_x1_y1_witness :
  DatasetChecks.coordinates_check (row_builtins := RefBuiltins.row_builtins)
    "image_w" "image_h" "coordinates" xyxy 0 "row_0"
    (box_row 512 512 (VInt 900) (VInt 700) (VInt 100) (VInt 512))
  = []
  /\ DatasetChecks.coordinates_check (row_builtins := RefBuiltins.row_builtins)
       "image_w" "image_h" "coordinates" xyxy 0 "row_0"
       (box_row 512 512 (VInt 10) VNone (VInt 900) (VInt 950))
     = [].
Proof.
  split.
  - exact (proj2 (strict_check_bounds_only_x1_y1
                    (row_builtins := RefBuiltins.row_builtins)
                    "image_w" "image_h" "coordinates" "x0" "y0" "x1" "y1" 0 "row_0"
                    (box_row 512 512 (VInt 900) (VInt 700) (VInt 100) (VInt 512)))
             512 512
             [("x0", VInt 900); ("y0", VInt 700); ("x1", VInt 100); ("y1", VInt 512)]
             (Num.of_int 900) (Num.of_int 700) (Num.of_int 100) (Num.of_int 512)
             eq_refl eq_refl eq_refl
             eq_refl eq_refl eq_refl eq_refl eq_refl eq_refl eq_refl eq_refl eq_refl eq_refl).
  - exact (proj1 (strict_check_bounds_only_x1_y1
                    (row_builtins := RefBuiltins.row_builtins)
                    "image_w" "image_h" "coordinates" "x0" "y0" "x1" "y1" 0 "row_0"
                    (box_row 512 512 (VInt 10) VNone (VInt 900) (VInt 950)))
             [("x0", VInt 10); ("y0", VNone); ("x1", VInt 900); ("y1", VInt 950)]
             eq_refl eq_refl).
Defined.

(* ===================================================================== *)
(** * The severity policy *)
(* ===================================================================== *)

Lemma level_rank_le_2 (lvl : string) : (level_rank lvl <= 2)%nat.
Proof.
  unfold level_rank, _LEVEL_ORDER.
  repeat (destruct (String.eqb _ _); [cbn; lia|]). cbn. lia.
Qed.

Lemma existsb_impl {A} (f g : A -> bool) (l : list A) :
  (forall a, f a = true -> g a = true) -> existsb f l = true -> existsb g l = true.
Proof.
  intros Hfg. rewrite !existsb_exists. intros (a & Ha & Hf). exists a. auto.
Qed.

(** X1: the thresholds of [should_fail] are ordered: issues that fail at
    [ERROR] fail at every threshold, and issues that fail at some
    threshold fail at [INFO]. A threshold whose upper case is neither
    [INFO] nor [WARN], the empty one included, is [ERROR]. *)
Theorem should_fail_thresholds (issues : list Issue) (fail_on : string) :
  (should_fail issues "ERROR" = true -> should_fail issues fail_on = true)
  /\ (should_fail issues fail_on = true -> should_fail issues "INFO" = true)
  /\ (String.eqb (str_upper fail_on) "INFO" = false ->
      String.eqb (str_upper fail_on) "WARN" = false ->
      should_fail issues fail_on = should_fail issues "ERROR").
Proof.
  unfold should_fail. split; [|split].
  - apply existsb_impl. intros i Hi. apply Nat.leb_le. apply Nat.leb_le in Hi.
    change (level_rank (str_upper (if PyStr.is_empty "ERROR" then "ERROR" else "ERROR")))
      with 2%nat in Hi.
    pose proof (level_rank_le_2 (str_upper (if PyStr.is_empty fail_on then "ERROR"
                                            else fail_on))).
    lia.
  - apply existsb_impl. intros i _. reflexivity.
  - intros Hi Hw. f_equal.
    destruct fail_on as [|c s]; [reflexivity|]. cbn [PyStr.is_empty].
    change (level_rank (str_upper "ERROR")) with 2%nat.
    unfold level_rank, _LEVEL_ORDER. rewrite Hi, Hw.
    destruct (String.eqb _ "ERROR"); reflexivity.
Qed.

(** X2: what each threshold counts: [INFO] every issue, [WARN] the issues whose
    level is not [INFO], [ERROR] the issues whose level is neither [INFO]
    nor [WARN]; a level outside the three counts as an error. *)
Theorem should_fail_by_level (issues : list Issue) :
  should_fail issues "INFO" = negb (bool_decide (issues = []))
  /\ should_fail issues "WARN"
     = existsb (fun i => negb (String.eqb (level i) "INFO")) issues
  /\ should_fail issues "ERROR"
     = existsb (fun i => negb (String.eqb (level i) "INFO")
                         && negb (String.eqb (level i) "WARN")) issues.
Proof.
  unfold should_fail. split; [|split].
  - destruct issues; reflexivity.
  - induction issues as [|i l IH]; [reflexivity|]. cbn [existsb]. rewrite IH. f_equal.
    change (level_rank (str_upper (if PyStr.is_empty "WARN" then "ERROR" else "WARN")))
      with 1%nat.
    unfold level_rank, _LEVEL_ORDER.
    destruct (String.eqb (level i) "INFO"); [reflexivity|].
    repeat (destruct (String.eqb (level i) _)); reflexivity.
  - induction issues as [|i l IH]; [reflexivity|]. cbn [existsb]. rewrite IH. f_equal.
    change (level_rank (str_upper (if PyStr.is_empty "ERROR" then "ERROR" else "ERROR")))
      with 2%nat.
    unfold level_rank, _LEVEL_ORDER.
    destruct (String.eqb (level i) "INFO"); [reflexivity|].
    destruct (String.eqb (level i) "WARN"); [reflexivity|].
    destruct (String.eqb (level i) "ERROR"); reflexivity.
Qed.

(* ===================================================================== *)
(** * The message schema *)
(* ===================================================================== *)

Lemma concat_results_Ok {A B} (f : A -> result (list B)) (l : list A) (out : list B) :
  concat_results f l = Ok out ->
  exists parts, Forall2 (fun a p => f a = Ok p) l parts /\ out = concat parts.
Proof.
  revert out. induction l as [|a l IH]; intros out.
  - intros [= <-]. exists []. split; [constructor|reflexivity].
  - cbn [concat_results]. destruct (f a) as [here|] eqn:Ha; [|discriminate].
    cbn [mbind result_bind].
    destruct (concat_results f l) as [rest|]; [|discriminate].
    cbn [mbind result_bind]. intros [= <-].
    destruct (IH rest eq_refl) as (parts & Hparts & ->).
    exists (here :: parts). split; [constructor; assumption|reflexivity].
Qed.

Lemma concat_results_all_Ok {A B} (f : A -> result (list B)) (g : A -> list B) (l : list A) :
  Forall (fun a => f a = Ok (g a)) l ->
  concat_results f l = Ok (concat (map g l)).
Proof.
  induction 1 as [|a l Ha _ IH]; [reflexivity|].
  cbn [concat_results map concat]. rewrite Ha, IH. reflexivity.
Qed.

Lemma concat_results_nil {A B} (f : A -> result (list B)) (l : list A) :
  concat_results f l = Ok [] <-> Forall (fun a => f a = Ok []) l.
Proof.
  induction l as [|a l IH].
  - split; [constructor|reflexivity].
  - cbn [concat_results]. rewrite Forall_cons, <- IH.
    destruct (f a) as [here|]; cbn [mbind result_bind].
    + destruct (concat_results f l) as [rest|]; cbn [mbind result_bind].
      * split.
        -- intros [= H]. apply app_eq_nil in H as [-> ->]. split; reflexivity.
        -- intros [[= ->] [= ->]]. reflexivity.
      * split; [discriminate|intros [_ ?]; discriminate].
    + split; [discriminate|intros [? _]; discriminate].
Qed.

Lemma Forall_enumerate {A} (P : A -> Prop) (n : nat) (l : list A) :
  Forall P l <-> Forall (fun e => P e.2) (enumerate n l).
Proof.
  revert n. induction l as [|a l IH]; intros n; cbn [enumerate].
  - split; constructor.
  - rewrite !Forall_cons, <- IH. reflexivity.
Qed.

Lemma forallb_true_Forall {A} (f : A -> bool) (l : list A) :
  forallb f l = true <-> Forall (fun a => f a = true) l.
Proof.
  induction l as [|a l IH]; cbn [forallb].
  - split; [constructor|reflexivity].
  - rewrite andb_true_iff, Forall_cons, IH. reflexivity.
Qed.

Section Schema.
Context {builtins : PyBuiltins}.
Variables (line_no : nat) (sample_id : string).

Lemma check_item_accepts (base : string) (e : nat * json) :
  check_item line_no sample_id base e = [] <-> accepted_item e.2 = true.
Proof.
  destruct e as [ci it]. unfold check_item, accepted_item. cbn [snd].
  destruct it as [| | | | |d]; try (split; discriminate).
  destruct (truthy (get "type" d)); cbn [negb andb]; [|split; discriminate].
  destruct (eq_str (get "type" d) "text").
  { destruct (is_str (get "text" d)); split; (reflexivity || discriminate). }
  destruct (eq_str (get "type" d) "image"); [|split; reflexivity].
  destruct (Dict.mem "image" d); split; (reflexivity || discriminate).
Qed.

Lemma concat_map_nil {A B} (f : A -> list B) (l : list A) :
  concat (map f l) = [] <-> Forall (fun a => f a = []) l.
Proof.
  induction l as [|a l IH]; cbn [map concat].
  - split; constructor.
  - rewrite Forall_cons, <- IH. split.
    + intros H. apply app_eq_nil in H. exact H.
    + intros [-> ->]. reflexivity.
Qed.

Lemma check_message_accepts (strict_typed : bool) (e : nat * json) :
  check_message line_no sample_id strict_typed e = Ok []
  <-> accepted_message strict_typed e.2 = true.
Proof.
  destruct e as [mi m]. unfold check_message, accepted_message. cbn [snd].
  destruct m as [| | | | |d]; try (split; discriminate).
  destruct (hashable (get "role" d)) eqn:Hh; cbn [negb].
  2:{ destruct (get "role" d); try discriminate Hh; split; discriminate. }
  destruct (existsb (eq_str (get "role" d)) _ALLOWED_ROLES); cbn [andb app].
  2:{ destruct (Dict.mem "content" d); cbn [negb]; split; discriminate. }
  destruct (Dict.mem "content" d); cbn [negb andb]; [|split; discriminate].
  unfold accepted_content. destruct strict_typed.
  - destruct (get "content" d) as [| | | |items|]; try (split; discriminate).
    rewrite forallb_true_Forall, (Forall_enumerate (fun it => accepted_item it = true) 0).
    split.
    + intros [= H]. apply concat_map_nil in H.
      eapply Forall_impl; [exact H|]. intros e He.
      exact (proj1 (check_item_accepts _ e) He).
    + intros H. f_equal. apply concat_map_nil.
      eapply Forall_impl; [exact H|]. intros e He.
      exact (proj2 (check_item_accepts _ e) He).
  - destruct (is_str (get "content" d) || is_list (get "content" d)
              || is_dict (get "content" d)); split; (reflexivity || discriminate).
Qed.

End Schema.

(** X3: the schema check accepts a list of messages, with no issue, exactly
    when every message is an object with one of the four roles and a
    content that is a string, a list or an object; in strict mode, a content
    that is a list of objects with a [type], where a text item holds a
    string and an image item holds an image. *)
Theorem schema_accepts_iff {builtins : PyBuiltins}
    (line_no : nat) (sample_id : string) (strict_typed : bool) (msgs : list json) :
  _validate_messages_schema line_no sample_id (JList msgs) strict_typed = Ok []
  <-> forallb (accepted_message strict_typed) msgs = true.
Proof.
  cbn [_validate_messages_schema]. rewrite concat_results_nil.
  rewrite forallb_true_Forall.
  rewrite (Forall_enumerate (fun m => accepted_message strict_typed m = true) 0).
  apply Forall_iff. intros e. apply check_message_accepts.
Qed.

Lemma concat_results_reports_more {A} (f g : A -> result (list Issue)) (l : list A) :
  (forall a, reports_more (f a) (g a)) ->
  reports_more (concat_results f l) (concat_results g l).
Proof.
  intros Hfg. induction l as [|a l IH]; [cbn; lia|].
  cbn [concat_results]. specialize (Hfg a). unfold reports_more in *.
  destruct (f a) as [x|e1], (g a) as [y|e2]; cbn [mbind result_bind]; try contradiction;
    [|exact Hfg].
  destruct (concat_results f l) as [xs|e1], (concat_results g l) as [ys|e2];
    cbn [mbind result_bind]; try contradiction; [|exact IH].
  rewrite !length_app. lia.
Qed.

Lemma check_message_reports_more {builtins : PyBuiltins}
    (line_no : nat) (sample_id : string) (e : nat * json) :
  reports_more (check_message line_no sample_id true e)
    (check_message line_no sample_id false e).
Proof.
  destruct e as [mi m]. unfold check_message, reports_more.
  destruct m as [| | | | |d]; try (cbn; lia).
  destruct (negb (hashable (get "role" d))); [reflexivity|].
  destruct (negb (Dict.mem "content" d)); [lia|].
  rewrite !length_app. apply Nat.add_le_mono_l.
  destruct (get "content" d); cbn; lia.
Qed.

(** X4: the strict schema is stricter: on the same messages, strict mode raises
    exactly when non-strict mode raises, with the same exception, and
    otherwise reports at least as many issues; so messages that are clean
    in strict mode are clean in non-strict mode. *)
Theorem strict_schema_reports_more {builtins : PyBuiltins}
    (line_no : nat) (sample_id : string) (messages : json) :
  reports_more (_validate_messages_schema line_no sample_id messages true)
    (_validate_messages_schema line_no sample_id messages false)
  /\ (_validate_messages_schema line_no sample_id messages true = Ok [] ->
      _validate_messages_schema line_no sample_id messages false = Ok []).
Proof.
  assert (reports_more (_validate_messages_schema line_no sample_id messages true)
            (_validate_messages_schema line_no sample_id messages false)) as H.
  { unfold _validate_messages_schema. destruct messages; try (cbn; lia).
    apply concat_results_reports_more, check_message_reports_more. }
  split; [exact H|].
  intros Hs. rewrite Hs in H. unfold reports_more in H.
  destruct (_validate_messages_schema line_no sample_id messages false) as [l|];
    [|contradiction].
  destruct l; [reflexivity|cbn in H; lia].
Qed.

(* ===================================================================== *)
(** * The mode check *)
(* ===================================================================== *)

Lemma first_with_role_dicts (r : string) (k : nat) (msgs : list json) :
  Forall (fun m => is_dict m = true) msgs ->
  (existsb (has_role r) msgs = false
   /\ first_with_role r (enumerate k msgs) = Ok None)
  \/ (exists i m,
        msgs !! i = Some m /\ has_role r m = true
        /\ (forall j m', (j < i)%nat -> msgs !! j = Some m' -> has_role r m' = false)
        /\ first_with_role r (enumerate k msgs) = Ok (Some (k + i)%nat)).
Proof.
  intros Hd. revert k. induction Hd as [|m msgs Hm _ IH]; intros k.
  - left. split; reflexivity.
  - destruct m as [| | | | |d]; try discriminate Hm.
    cbn [enumerate first_with_role role_of mbind result_bind existsb has_role].
    destruct (eq_str (get "role" d) r) eqn:Er.
    + right. exists 0%nat, (JDict d). split; [reflexivity|]. split; [exact Er|].
      split; [intros j m' Hj; lia|]. rewrite Nat.add_0_r. reflexivity.
    + destruct (IH (S k)) as [[Hn Hf]|(i & m & Hi & Hr & Hmin & Hf)].
      * left. split; assumption.
      * right. exists (S i), m. split; [exact Hi|]. split; [exact Hr|]. split.
        -- intros [|j] m' Hj; cbn.
           ++ intros [= <-]. exact Er.
           ++ apply Hmin. lia.
        -- rewrite Hf. f_equal. f_equal. lia.
Qed.

(** X5: the mode check. Every mode whose lower case is not [infer], the empty
    one included, is [train]. On messages that are all objects, exactly one
    of the two modes reports: without an assistant turn, [train] reports the
    missing turn and [infer] nothing; with one, [train] reports nothing
    and [infer] reports the first assistant turn, by its index. *)
Theorem mode_checks_complementary
    (line_no : nat) (sample_id : string) (msgs : list json) :
  Forall (fun m => is_dict m = true) msgs ->
  (forall mode,
     _mode_specific_checks line_no sample_id msgs mode
     = _mode_specific_checks line_no sample_id msgs
         (if String.eqb (PyStr.lower mode) "infer" then "infer" else "train"))
  /\ ((existsb (has_role "assistant") msgs = false
       /\ _mode_specific_checks line_no sample_id msgs "train"
          = Ok [train_missing_assistant line_no sample_id]
       /\ _mode_specific_checks line_no sample_id msgs "infer" = Ok [])
      \/ (exists i m,
            msgs !! i = Some m /\ has_role "assistant" m = true
            /\ (forall j m', (j < i)%nat -> msgs !! j = Some m' ->
                             has_role "assistant" m' = false)
            /\ _mode_specific_checks line_no sample_id msgs "train" = Ok []
            /\ _mode_specific_checks line_no sample_id msgs "infer"
               = Ok [infer_has_assistant line_no sample_id i])).
Proof.
  intros Hd. split.
  - intros mode. unfold _mode_specific_checks.
    destruct mode as [|c mode]; [reflexivity|]. cbn [PyStr.is_empty].
    destruct (String.eqb (PyStr.lower (String c mode)) "infer"); reflexivity.
  - unfold _mode_specific_checks. cbn [PyStr.is_empty].
    change (PyStr.lower "train") with "train". change (PyStr.lower "infer") with "infer".
    destruct (first_with_role_dicts "assistant" 0 msgs Hd)
      as [[Hn Hf]|(i & m & Hi & Hr & Hmin & Hf)]; rewrite Hf; cbn [mbind result_bind].
    + left. split; [exact Hn|]. split; reflexivity.
    + right. exists i, m. split; [exact Hi|]. split; [exact Hr|]. split; [exact Hmin|].
      split; reflexivity.
Qed.

Lemma mode_checks_complementary_witness :
  _mode_specific_checks 1 "t1" question_and_answer "Infer"
  = _mode_specific_checks 1 "t1" question_and_answer "infer".
Proof.
  exact (proj1 (mode_checks_complementary 1 "t1" question_and_answer
                  ltac:(repeat constructor)) "Infer").
Defined.

(* ===================================================================== *)
(** * The system check, continued *)
(* ===================================================================== *)

(** X6: the system check outside C1. Under a profile that does not require a
    system message it returns no issue and never looks at the messages;
    under one that does, messages that are all objects and hold no system
    message yield the single [E002_SYSTEM_REQUIRED] error; and it never
    returns more than one issue. *)
Theorem system_required_when_absent
    (line_no : nat) (sample_id : string) (profile_obj : Profile) :
  (truthy (require_system profile_obj) = false ->
   forall messages,
     _system_presence_and_nonempty line_no sample_id messages profile_obj = Ok [])
  /\ (truthy (require_system profile_obj) = true ->
      forall messages,
        Forall (fun m => is_dict m = true) messages ->
        existsb (has_role "system") messages = false ->
        _system_presence_and_nonempty line_no sample_id messages profile_obj
        = Ok [system_required line_no sample_id])
  /\ (forall messages issues,
        _system_presence_and_nonempty line_no sample_id messages profile_obj = Ok issues ->
        (length issues <= 1)%nat).
Proof.
  split; [|split].
  - intros Hreq messages. unfold _system_presence_and_nonempty. rewrite Hreq. reflexivity.
  - intros Hreq messages Hd Hn. unfold _system_presence_and_nonempty. rewrite Hreq.
    cbn [negb]. rewrite (with_role_of_dicts "system" messages Hd). cbn [mbind result_bind].
    replace (filter (fun m => has_role "system" m = true) messages) with (@nil json);
      [reflexivity|].
    symmetry. apply existsb_false_Forall in Hn. clear Hd.
    induction Hn as [|m l Hm _ IH]; [reflexivity|].
    rewrite filter_cons, decide_False by congruence. exact IH.
  - intros messages issues. unfold _system_presence_and_nonempty.
    destruct (negb (truthy (require_system profile_obj))); [intros [= <-]; cbn [length]; lia|].
    destruct (with_role "system" messages) as [sys_msgs|]; [|discriminate].
    cbn [mbind result_bind]. destruct sys_msgs as [|sm rest]; [intros [= <-]; cbn [length]; lia|].
    intros [= <-]. rewrite first_blank_spec.
    repeat match goal with |- context [if ?b then _ else _] => destruct b end;
      cbn [length]; lia.
Qed.

(* ===================================================================== *)
(** * The lint pass *)
(* ===================================================================== *)

Ltac lint_errors :=
  repeat first
    [ apply Forall_nil_2
    | apply Forall_cons_2;
      [split; [reflexivity|split; [cbn; tauto|reflexivity]]|] ].

Lemma Forall_concat_map {A B} (P : B -> Prop) (f : A -> list B) (l : list A) :
  (forall a, Forall P (f a)) -> Forall P (concat (map f l)).
Proof.
  intros Hf. induction l as [|a l IH]; [constructor|].
  cbn [map concat]. apply Forall_app. split; [apply Hf|exact IH].
Qed.

Lemma concat_results_Forall {A B} (P : B -> Prop) (f : A -> result (list B))
    (l : list A) (out : list B) :
  Forall (fun a => forall p, f a = Ok p -> Forall P p) l ->
  concat_results f l = Ok out -> Forall P out.
Proof.
  intros Hf. revert out. induction Hf as [|a l Ha _ IH]; intros out.
  - intros [= <-]. constructor.
  - cbn [concat_results]. destruct (f a) as [here|]; [|discriminate].
    cbn [mbind result_bind]. destruct (concat_results f l) as [rest|]; [|discriminate].
    cbn [mbind result_bind]. intros [= <-]. apply Forall_app. split; auto.
Qed.

Lemma concat_results_raises {A B} (P : exn -> Prop) (f : A -> result (list B))
    (l : list A) (e : exn) :
  (forall a e, f a = Raise e -> P e) ->
  concat_results f l = Raise e -> P e.
Proof.
  intros Hf. induction l as [|a l IH]; [discriminate|].
  cbn [concat_results]. destruct (f a) as [here|e1] eqn:Ha; cbn [mbind result_bind].
  - destruct (concat_results f l) as [rest|e2]; cbn [mbind result_bind]; [discriminate|].
    intros [= <-]. apply IH. reflexivity.
  - intros [= <-]. exact (Hf a e1 Ha).
Qed.

Section LintRecord.
Context {builtins : PyBuiltins}.
Variables (line_no : nat) (sample_id : string).

Lemma check_item_errors (base : string) (e : nat * json) :
  Forall (lint_error line_no) (check_item line_no sample_id base e).
Proof.
  destruct e as [ci it]. unfold check_item.
  destruct it as [| | | | |d]; try solve [lint_errors].
  repeat match goal with |- context [if ?b then _ else _] => destruct b end; lint_errors.
Qed.

Lemma check_message_errors (strict_typed : bool) (e : nat * json) (l : list Issue) :
  check_message line_no sample_id strict_typed e = Ok l -> Forall (lint_error line_no) l.
Proof.
  destruct e as [mi m]. unfold check_message.
  destruct m as [| | | | |d]; try solve [intros [= <-]; lint_errors].
  destruct (negb (hashable (get "role" d))); [discriminate|].
  destruct (negb (Dict.mem "content" d)); intros [= <-]; apply Forall_app;
    (split; [match goal with |- Forall _ (if ?b then _ else _) => destruct b end;
             lint_errors|]); [lint_errors|].
  destruct strict_typed.
  - destruct (get "content" d); try solve [lint_errors].
    apply Forall_concat_map. intros e. apply check_item_errors.
  - match goal with |- Forall _ (if ?b then _ else _) => destruct b end; lint_errors.
Qed.

Lemma check_message_raises (strict_typed : bool) (e : nat * json) (ex : exn) :
  check_message line_no sample_id strict_typed e = Raise ex -> ex = TypeError.
Proof.
  destruct e as [mi m]. unfold check_message.
  destruct m as [| | | | |d]; try discriminate.
  destruct (negb (hashable (get "role" d))); [intros [= <-]; reflexivity|].
  destruct (negb (Dict.mem "content" d)); discriminate.
Qed.

Lemma schema_errors (messages : json) (strict_typed : bool) (l : list Issue) :
  _validate_messages_schema line_no sample_id messages strict_typed = Ok l ->
  Forall (lint_error line_no) l.
Proof.
  unfold _validate_messages_schema.
  destruct messages; try solve [intros [= <-]; lint_errors].
  apply concat_results_Forall. apply Forall_forall. intros e _ p.
  apply check_message_errors.
Qed.

Lemma schema_raises (messages : json) (strict_typed : bool) (ex : exn) :
  _validate_messages_schema line_no sample_id messages strict_typed = Raise ex ->
  ex = TypeError.
Proof.
  unfold _validate_messages_schema. destruct messages; try discriminate.
  apply (concat_results_raises (fun ex => ex = TypeError)).
  intros e. apply check_message_raises.
Qed.

Lemma with_role_raises (r : string) (messages : list json) (ex : exn) :
  with_role r messages = Raise ex -> ex = AttributeError.
Proof.
  induction messages as [|m rest IH]; [discriminate|].
  cbn [with_role]. destruct m; cbn [role_of mbind result_bind];
    try (intros [= <-]; reflexivity).
  destruct (with_role r rest); cbn [mbind result_bind]; [discriminate|].
  intros [= <-]. apply IH. reflexivity.
Qed.

Lemma first_with_role_raises (r : string) (entries : list (nat * json)) (ex : exn) :
  first_with_role r entries = Raise ex -> ex = AttributeError.
Proof.
  induction entries as [|[i m] rest IH]; [discriminate|].
  cbn [first_with_role]. destruct m; cbn [role_of mbind result_bind];
    try (intros [= <-]; reflexivity).
  destruct (eq_str _ r); [discriminate|exact IH].
Qed.

Lemma system_check_errors (messages : list json) (profile_obj : Profile) (l : list Issue) :
  _system_presence_and_nonempty line_no sample_id messages profile_obj = Ok l ->
  Forall (lint_error line_no) l.
Proof.
  unfold _system_presence_and_nonempty.
  destruct (negb (truthy (require_system profile_obj))); [intros [= <-]; constructor|].
  destruct (with_role "system" messages) as [sys_msgs|]; [|discriminate].
  cbn [mbind result_bind]. destruct sys_msgs as [|sm rest]; intros [= <-]; [lint_errors|].
  rewrite first_blank_spec.
  repeat match goal with |- context [if ?b then _ else _] => destruct b end; lint_errors.
Qed.

Lemma system_check_raises (messages : list json) (profile_obj : Profile) (ex : exn) :
  _system_presence_and_nonempty line_no sample_id messages profile_obj = Raise ex ->
  ex = AttributeError.
Proof.
  unfold _system_presence_and_nonempty.
  destruct (negb (truthy (require_system profile_obj))); [discriminate|].
  destruct (with_role "system" messages) as [sys_msgs|ex1] eqn:E; cbn [mbind result_bind].
  - destruct sys_msgs; discriminate.
  - intros [= <-]. exact (with_role_raises _ _ _ E).
Qed.

Lemma mode_check_errors (messages : list json) (mode : string) (l : list Issue) :
  _mode_specific_checks line_no sample_id messages mode = Ok l ->
  Forall (lint_error line_no) l.
Proof.
  unfold _mode_specific_checks.
  destruct (first_with_role "assistant" (enumerate 0 messages)) as [found|]; [|discriminate].
  cbn [mbind result_bind].
  destruct (String.eqb _ "infer"); destruct found; intros [= <-]; lint_errors.
Qed.

Lemma mode_check_raises (messages : list json) (mode : string) (ex : exn) :
  _mode_specific_checks line_no sample_id messages mode = Raise ex ->
  ex = AttributeError.
Proof.
  unfold _mode_specific_checks.
  destruct (first_with_role "assistant" (enumerate 0 messages)) as [found|ex1] eqn:E;
    cbn [mbind result_bind].
  - destruct (String.eqb _ "infer"); destruct found; discriminate.
  - intros [= <-]. exact (first_with_role_raises _ _ _ E).
Qed.

End LintRecord.

Section LintPass.
Context {builtins : PyBuiltins} {json_codec : JsonCodec}.
Variables (mode : string) (profile_obj : Profile) (strict_typed : bool).

Lemma lint_record_outcome (line_no : nat) (obj : list (string * json)) :
  match lint_record mode profile_obj strict_typed line_no obj with
  | Ok issues => Forall (lint_error line_no) issues
  | Raise e => lint_exception e
  end.
Proof.
  unfold lint_record.
  destruct (_validate_messages_schema line_no (sample_id_of line_no obj)
              (get "messages" obj) strict_typed) as [sch|ex] eqn:Es;
    cbn [mbind result_bind]; [|right; exact (schema_raises _ _ _ _ _ Es)].
  pose proof (schema_errors _ _ _ _ _ Es) as Hsch.
  destruct (get "messages" obj) as [| | | |msgs|] eqn:Em;
    try (cbn in Es; injection Es as <-; exact Hsch).
  rewrite andb_false_r.
  destruct (_system_presence_and_nonempty line_no (sample_id_of line_no obj) msgs
              profile_obj) as [sp|ex] eqn:Ep;
    cbn [mbind result_bind]; [|left; exact (system_check_raises _ _ _ _ _ Ep)].
  destruct (_mode_specific_checks line_no (sample_id_of line_no obj) msgs mode)
    as [ms|ex] eqn:Emode;
    cbn [mbind result_bind]; [|left; exact (mode_check_raises _ _ _ _ _ Emode)].
  repeat (apply Forall_app; split); [exact Hsch| |].
  - exact (system_check_errors _ _ _ _ _ Ep).
  - exact (mode_check_errors _ _ _ _ _ Emode).
Qed.

Lemma lint_line_outcome (line_no : nat) (line : string) :
  match lint_line mode profile_obj strict_typed (line_no, line) with
  | Ok issues => Forall (lint_error line_no) issues
  | Raise e => lint_exception e
  end.
Proof.
  unfold lint_line. destruct (PyStr.is_empty (PyStr.strip line)); [constructor|].
  destruct (loads (PyStr.strip line)) as [v|text]; [|lint_errors].
  destruct v; try (left; reflexivity). apply lint_record_outcome.
Qed.

Lemma lint_lines_outcome (start : nat) (lines : list string) :
  match concat_results (lint_line mode profile_obj strict_typed) (enumerate start lines) with
  | Ok issues =>
      Forall (fun i => lint_error (line i) i
                       /\ (start <= line i < start + length lines)%nat) issues
      /\ StronglySorted le (map line issues)
  | Raise e => lint_exception e
  end.
Proof.
  revert start. induction lines as [|l lines IH]; intros start.
  - cbn. split; constructor.
  - cbn [enumerate concat_results].
    pose proof (lint_line_outcome start l) as Hl.
    destruct (lint_line mode profile_obj strict_typed (start, l)) as [here|e];
      cbn [mbind result_bind]; [|exact Hl].
    specialize (IH (S start)).
    destruct (concat_results _ (enumerate (S start) lines)) as [rest|e];
      cbn [mbind result_bind]; [|exact IH].
    destruct IH as [Hrest Hsorted]. split.
    + apply Forall_app. split.
      * eapply Forall_impl; [exact Hl|]. intros i (Hlev & Hcode & Hline).
        split; [repeat split; assumption|]. cbn [length]. lia.
      * eapply Forall_impl; [exact Hrest|]. intros i [Hi Hr]. split; [exact Hi|].
        cbn [length]. lia.
    + rewrite map_app.
      assert (Forall (fun n => n = start) (map line here)) as Hhere.
      { apply Forall_map. eapply Forall_impl; [exact Hl|]. intros i (_ & _ & Hi). exact Hi. }
      assert (Forall (fun n => (S start <= n)%nat) (map line rest)) as Hlater.
      { apply Forall_map. eapply Forall_impl; [exact Hrest|]. intros i [_ Hr]. lia. }
      clear Hl Hrest. induction Hhere as [|n ns Hn Hns IHh]; [exact Hsorted|].
      cbn [app]. constructor; [exact IHh|]. apply Forall_app. split.
      * eapply Forall_impl; [exact Hns|]. intros k Hk. cbn in Hk. lia.
      * eapply Forall_impl; [exact Hlater|]. intros k Hk. cbn in Hk. lia.
Qed.

End LintPass.

(** X7: what a lint pass can do. It returns, or it raises [AttributeError] (a
    line or a message that is not an object) or [TypeError] (a role that is
    a list or an object); its assertion never fails. The issues it returns
    are errors with one of the eight codes of the linter, each on a line of
    the file, in the order of the lines. *)
Theorem lint_jsonl_outcome {builtins : PyBuiltins} {json_codec : JsonCodec}
    (mode : string) (profile_obj : Profile) (strict_typed : bool) (text : string) :
  match lint_jsonl mode profile_obj strict_typed text with
  | Ok issues =>
      Forall (lint_issue (length (file_lines text))) issues
      /\ StronglySorted le (map line issues)
  | Raise e => e = AttributeError \/ e = TypeError
  end.
Proof.
  unfold lint_jsonl.
  pose proof (lint_lines_outcome mode profile_obj strict_typed 1 (file_lines text)) as H.
  destruct (concat_results _ _) as [issues|e]; [|exact H].
  destruct H as [Hall Hsorted]. split; [|exact Hsorted].
  eapply Forall_impl; [exact Hall|]. intros i [(Hlev & Hcode & _) Hr].
  repeat split; [exact Hlev|exact Hcode|lia|lia].
Qed.

Lemma should_fail_errors (issues : list Issue) (fail_on : string) :
  Forall (fun i => level i = "ERROR") issues ->
  should_fail issues fail_on = negb (bool_decide (issues = [])).
Proof.
  intros Hall. destruct Hall as [|i l Hi _]; [reflexivity|].
  rewrite bool_decide_eq_false_2 by discriminate.
  unfold should_fail. cbn [existsb negb]. rewrite Hi.
  change (level_rank "ERROR") with 2%nat.
  rewrite (proj2 (Nat.leb_le _ 2) (level_rank_le_2 _)). reflexivity.
Qed.

(** X8: the exit decision of [check]: every issue of a lint pass is an error,
    so the issues it returns fail at every threshold as soon as there is
    one, and at none when there is none. *)
Theorem lint_failure_ignores_threshold {builtins : PyBuiltins} {json_codec : JsonCodec}
    (mode : string) (profile_obj : Profile) (strict_typed : bool) (text : string)
    (issues : list Issue) (fail_on : string) :
  lint_jsonl mode profile_obj strict_typed text = Ok issues ->
  should_fail issues fail_on = negb (bool_decide (issues = [])).
Proof.
  intros Hrun. apply should_fail_errors.
  pose proof (lint_lines_outcome mode profile_obj strict_typed 1 (file_lines text)) as H.
  unfold lint_jsonl in Hrun. rewrite Hrun in H. destruct H as [Hall _].
  eapply Forall_impl; [exact Hall|]. intros i [(Hlev & _) _]. exact Hlev.
Qed.

Lemma lint_failure_ignores_threshold_witness :
  should_fail [invalid_role_usr] "info" = true.
Proof.
  exact (lint_failure_ignores_threshold
           (builtins := RefBuiltins.builtins) (json_codec := RefJson.codec)
           "train" lenient false usr_record [invalid_role_usr] "info" eq_refl).
Defined.

Section Readable.
Context {builtins : PyBuiltins}.
Variables (line_no : nat) (sample_id : string).

Lemma schema_returns (strict_typed : bool) (msgs : list json) :
  Forall (fun m => readable_message m = true) msgs ->
  exists sch, _validate_messages_schema line_no sample_id (JList msgs) strict_typed = Ok sch.
Proof.
  intros Hr. cbn [_validate_messages_schema]. generalize 0%nat.
  induction Hr as [|m msgs Hm _ IH]; intros k; [exists []; reflexivity|].
  cbn [enumerate concat_results]. destruct (IH (S k)) as [rest ->].
  destruct m as [| | | | |d]; try discriminate Hm. cbn [readable_message] in Hm.
  unfold check_message. rewrite Hm. cbn [negb].
  destruct (negb (Dict.mem "content" d)); cbn [mbind result_bind]; eexists; reflexivity.
Qed.

Lemma readable_is_dict (msgs : list json) :
  Forall (fun m => readable_message m = true) msgs ->
  Forall (fun m => is_dict m = true) msgs.
Proof.
  intros H. eapply Forall_impl; [exact H|].
  intros m. destruct m; (discriminate || reflexivity).
Qed.

End Readable.

(** X9: the linter needs messages that are objects. When every message of the
    record is an object whose role is hashable, the checks of the record
    return; when the first message is not an object, they raise, whatever
    the profile and the mode, and the schema issue for that message is
    never delivered. *)
Theorem lint_record_needs_objects {builtins : PyBuiltins}
    (mode : string) (profile_obj : Profile) (strict_typed : bool)
    (line_no : nat) (obj : list (string * json)) (msgs : list json) :
  get "messages" obj = JList msgs ->
  (Forall (fun m => readable_message m = true) msgs ->
   exists issues, lint_record mode profile_obj strict_typed line_no obj = Ok issues)
  /\ (forall m rest, msgs = m :: rest -> is_dict m = false ->
      exists e, lint_record mode profile_obj strict_typed line_no obj = Raise e).
Proof.
  intros Hm. unfold lint_record. rewrite Hm. cbn [is_list negb]. split.
  - intros Hr. destruct (schema_returns line_no (sample_id_of line_no obj) strict_typed
                           msgs Hr) as [sch ->].
    cbn [mbind result_bind]. rewrite andb_false_r.
    pose proof (readable_is_dict msgs Hr) as Hd.
    unfold _system_presence_and_nonempty, _mode_specific_checks.
    rewrite (with_role_of_dicts "system" msgs Hd).
    destruct (first_with_role_dicts "assistant" 0 msgs Hd)
      as [[_ ->]|(i & m & _ & _ & _ & ->)]; cbn [mbind result_bind];
      repeat match goal with |- context [if ?b then _ else _] => destruct b end;
      cbn [mbind result_bind];
      repeat match goal with |- context [match ?l with [] => _ | _ :: _ => _ end] =>
               destruct l end;
      cbn [mbind result_bind]; eexists; reflexivity.
  - intros m rest -> Hnd.
    destruct (_validate_messages_schema _ _ _ _) as [sch|e]; cbn [mbind result_bind];
      [|eexists; reflexivity].
    rewrite andb_false_r.
    destruct (_system_presence_and_nonempty _ _ _ _) as [sp|e]; cbn [mbind result_bind];
      [|eexists; reflexivity].
    unfold _mode_specific_checks. cbn [enumerate first_with_role].
    destruct m; try discriminate Hnd; cbn [role_of mbind result_bind]; eexists; reflexivity.
Qed.

Lemma lint_record_needs_objects_witness :
  exists e,
    lint_record (builtins := RefBuiltins.builtins) "train" generic false 1
      [("messages", JList [JStr "hi"])] = Raise e.
Proof.
  exact (proj2 (lint_record_needs_objects (builtins := RefBuiltins.builtins)
                  "train" generic false 1 [("messages", JList [JStr "hi"])] [JStr "hi"]
                  eq_refl)
           (JStr "hi") [] eq_refl eq_refl).
Defined.

(** X10: a line that decodes to a value that is not an object makes each of the
    three passes raise [AttributeError]: none reports an issue for it. *)
Theorem non_object_line_raises {builtins : PyBuiltins} {json_codec : JsonCodec}
    (line_no : nat) (line : string) (v : json) :
  loads (PyStr.strip line) = Parsed v ->
  loads (PyStr.rstrip_lf line) = Parsed v ->
  PyStr.is_empty (PyStr.strip line) = false ->
  PyStr.is_empty (PyStr.strip (PyStr.rstrip_lf line)) = false ->
  is_dict v = false ->
  (forall mode profile_obj strict_typed,
     lint_line mode profile_obj strict_typed (line_no, line) = Raise AttributeError)
  /\ (forall strict_typed, fix_line strict_typed (line_no, line) = Raise AttributeError)
  /\ (forall profile_obj render_fn strict_typed,
        verify_line profile_obj render_fn strict_typed (line_no, line)
        = Raise AttributeError).
Proof.
  intros Hs Hr Hne Hne' Hv. unfold lint_line, fix_line, verify_line.
  rewrite Hs, Hr, Hne, Hne'. destruct v; try discriminate Hv; repeat split.
Qed.

Lemma non_object_line_raises_witness :
  fix_line (builtins := RefBuiltins.builtins) (json_codec := RefJson.codec) false
    (2%nat, "[1, 2]" +:+ LF)
  = Raise AttributeError.
Proof.
  exact (proj1 (proj2 (non_object_line_raises
                         (builtins := RefBuiltins.builtins) (json_codec := RefJson.codec)
                         2 ("[1, 2]" +:+ LF) (JList [JInt 1; JInt 2])
                         eq_refl eq_refl eq_refl eq_refl eq_refl))
           false).
Defined.

(* ===================================================================== *)
(** * What the safe-fix transform keeps *)
(* ===================================================================== *)

Lemma keys_set_present {V} (k : string) (v v0 : V) (d : list (string * V)) :
  Dict.lookup k d = Some v0 -> Dict.keys (Dict.set k v d) = Dict.keys d.
Proof.
  intros Hk. unfold Dict.keys. rewrite keys_set. unfold Dict.mem. rewrite Hk. reflexivity.
Qed.

Lemma get_lookup (k : string) (d : list (string * json)) (v : json) :
  get k d = v -> v <> JNull -> Dict.lookup k d = Some v.
Proof.
  unfold get. destruct (Dict.lookup k d); [intros ->; reflexivity|].
  intros <- H. contradiction.
Qed.

Lemma fix_all_map (f : json -> json * list Issue) (l : list json) :
  (fix_all f l).1 = map (fun x => (f x).1) l.
Proof.
  induction l as [|x l IH]; [reflexivity|].
  cbn [fix_all map]. destruct (f x) as [x' i1], (fix_all f l) as [l' i2].
  cbn [fst] in *. rewrite IH. reflexivity.
Qed.

Section Kept.
Context {builtins : PyBuiltins}.
Variables (strict_typed : bool) (line_no : nat) (sample_id : string).

Lemma fix_item_kept (it : json) : item_kept it (fix_item line_no sample_id it).1.
Proof.
  unfold fix_item. destruct it as [| | | | |d]; try (left; reflexivity).
  destruct (needs_type (JDict d)) eqn:E; [|left; reflexivity].
  right. exists d. cbn [needs_type] in E. apply andb_true_iff in E as [Ht _].
  unfold Dict.mem in Ht. destruct (Dict.lookup "type" d) eqn:El; [discriminate|].
  split; [reflexivity|]. split; [reflexivity|]. cbn [fst].
  rewrite set_fresh by (apply lookup_None, El). reflexivity.
Qed.

Lemma fix_message_kept (m : json) :
  message_kept m (fix_message strict_typed line_no sample_id m).1.
Proof.
  unfold fix_message, message_kept. destruct m as [| | | | |d]; try reflexivity.
  set (d1 := (if needs_role (JDict d)
              then (Dict.set "role" (JStr "user") d, [fix_role_issue line_no sample_id])
              else (d, [])).1).
  assert (Dict.keys d1 = Dict.keys d
          /\ get "role" d1 = repaired_role (get "role" d)
          /\ (forall k, k <> "role" -> Dict.lookup k d1 = Dict.lookup k d)) as (Hk & Hr & Ho).
  { subst d1. unfold repaired_role. cbn [needs_role].
    destruct (eq_str (get "role" d) "usr") eqn:E; cbn [fst].
    - split; [|split].
      + destruct (get "role" d) eqn:Eg; try discriminate E.
        apply (keys_set_present _ _ (JStr s)), get_lookup; [exact Eg|discriminate].
      + apply get_set_eq.
      + intros k Hne. apply lookup_set_ne, Hne.
    - repeat split. }
  assert (get "content" d1 = get "content" d) as Hc.
  { unfold get. rewrite Ho by discriminate. reflexivity. }
  replace (if needs_role (JDict d)
           then (Dict.set "role" (JStr "user") d, [fix_role_issue line_no sample_id])
           else (d, []))
    with (d1, (if needs_role (JDict d)
               then (Dict.set "role" (JStr "user") d, [fix_role_issue line_no sample_id])
               else (d, [])).2)
    by (subst d1; destruct (needs_role (JDict d)); reflexivity).
  generalize ((if needs_role (JDict d)
               then (Dict.set "role" (JStr "user") d, [fix_role_issue line_no sample_id])
               else (d, [])).2). intros i1. cbv beta iota zeta. clearbody d1.
  assert (exists d', JDict d1 = JDict d' /\ Dict.keys d' = Dict.keys d
                     /\ get "role" d' = repaired_role (get "role" d)
                     /\ content_kept (get "content" d) (get "content" d')
                     /\ (forall k, k <> "role" -> k <> "content" ->
                                   Dict.lookup k d' = Dict.lookup k d)) as Hplain.
  { exists d1. split; [reflexivity|]. split; [exact Hk|]. split; [exact Hr|].
    split; [left; exact Hc|]. intros k Hn _. apply Ho, Hn. }
  destruct strict_typed; [|exact Hplain].
  destruct (get "content" d1) as [| | | |items|] eqn:Ec; try exact Hplain.
  pose proof (fix_all_map (fix_item line_no sample_id) items) as Hmap.
  destruct (fix_all (fix_item line_no sample_id) items) as [items' i2]. cbn [fst] in *.
  exists (Dict.set "content" (JList items') d1). split; [reflexivity|]. split; [|split; [|split]].
  - rewrite <- Hk. apply (keys_set_present _ _ (JList items)), get_lookup;
      [exact Ec|discriminate].
  - rewrite get_set_ne by discriminate. exact Hr.
  - right. exists items, items'. rewrite <- Hc, get_set_eq.
    split; [reflexivity|]. split; [reflexivity|]. subst items'.
    clear. induction items as [|it items IH]; constructor; [apply fix_item_kept|exact IH].
  - intros k Hn1 Hn2. rewrite lookup_set_ne by exact Hn2. apply Ho, Hn1.
Qed.

End Kept.

Lemma fix_record_kept {builtins : PyBuiltins}
    (strict_typed : bool) (line_no : nat) (sample_id : string)
    (obj : list (string * json)) :
  let obj' := (fix_record strict_typed line_no sample_id obj).1 in
  Dict.keys obj' = Dict.keys obj
  /\ (forall k, k <> "messages" -> Dict.lookup k obj' = Dict.lookup k obj)
  /\ (get "messages" obj' = get "messages" obj
      \/ exists msgs msgs',
           get "messages" obj = JList msgs /\ get "messages" obj' = JList msgs'
           /\ Forall2 message_kept msgs msgs').
Proof.
  unfold fix_record.
  destruct (get "messages" obj) as [| | | |msgs|] eqn:Em;
    try (cbn [fst]; rewrite Em; split; [reflexivity|split; [reflexivity|left; reflexivity]]).
  pose proof (fix_all_map (fix_message strict_typed line_no sample_id) msgs) as Hmap.
  destruct (fix_all (fix_message strict_typed line_no sample_id) msgs) as [msgs' iss].
  cbn [fst] in *. split; [|split].
  - apply (keys_set_present _ _ (JList msgs)), get_lookup; [exact Em|discriminate].
  - intros k Hne. apply lookup_set_ne, Hne.
  - right. exists msgs, msgs'. rewrite get_set_eq. split; [reflexivity|].
    split; [reflexivity|]. subst msgs'.
    clear. induction msgs as [|m msgs IH]; constructor; [apply fix_message_kept|exact IH].
Qed.

(** X11: the transform invents nothing. The repaired record has the keys of the
    record, in order, and its fields but for [messages]; a [messages] list
    keeps its length; a message that is an object keeps its keys in order
    and its fields but for a role [usr], which becomes [user], and a
    content list, whose items are kept or gain the key [type] at the end;
    every other value is left alone. *)
Theorem fix_keeps_the_record {builtins : PyBuiltins}
    (strict_typed : bool) (line_no : nat) (sample_id : string)
    (obj : list (string * json)) :
  let obj' := (fix_record strict_typed line_no sample_id obj).1 in
  Dict.keys obj' = Dict.keys obj
  /\ (forall k, k <> "messages" -> Dict.lookup k obj' = Dict.lookup k obj)
  /\ (get "messages" obj' = get "messages" obj
      \/ exists msgs msgs',
           get "messages" obj = JList msgs /\ get "messages" obj' = JList msgs'
           /\ Forall2 message_kept msgs msgs').
Proof. exact (fix_record_kept strict_typed line_no sample_id obj). Qed.

(* ===================================================================== *)
(** * What the safe-fix transform logs *)
(* ===================================================================== *)

Lemma fix_all_logs (f : json -> json * list Issue) (l : list json) :
  (fix_all f l).2 = [] <-> Forall (fun x => (f x).2 = []) l.
Proof.
  induction l as [|x l IH]; cbn [fix_all].
  - split; [constructor|reflexivity].
  - rewrite Forall_cons, <- IH.
    destruct (f x) as [x' i1], (fix_all f l) as [l' i2]. cbn [snd].
    split; [apply app_eq_nil|intros [-> ->]; reflexivity].
Qed.

Section Logs.
Context {builtins : PyBuiltins}.
Variables (strict_typed : bool) (line_no : nat) (sample_id : string).

Lemma fix_item_logs (it : json) :
  (fix_item line_no sample_id it).2 = [] <-> needs_type it = false.
Proof.
  unfold fix_item. destruct it as [| | | | |d]; try (split; reflexivity).
  destruct (needs_type (JDict d)); split; (reflexivity || discriminate).
Qed.

Lemma fix_message_logs (m : json) :
  (fix_message strict_typed line_no sample_id m).2 = []
  <-> needs_role m || (strict_typed && untyped_text_block m) = false.
Proof.
  split.
  - intros Hlog. destruct (needs_role m || (strict_typed && untyped_text_block m)) eqn:E;
      [exfalso|reflexivity].
    revert Hlog. unfold fix_message.
    destruct m as [| | | | |d];
      try (cbn [needs_role untyped_text_block orb] in E; rewrite andb_false_r in E;
           discriminate E).
    destruct (needs_role (JDict d)) eqn:Er.
    + destruct strict_typed; [|discriminate].
      destruct (get "content" _); try discriminate.
      destruct (fix_all _ _); discriminate.
    + cbn [orb] in E. apply andb_true_iff in E as [-> Hb]. cbn [untyped_text_block] in Hb.
      destruct (get "content" d) as [| | | |items|] eqn:Ec; try discriminate Hb.
      pose proof (fix_all_logs (fix_item line_no sample_id) items) as Hl.
      destruct (fix_all (fix_item line_no sample_id) items) as [items' i2]. cbn [snd app].
      intros Hi2. apply Hl in Hi2. apply existsb_exists in Hb as (it & Hin & Hit).
      apply list_elem_of_In in Hin. rewrite Forall_forall in Hi2.
      apply Hi2, fix_item_logs in Hin. congruence.
  - intros H. apply orb_false_iff in H as [Hr Hb].
    rewrite fix_message_unchanged by assumption. reflexivity.
Qed.

Lemma fix_record_logs (obj : list (string * json)) :
  (fix_record strict_typed line_no sample_id obj).2 = [] <-> touched strict_typed obj = false.
Proof.
  unfold fix_record, touched.
  destruct (get "messages" obj) as [| | | |msgs|]; try (split; reflexivity).
  pose proof (fix_all_logs (fix_message strict_typed line_no sample_id) msgs) as Hl.
  destruct (fix_all (fix_message strict_typed line_no sample_id) msgs) as [msgs' iss].
  cbn [snd] in *. rewrite Hl, existsb_false_Forall. apply Forall_iff. intros m.
  apply fix_message_logs.
Qed.

End Logs.

(** X12: the transform logs what it changes: it returns no issue for a record
    exactly when it returns the record unchanged, and exactly when neither
    rule applies to it. *)
Theorem fix_logs_what_it_changes {builtins : PyBuiltins}
    (strict_typed : bool) (line_no : nat) (sample_id : string)
    (obj : list (string * json)) :
  ((fix_record strict_typed line_no sample_id obj).2 = []
   <-> (fix_record strict_typed line_no sample_id obj).1 = obj)
  /\ ((fix_record strict_typed line_no sample_id obj).2 = []
      <-> touched strict_typed obj = false).
Proof.
  split; [|apply fix_record_logs]. rewrite fix_record_logs. split.
  - intros Ht. rewrite fix_record_unchanged by exact Ht. reflexivity.
  - intros Heq. rewrite <- Heq at 1. apply fix_record_settled.
Qed.

Lemma fix_all_issues (P : Issue -> Prop) (f : json -> json * list Issue) (l : list json) :
  (forall x, Forall P (f x).2) -> Forall P (fix_all f l).2.
Proof.
  intros Hf. induction l as [|x l IH]; [constructor|].
  cbn [fix_all]. specialize (Hf x).
  destruct (f x) as [x' i1], (fix_all f l) as [l' i2]. cbn [snd] in *.
  apply Forall_app. split; assumption.
Qed.

(** A note of the transform on line [n]. *)
Local Abbreviation note_of strict_typed n :=
  (fun i : Issue =>
     line i = n
     /\ ((level i = "INFO" /\ code i = "I901_FIX_ROLE_USR")
         \/ (level i = "INFO" /\ code i = "I902_FIX_ADD_TYPE_TEXT" /\ strict_typed = true)
         \/ (level i = "ERROR" /\ code i = "E004_BAD_JSON"))).

Ltac fix_notes :=
  repeat first
    [ apply Forall_nil_2
    | apply Forall_cons_2;
      [split; [reflexivity|];
       first [ left; repeat split; reflexivity
             | right; left; repeat split; reflexivity
             | right; right; repeat split; reflexivity ]|] ].

Section Notes.
Context {builtins : PyBuiltins} {json_codec : JsonCodec}.
Variables (strict_typed : bool).

Lemma fix_message_notes (n : nat) (sid : string) (m : json) :
  Forall (note_of strict_typed n) (fix_message strict_typed n sid m).2.
Proof.
  unfold fix_message. destruct m as [| | | | |d]; try constructor.
  assert (Forall (note_of strict_typed n)
            (if needs_role (JDict d)
             then (Dict.set "role" (JStr "user") d, [fix_role_issue n sid])
             else (d, [])).2) as Hrole.
  { destruct (needs_role (JDict d)); fix_notes. }
  destruct (if needs_role (JDict d)
            then (Dict.set "role" (JStr "user") d, [fix_role_issue n sid])
            else (d, [])) as [d1 i1].
  cbn [snd] in Hrole. destruct strict_typed eqn:Es; [|exact Hrole].
  destruct (get "content" d1) as [| | | |items|]; try exact Hrole.
  pose proof (fix_all_issues (note_of true n) (fix_item n sid) items) as Hitems.
  destruct (fix_all (fix_item n sid) items) as [items' i2]. cbn [snd] in *.
  apply Forall_app. split; [exact Hrole|]. apply Hitems. intros it.
  unfold fix_item. destruct it as [| | | | |dit]; try constructor.
  destruct (needs_type (JDict dit)); fix_notes.
Qed.

Lemma fix_line_notes (n : nat) (l out : string) (iss : list Issue) :
  fix_line strict_typed (n, l) = Ok (out, iss) -> Forall (note_of strict_typed n) iss.
Proof.
  unfold fix_line. destruct (PyStr.is_empty _); [intros [= <- <-]; constructor|].
  destruct (loads _) as [v|text].
  2:{ intros [= <- <-]. fix_notes. }
  destruct v as [| | | | |obj]; try discriminate.
  unfold fix_record. destruct (get "messages" obj) as [| | | |msgs|];
    try (intros [= <- <-]; constructor).
  pose proof (fix_all_issues (note_of strict_typed n)
                (fix_message strict_typed n (sample_id_of n obj)) msgs
                (fix_message_notes n (sample_id_of n obj))) as H.
  destruct (fix_all _ msgs) as [msgs' i]. intros [= <- <-]. exact H.
Qed.

Lemma fix_lines_notes (start : nat) (lines : list string) (iss : list Issue) :
  (fix_lines strict_typed (enumerate start lines)).2 = Ok iss ->
  Forall (fun i => note_of strict_typed (line i) i
                   /\ (start <= line i < start + length lines)%nat) iss.
Proof.
  revert start iss. induction lines as [|l lines IH]; intros start iss.
  - intros [= <-]. constructor.
  - cbn [enumerate fix_lines].
    destruct (fix_line strict_typed (start, l)) as [[out1 iss1]|] eqn:El; [|discriminate].
    specialize (IH (S start)).
    destruct (fix_lines strict_typed (enumerate (S start) lines)) as [out2 later].
    cbn [snd] in *. destruct later as [iss2|]; [|discriminate].
    cbn [mbind result_bind]. intros [= <-]. apply Forall_app. split.
    + eapply Forall_impl; [exact (fix_line_notes _ _ _ _ El)|].
      intros i [Hl Hc]. split; [split; [reflexivity|exact Hc]|]. cbn [length]. lia.
    + eapply Forall_impl; [exact (IH iss2 eq_refl)|].
      intros i [Hn Hr]. split; [exact Hn|]. cbn [length]. lia.
Qed.

End Notes.

(** X13: what the transform reports. Every issue it returns is on a line of the
    input file and is the note of a repaired role, the note of an added
    type, or the error of a line that does not decode; without strict mode
    it never adds a type. *)
Theorem fix_jsonl_reports {builtins : PyBuiltins} {json_codec : JsonCodec}
    (strict_typed : bool) (text : string) (issues : list Issue) :
  (fix_jsonl strict_typed text).2 = Ok issues ->
  Forall (fix_issue strict_typed (length (file_lines text))) issues.
Proof.
  intros Hrun. unfold fix_jsonl in Hrun.
  eapply Forall_impl; [exact (fix_lines_notes strict_typed 1 _ _ Hrun)|].
  intros i [[_ Hc] Hr]. split; [lia|exact Hc].
Qed.

Lemma fix_jsonl_reports_witness :
  Forall (fix_issue true 4)
    [fix_role_issue 1 "x"; fix_type_issue 1 "x"; bad_json 3 "Expecting value"].
Proof.
  exact (fix_jsonl_reports (builtins := RefBuiltins.builtins) (json_codec := RefJson.codec)
           true typo_file
           [fix_role_issue 1 "x"; fix_type_issue 1 "x"; bad_json 3 "Expecting value"]
           eq_refl).
Defined.

(* ===================================================================== *)
(** * Linting what the transform wrote *)
(* ===================================================================== *)

Lemma reports_more_refl (r : result (list Issue)) : reports_more r r.
Proof. destruct r; cbn; [lia|reflexivity]. Qed.

Lemma reports_more_trans (r1 r2 r3 : result (list Issue)) :
  reports_more r1 r2 -> reports_more r2 r3 -> reports_more r1 r3.
Proof.
  unfold reports_more. destruct r1, r2, r3; try contradiction; try lia. congruence.
Qed.

Lemma mem_keys {V} (k : string) (d d' : list (string * V)) :
  Dict.keys d' = Dict.keys d -> Dict.mem k d' = Dict.mem k d.
Proof.
  unfold Dict.keys, Dict.mem. intros Hk.
  destruct (Dict.lookup k d') eqn:E1, (Dict.lookup k d) eqn:E2; try reflexivity.
  - apply lookup_None in E2. rewrite <- Hk in E2. apply lookup_None in E2. congruence.
  - apply lookup_None in E1. rewrite Hk in E1. apply lookup_None in E1. congruence.
Qed.

Lemma lookup_app_fresh {V} (k k0 : string) (v : V) (d : list (string * V)) :
  Dict.lookup k0 (d ++ [(k, v)])
  = match Dict.lookup k0 d with
    | Some x => Some x
    | None => if String.eqb k0 k then Some v else None
    end.
Proof.
  induction d as [|[k' v'] d IH]; cbn; [reflexivity|].
  destruct (String.eqb k0 k'); [reflexivity|exact IH].
Qed.

Section LintAfterFix.
Context {builtins : PyBuiltins}.
Variables (line_no : nat) (sample_id : string) (strict_typed : bool).

Lemma check_item_kept (base : string) (ci : nat) (it it' : json) :
  item_kept it it' ->
  (length (check_item line_no sample_id base (ci, it'))
   <= length (check_item line_no sample_id base (ci, it)))%nat.
Proof.
  intros [->|(d & -> & Ht & ->)]; [lia|].
  unfold check_item, get. rewrite Ht, !lookup_app_fresh, Ht. cbn [truthy negb length].
  destruct (Dict.lookup "text" d) as [t|]; [|cbn; lia].
  destruct (String.eqb "type" "type"); cbn [truthy PyStr.is_empty negb eq_str];
    destruct (is_str t); cbn; lia.
Qed.

Lemma check_items_kept (base : string) (k : nat) (items items' : list json) :
  Forall2 item_kept items items' ->
  (length (concat (map (check_item line_no sample_id base) (enumerate k items')))
   <= length (concat (map (check_item line_no sample_id base) (enumerate k items))))%nat.
Proof.
  intros H. revert k. induction H as [|it it' items items' Hit _ IH]; intros k; [cbn; lia|].
  cbn [enumerate map concat]. rewrite !length_app.
  pose proof (check_item_kept base k it it' Hit). specialize (IH (S k)). lia.
Qed.

Lemma check_message_kept (mi : nat) (m m' : json) :
  message_kept m m' ->
  reports_more (check_message line_no sample_id strict_typed (mi, m))
    (check_message line_no sample_id strict_typed (mi, m')).
Proof.
  unfold message_kept. destruct m as [| | | | |d]; try (intros ->; apply reports_more_refl).
  intros (d' & -> & Hk & Hr & Hc & _). unfold check_message.
  rewrite (mem_keys "content" d d' Hk), Hr. unfold repaired_role.
  destruct (eq_str (get "role" d) "usr") eqn:Eu.
  - destruct (get "role" d) as [| | |r| |] eqn:Er; try discriminate Eu.
    cbn in Eu. apply String.eqb_eq in Eu as ->.
    cbn [hashable negb existsb eq_str _ALLOWED_ROLES].
    change (String.eqb "usr" "system") with false.
    change (String.eqb "usr" "user") with false.
    change (String.eqb "usr" "assistant") with false.
    change (String.eqb "usr" "tool") with false.
    change (String.eqb "user" "system") with false.
    change (String.eqb "user" "user") with true.
    cbn [orb]. destruct (negb (Dict.mem "content" d)); cbn [reports_more];
      rewrite ?length_app; cbn [length]; [lia|].
    destruct Hc as [->|(items & items' & -> & -> & Hitems)]; [lia|].
    destruct strict_typed; [|cbn; lia].
    pose proof (check_items_kept ("messages[" +:+ PyStr.of_nat mi +:+ "]") 0
                  items items' Hitems). lia.
  - destruct (negb (hashable (get "role" d))); [reflexivity|].
    destruct (negb (Dict.mem "content" d)); cbn [reports_more]; [lia|].
    rewrite !length_app. apply Nat.add_le_mono_l.
    destruct Hc as [->|(items & items' & -> & -> & Hitems)]; [lia|].
    destruct strict_typed; [|cbn; lia].
    apply check_items_kept, Hitems.
Qed.

Lemma check_messages_kept (k : nat) (msgs msgs' : list json) :
  Forall2 message_kept msgs msgs' ->
  reports_more
    (concat_results (check_message line_no sample_id strict_typed) (enumerate k msgs))
    (concat_results (check_message line_no sample_id strict_typed) (enumerate k msgs')).
Proof.
  intros H. revert k. induction H as [|m m' msgs msgs' Hm _ IH]; intros k; [cbn; lia|].
  cbn [enumerate concat_results].
  pose proof (check_message_kept k m m' Hm) as H1. specialize (IH (S k)).
  unfold reports_more in *.
  destruct (check_message line_no sample_id strict_typed (k, m)) as [a|e1],
    (check_message line_no sample_id strict_typed (k, m')) as [b|e2];
    cbn [mbind result_bind]; try contradiction; [|exact H1].
  destruct (concat_results _ (enumerate (S k) msgs)) as [as_|e1],
    (concat_results _ (enumerate (S k) msgs')) as [bs|e2];
    cbn [mbind result_bind]; try contradiction; [|exact IH].
  rewrite !length_app. lia.
Qed.

End LintAfterFix.

(** The labels of the issues do not change their number. *)
Lemma check_message_labels {builtins : PyBuiltins}
    (n n' : nat) (sid sid' : string) (strict_typed : bool) (e : nat * json) :
  reports_more (check_message n sid strict_typed e) (check_message n' sid' strict_typed e).
Proof.
  destruct e as [mi m]. unfold check_message, reports_more.
  destruct m as [| | | | |d]; try (cbn; lia).
  destruct (negb (hashable (get "role" d))); [reflexivity|].
  assert (forall (A : Type) (b : bool) (x y : A),
            length (if b then [] else [x]) = length (if b then [] else [y]))
    as Hlen by (intros A [] x y; reflexivity).
  destruct (negb (Dict.mem "content" d)); rewrite !length_app;
    rewrite (Hlen _ _ _ (schema_mismatch n sid
                           (("messages[" +:+ PyStr.of_nat mi +:+ "]") +:+ ".role")
                           ("Invalid role: " +:+ py_repr (get "role" d) +:+ ".")));
    [cbn [length]; lia|].
  apply Nat.add_le_mono_l.
  destruct strict_typed.
  - destruct (get "content" d) as [| | | |items|]; try (cbn; lia).
    generalize 0%nat. induction items as [|it items IH]; intros k; [cbn; lia|].
    cbn [enumerate map concat]. rewrite !length_app. specialize (IH (S k)).
    enough (length (check_item n' sid' ("messages[" +:+ PyStr.of_nat mi +:+ "]") (k, it))
            = length (check_item n sid ("messages[" +:+ PyStr.of_nat mi +:+ "]") (k, it)))
      by lia.
    unfold check_item. destruct it; try reflexivity.
    repeat match goal with |- context [if ?b then _ else _] => destruct b end; reflexivity.
  - destruct (_ || _); cbn; lia.
Qed.

(** X14: linting after fixing: the schema check reports on the repaired record,
    whatever line it is now on, at most as many issues as on the record,
    and it raises exactly when it raises on the record. *)
Theorem fix_never_adds_schema_issues {builtins : PyBuiltins}
    (fix_strict lint_strict : bool) (n n' : nat) (sid sid' : string)
    (obj : list (string * json)) :
  reports_more
    (_validate_messages_schema n sid (get "messages" obj) lint_strict)
    (_validate_messages_schema n' sid'
       (get "messages" (fix_record fix_strict n sid obj).1) lint_strict).
Proof.
  assert (forall messages,
            reports_more (_validate_messages_schema n sid messages lint_strict)
              (_validate_messages_schema n' sid' messages lint_strict)) as Hlabels.
  { intros messages. unfold _validate_messages_schema.
    destruct messages; try (cbn; lia).
    apply concat_results_reports_more. intros e. apply check_message_labels. }
  destruct (fix_record_kept fix_strict n sid obj)
    as (_ & _ & [->|(msgs & msgs' & -> & -> & Hkept)]); [apply Hlabels|].
  eapply reports_more_trans; [|apply Hlabels].
  cbn [_validate_messages_schema]. apply check_messages_kept, Hkept.
Qed.

(* ===================================================================== *)
(** * Linting the file the transform wrote *)
(* ===================================================================== *)

(** A byte below 128 that is not whitespace stops both scans of [strip]. *)
Lemma lstrip_stops (a : ascii) (r : string) :
  PyStr.is_space1 a = false -> (PyStr.byte_of a <? 128)%N = true ->
  PyStr.lstrip (String a r) = String a r.
Proof.
  intros Hs Hlt. cbn [PyStr.lstrip]. rewrite Hs. apply N.ltb_lt in Hlt.
  destruct r as [|b r1]; [reflexivity|].
  unfold PyStr.is_space2.
  replace (PyStr.byte_of a =? 194)%N with false by (symmetry; apply N.eqb_neq; lia).
  cbn [andb]. destruct r1 as [|c r2]; [reflexivity|].
  unfold PyStr.is_space3.
  replace (PyStr.byte_of a =? 225)%N with false by (symmetry; apply N.eqb_neq; lia).
  replace (PyStr.byte_of a =? 226)%N with false by (symmetry; apply N.eqb_neq; lia).
  replace (PyStr.byte_of a =? 227)%N with false by (symmetry; apply N.eqb_neq; lia).
  reflexivity.
Qed.

Lemma lstrip_rev_stops (c : ascii) (r : string) :
  PyStr.is_space1 c = false -> (PyStr.byte_of c <? 128)%N = true ->
  PyStr.lstrip_rev (String c r) = String c r.
Proof.
  intros Hs Hlt. cbn [PyStr.lstrip_rev]. rewrite Hs. apply N.ltb_lt in Hlt.
  destruct r as [|b r1]; [reflexivity|].
  unfold PyStr.is_space2.
  replace (PyStr.byte_of c =? 133)%N with false by (symmetry; apply N.eqb_neq; lia).
  replace (PyStr.byte_of c =? 160)%N with false by (symmetry; apply N.eqb_neq; lia).
  rewrite andb_false_r. destruct r1 as [|a r2]; [reflexivity|].
  unfold PyStr.is_space3.
  replace (PyStr.byte_of c =? 128)%N with false by (symmetry; apply N.eqb_neq; lia).
  replace (PyStr.byte_of c =? 159)%N with false by (symmetry; apply N.eqb_neq; lia).
  replace (PyStr.byte_of c =? 168)%N with false by (symmetry; apply N.eqb_neq; lia).
  replace (PyStr.byte_of c =? 169)%N with false by (symmetry; apply N.eqb_neq; lia).
  replace (PyStr.byte_of c =? 175)%N with false by (symmetry; apply N.eqb_neq; lia).
  replace (128 <=? PyStr.byte_of c)%N with false by (symmetry; apply N.leb_gt; lia).
  rewrite !andb_false_r. reflexivity.
Qed.

Lemma lstrip_rev_space (c : ascii) (r : string) :
  PyStr.is_space1 c = true -> PyStr.lstrip_rev (String c r) = PyStr.lstrip_rev r.
Proof. intros Hs. cbn [PyStr.lstrip_rev]. rewrite Hs. reflexivity. Qed.

(** The reference encoding of an object has no whitespace around it. *)
Lemma reference_object_trimmed (obj : list (string * json)) :
  PyStr.strip (RefJson.dump (JDict obj) +:+ LF) = RefJson.dump (JDict obj).
Proof.
  cbn [RefJson.dump].
  set (body := PyStr.join ", " (map (fun kv => RefJson.dump_str kv.1 +:+ ": "
                                               +:+ RefJson.dump kv.2) obj)).
  unfold PyStr.strip. rewrite !sapp_assoc, sapp_cons, sapp_nil_l.
  rewrite lstrip_stops by reflexivity.
  unfold PyStr.rstrip.
  change (String "{" (body +:+ "}" +:+ LF)) with (("{" +:+ body) +:+ ("}" +:+ LF)).
  rewrite rev_app_distr.
  change (String.rev ("}" +:+ LF)) with (LF +:+ "}").
  rewrite sapp_assoc. change (LF +:+ "}" +:+ String.rev ("{" +:+ body))
    with (String (ascii_of_N 10) (String "}" (String.rev ("{" +:+ body)))).
  rewrite lstrip_rev_space by reflexivity.
  rewrite lstrip_rev_stops by reflexivity.
  change (String "}" (String.rev ("{" +:+ body))) with ("}" +:+ String.rev ("{" +:+ body)).
  rewrite rev_app_distr, rev_involutive. rewrite sapp_assoc. reflexivity.
Qed.

Lemma enumerate_map {A B} (h : A -> B) (k : nat) (l : list A) :
  enumerate k (map h l) = map (fun e => (e.1, h e.2)) (enumerate k l).
Proof.
  revert k. induction l as [|a l IH]; intros k; [reflexivity|].
  cbn [map enumerate]. rewrite IH. reflexivity.
Qed.

Lemma concat_results_map {A B C} (f : B -> result (list C)) (g : A -> B) (l : list A) :
  concat_results f (map g l) = concat_results (fun a => f (g a)) l.
Proof.
  induction l as [|a l IH]; [reflexivity|]. cbn [map concat_results]. rewrite IH. reflexivity.
Qed.

Lemma concat_results_ext {A B} (f g : A -> result (list B)) (l : list A) :
  Forall (fun a => f a = g a) l -> concat_results f l = concat_results g l.
Proof.
  induction 1 as [|a l Ha _ IH]; [reflexivity|]. cbn [concat_results]. rewrite Ha, IH.
  reflexivity.
Qed.

Section LintFixed.
Context {builtins : PyBuiltins} {json_codec : JsonCodec} {laws : JsonCodecLaws}.
Hypothesis trimmed : forall obj, PyStr.strip (written_line obj) = dumps (JDict obj).

Lemma dumps_not_empty (v : json) : PyStr.is_empty (dumps v) = false.
Proof.
  pose proof (dumps_not_blank v) as H. destruct (dumps v); [discriminate H|reflexivity].
Qed.

Lemma lint_line_written (fix_strict : bool) (mode : string) (profile_obj : Profile)
    (strict_typed : bool) (n : nat) (obj : list (string * json)) :
  settled fix_strict obj ->
  lint_line mode profile_obj strict_typed (n, written_line obj)
  = lint_record mode profile_obj strict_typed n obj.
Proof.
  intros [Hw _]. unfold lint_line. rewrite trimmed, dumps_not_empty, loads_dumps by exact Hw.
  reflexivity.
Qed.

Lemma lint_written_file (fix_strict : bool) (text : string) :
  exists objs,
    Forall (settled fix_strict) objs
    /\ (fix_jsonl fix_strict text).1 = file_of (map written_line objs)
    /\ forall mode profile_obj strict_typed,
         lint_jsonl mode profile_obj strict_typed (fix_jsonl fix_strict text).1
         = concat_results (fun e => lint_record mode profile_obj strict_typed e.1 e.2)
             (enumerate 1 objs).
Proof.
  unfold fix_jsonl.
  destruct (fix_lines_write fix_strict (enumerate 1 (file_lines text)))
    as (objs & Hobjs & Hout).
  exists objs. split; [exact Hobjs|]. split; [exact Hout|].
  intros mode profile_obj strict_typed. unfold lint_jsonl.
  rewrite Hout, file_lines_written, enumerate_map, concat_results_map.
  apply concat_results_ext. apply (Forall_enumerate _ 1) in Hobjs.
  eapply Forall_impl; [exact Hobjs|]. intros [n obj] Hs. cbn [fst snd] in *.
  apply (lint_line_written fix_strict), Hs.
Qed.

End LintFixed.

(** X15: linting after fixing, as [check --fix] does. With an encoder that puts
    no whitespace around an object, the file the transform wrote holds one
    repaired record per line and nothing else, and linting it is linting
    these records in turn: no line of it is blank, undecodable, or a value
    that is not an object. *)
Theorem lint_reads_what_fix_wrote
    {builtins : PyBuiltins} {json_codec : JsonCodec} {laws : JsonCodecLaws}
    (fix_strict : bool) (text : string) :
  (forall obj, PyStr.strip (written_line obj) = dumps (JDict obj)) ->
  exists objs,
    Forall (settled fix_strict) objs
    /\ (fix_jsonl fix_strict text).1 = file_of (map written_line objs)
    /\ forall mode profile_obj strict_typed,
         lint_jsonl mode profile_obj strict_typed (fix_jsonl fix_strict text).1
         = concat_results (fun e => lint_record mode profile_obj strict_typed e.1 e.2)
             (enumerate 1 objs).
Proof. intros trimmed. exact (lint_written_file trimmed fix_strict text). Qed.

Lemma lint_reads_what_fix_wrote_witness :
  exists objs,
    Forall (settled true) objs
    /\ (fix_jsonl (builtins := RefBuiltins.builtins) (json_codec := RefJson.codec) true
          typo_file).1
       = file_of (map (written_line (json_codec := RefJson.codec)) objs)
    /\ forall mode profile_obj strict_typed,
         lint_jsonl (builtins := RefBuiltins.builtins) (json_codec := RefJson.codec)
           mode profile_obj strict_typed
           (fix_jsonl (builtins := RefBuiltins.builtins) (json_codec := RefJson.codec) true
              typo_file).1
         = concat_results
             (fun e => lint_record (builtins := RefBuiltins.builtins)
                         mode profile_obj strict_typed e.1 e.2)
             (enumerate 1 objs).
Proof.
  exact (lint_reads_what_fix_wrote
           (builtins := RefBuiltins.builtins) (json_codec := RefJson.codec)
           (laws := reference_codec_laws) true typo_file reference_object_trimmed).
Defined.

(* ===================================================================== *)
(** * The visibility check *)
(* ===================================================================== *)

Lemma is_prefix_app (p t : string) : PyStr.is_prefix p (p +:+ t) = true.
Proof.
  induction p as [|a p IH]; [reflexivity|].
  rewrite sapp_cons. cbn [PyStr.is_prefix]. rewrite Ascii.eqb_refl. exact IH.
Qed.

Lemma contains_app (needle pre post : string) :
  PyStr.contains needle (pre +:+ needle +:+ post) = true.
Proof.
  induction pre as [|a pre IH].
  - rewrite sapp_nil_l. destruct (needle +:+ post) eqn:E; cbn [PyStr.contains];
      rewrite <- E, is_prefix_app; reflexivity.
  - rewrite sapp_cons. cbn [PyStr.contains]. rewrite IH. apply orb_true_r.
Qed.

(** [lstrip] keeps a suffix of the text. *)
Lemma lstrip_suffix (s : string) : exists a, s = a +:+ PyStr.lstrip s.
Proof.
  remember (String.length s) as n eqn:Hn. revert s Hn.
  induction n as [n IH] using lt_wf_ind. intros s Hn.
  destruct s as [|a r]; [exists ""; reflexivity|].
  cbn [PyStr.lstrip]. cbn [String.length] in Hn.
  destruct (PyStr.is_space1 a).
  { destruct (IH (String.length r) ltac:(lia) r eq_refl) as [x Hx].
    exists (String a x). rewrite sapp_cons, <- Hx. reflexivity. }
  destruct r as [|b r1]; [exists ""; reflexivity|]. cbn [String.length] in Hn.
  destruct (PyStr.is_space2 a b).
  { destruct (IH (String.length r1) ltac:(lia) r1 eq_refl) as [x Hx].
    exists (String a (String b x)). rewrite !sapp_cons, <- Hx. reflexivity. }
  destruct r1 as [|c r2]; [exists ""; reflexivity|]. cbn [String.length] in Hn.
  destruct (PyStr.is_space3 a b c); [|exists ""; reflexivity].
  destruct (IH (String.length r2) ltac:(lia) r2 eq_refl) as [x Hx].
  exists (String a (String b (String c x))). rewrite !sapp_cons, <- Hx. reflexivity.
Qed.

Lemma lstrip_rev_suffix (s : string) : exists a, s = a +:+ PyStr.lstrip_rev s.
Proof.
  remember (String.length s) as n eqn:Hn. revert s Hn.
  induction n as [n IH] using lt_wf_ind. intros s Hn.
  destruct s as [|a r]; [exists ""; reflexivity|].
  cbn [PyStr.lstrip_rev]. cbn [String.length] in Hn.
  destruct (PyStr.is_space1 a).
  { destruct (IH (String.length r) ltac:(lia) r eq_refl) as [x Hx].
    exists (String a x). rewrite sapp_cons, <- Hx. reflexivity. }
  destruct r as [|b r1]; [exists ""; reflexivity|]. cbn [String.length] in Hn.
  destruct (PyStr.is_space2 b a).
  { destruct (IH (String.length r1) ltac:(lia) r1 eq_refl) as [x Hx].
    exists (String a (String b x)). rewrite !sapp_cons, <- Hx. reflexivity. }
  destruct r1 as [|c r2]; [exists ""; reflexivity|]. cbn [String.length] in Hn.
  destruct (PyStr.is_space3 c b a); [|exists ""; reflexivity].
  destruct (IH (String.length r2) ltac:(lia) r2 eq_refl) as [x Hx].
  exists (String a (String b (String c x))). rewrite !sapp_cons, <- Hx. reflexivity.
Qed.

(** [strip] keeps a part of the text. *)
Lemma strip_substring (s : string) : exists a b, s = a +:+ PyStr.strip s +:+ b.
Proof.
  destruct (lstrip_suffix s) as [a Ha].
  destruct (lstrip_rev_suffix (String.rev (PyStr.lstrip s))) as [b Hb].
  exists a, (String.rev b). unfold PyStr.strip, PyStr.rstrip.
  rewrite <- rev_app_distr, <- Hb, rev_involutive. exact Ha.
Qed.

Section Visibility.
Context {builtins : PyBuiltins}.
Variables (profile_obj : Profile) (render_fn : RenderPlugin).

Lemma check_visible_verbatim (n : nat) (sid sys_text pre post : string) :
  check_visible profile_obj n sid sys_text (pre +:+ sys_text +:+ post) = Ok [].
Proof.
  unfold check_visible. destruct (strip_substring sys_text) as (a & b & Hs).
  replace (PyStr.contains (PyStr.strip sys_text) (pre +:+ sys_text +:+ post)) with true.
  - rewrite andb_false_r. reflexivity.
  - symmetry. rewrite Hs at 2. rewrite !sapp_assoc, <- (sapp_assoc pre a).
    apply contains_app.
Qed.

Lemma check_visible_missing (n : nat) (sid sys_text prompt : string) :
  validate profile_obj = Ok () ->
  PyStr.is_empty (PyStr.strip sys_text) = false ->
  PyStr.contains (PyStr.strip sys_text) prompt = false ->
  exists lvl,
    system_invisible_level profile_obj = JStr lvl
    /\ (lvl = "WARN" \/ lvl = "ERROR")
    /\ check_visible profile_obj n sid sys_text prompt = Ok [system_not_visible lvl n sid].
Proof.
  intros Hv Hne Hc. apply validate_Ok in Hv as [Hlvl _].
  unfold check_visible, not_visible. rewrite Hne, Hc. cbn [negb andb].
  destruct Hlvl as [-> | ->]; eexists; (split; [reflexivity|]);
    (split; [(left; reflexivity) || (right; reflexivity)|reflexivity]).
Qed.

End Visibility.

(** X16: a prompt that holds the system text as it is, anywhere, passes the
    visibility check, whether the plugin takes the keyword call or only the
    positional one. *)
Theorem verbatim_system_text_is_visible
    (profile_obj : Profile) (render_fn : RenderPlugin) (line_no : nat)
    (sample_id sys_text pre post : string)
    (messages : list json) (obj : list (string * json)) :
  call_keywords render_fn messages obj = Returns (pre +:+ sys_text +:+ post)
  \/ (call_keywords render_fn messages obj = RaisesTypeError
      /\ call_positional render_fn messages = Returns (pre +:+ sys_text +:+ post)) ->
  render_and_check profile_obj render_fn line_no sample_id sys_text messages obj = Ok [].
Proof.
  unfold render_and_check. intros [-> | [-> ->]]; apply check_visible_verbatim.
Qed.

Lemma verbatim_system_text_is_visible_witness :
  render_and_check generic
    (constant_plugin "<|system|> Be brief. <|user|>hi") 1 "t1" " Be brief. "
    [msg "system" " Be brief. "; msg "user" "hi"] []
  = Ok [].
Proof.
  exact (verbatim_system_text_is_visible generic
           (constant_plugin "<|system|> Be brief. <|user|>hi") 1 "t1" " Be brief. "
           "<|system|>" "<|user|>hi" [msg "system" " Be brief. "; msg "user" "hi"] []
           (or_introl eq_refl)).
Defined.

(** X17: the level of a system text that is not visible. Under a profile that
    passes validation, a non-blank system text absent from the prompt
    yields the single [E002_SYSTEM_NOT_VISIBLE] issue at the level of the
    profile, [WARN] or [ERROR]; at [WARN] it fails the threshold [WARN]
    and passes the threshold [ERROR]. *)
Theorem invisible_system_has_profile_level {builtins : PyBuiltins}
    (profile_obj : Profile) (line_no : nat) (sample_id sys_text prompt : string) :
  validate profile_obj = Ok () ->
  PyStr.is_empty (PyStr.strip sys_text) = false ->
  PyStr.contains (PyStr.strip sys_text) prompt = false ->
  exists lvl,
    system_invisible_level profile_obj = JStr lvl
    /\ (lvl = "WARN" \/ lvl = "ERROR")
    /\ check_visible profile_obj line_no sample_id sys_text prompt
       = Ok [system_not_visible lvl line_no sample_id]
    /\ should_fail [system_not_visible lvl line_no sample_id] "WARN" = true
    /\ should_fail [system_not_visible lvl line_no sample_id] "ERROR"
       = String.eqb lvl "ERROR".
Proof.
  intros Hv Hne Hc.
  destruct (check_visible_missing profile_obj line_no sample_id sys_text prompt Hv Hne Hc)
    as (lvl & Hl & Hlvl & Hcheck).
  exists lvl. split; [exact Hl|]. split; [exact Hlvl|]. split; [exact Hcheck|].
  destruct Hlvl as [-> | ->]; split; reflexivity.
Qed.

Lemma invisible_system_has_profile_level_witness :
  exists lvl,
    system_invisible_level warn_only = JStr lvl
    /\ (lvl = "WARN" \/ lvl = "ERROR")
    /\ check_visible warn_only 1 "t1" "Be brief."
         "<|user|>hi"
       = Ok [system_not_visible lvl 1 "t1"]
    /\ should_fail [system_not_visible lvl 1 "t1"] "WARN" = true
    /\ should_fail [system_not_visible lvl 1 "t1"] "ERROR" = String.eqb lvl "ERROR".
Proof.
  exact (invisible_system_has_profile_level (builtins := RefBuiltins.builtins)
           warn_only 1 "t1" "Be brief." "<|user|>hi" eq_refl eq_refl eq_refl).
Defined.

Section PluginUnused.
Context {builtins : PyBuiltins} {json_codec : JsonCodec}.
Variables (profile_obj : Profile) (strict_typed : bool).
Hypothesis invisible : truthy (system_visible profile_obj) = false.

Lemma verify_record_plugin_unused (rf1 rf2 : RenderPlugin) (n : nat)
    (obj : list (string * json)) :
  verify_record profile_obj rf1 strict_typed n obj
  = verify_record profile_obj rf2 strict_typed n obj.
Proof. unfold verify_record. rewrite invisible. reflexivity. Qed.

Lemma verify_plugin_unused (rf1 rf2 : RenderPlugin) (text : string) :
  verify_system_visibility_jsonl profile_obj rf1 strict_typed text
  = verify_system_visibility_jsonl profile_obj rf2 strict_typed text.
Proof.
  unfold verify_system_visibility_jsonl. apply concat_results_ext, Forall_forall.
  intros [n line] _. unfold verify_line.
  destruct (PyStr.is_empty _); [reflexivity|]. destruct (loads _) as [v|]; [|reflexivity].
  destruct v; try reflexivity. apply verify_record_plugin_unused.
Qed.

End PluginUnused.

Lemma verify_record_schema_only {builtins : PyBuiltins}
    (profile_obj : Profile) (render_fn : RenderPlugin) (strict_typed : bool)
    (n : nat) (obj : list (string * json)) (msgs : list json) :
  validate profile_obj = Ok () ->
  truthy (system_visible profile_obj) = false ->
  get "messages" obj = JList msgs ->
  Forall (fun m => is_dict m = true) msgs ->
  verify_record profile_obj render_fn strict_typed n obj
  = _validate_messages_schema n (sample_id_of n obj) (JList msgs) strict_typed.
Proof.
  intros Hv Hvis Hm Hd. apply validate_Ok in Hv as (_ & Hreq & _).
  assert (truthy (require_system profile_obj) = false) as Hr.
  { destruct (truthy (require_system profile_obj)); [|reflexivity].
    rewrite Hreq in Hvis by reflexivity. discriminate. }
  unfold verify_record, _system_presence_and_nonempty. rewrite Hm, Hr, Hvis.
  rewrite (with_role_of_dicts "system" msgs Hd).
  destruct (_validate_messages_schema _ _ _ _) as [sch|e]; cbn [mbind result_bind negb];
    [|reflexivity].
  rewrite app_nil_r. reflexivity.
Qed.

(** X18: under a validated profile whose system messages need not be visible,
    the pass never calls the render plugin, so its result is the same with
    any plugin, one that always fails included; and on a record whose
    messages are objects it reports what the schema check reports, nothing
    about system messages. *)
Theorem verify_without_visibility {builtins : PyBuiltins} {json_codec : JsonCodec}
    (profile_obj : Profile) (strict_typed : bool) :
  validate profile_obj = Ok () ->
  truthy (system_visible profile_obj) = false ->
  (forall rf1 rf2 text,
     verify_system_visibility_jsonl profile_obj rf1 strict_typed text
     = verify_system_visibility_jsonl profile_obj rf2 strict_typed text)
  /\ (forall render_fn n obj msgs,
        get "messages" obj = JList msgs ->
        Forall (fun m => is_dict m = true) msgs ->
        verify_record profile_obj render_fn strict_typed n obj
        = _validate_messages_schema n (sample_id_of n obj) (JList msgs) strict_typed).
Proof.
  intros Hv Hvis. split.
  - intros rf1 rf2 text. apply verify_plugin_unused, Hvis.
  - intros render_fn n obj msgs. apply verify_record_schema_only; assumption.
Qed.

Lemma verify_without_visibility_witness :
  verify_system_visibility_jsonl (builtins := RefBuiltins.builtins)
    (json_codec := RefJson.codec) lenient (positional_failing "boom") false two_records
  = verify_system_visibility_jsonl (builtins := RefBuiltins.builtins)
      (json_codec := RefJson.codec) lenient (constant_plugin "") false two_records.
Proof.
  exact (proj1 (verify_without_visibility
                  (builtins := RefBuiltins.builtins) (json_codec := RefJson.codec)
                  lenient false eq_refl eq_refl)
           (positional_failing "boom") (constant_plugin "") two_records).
Defined.

(* ===================================================================== *)
(** * The profile registry, continued *)
(* ===================================================================== *)

Section Overrides.
Context {builtins : PyBuiltins}.

(** The merge, entry by entry: what the registry holds for each name. *)
Lemma merge_overrides_lookup (raw : list (string * json)) (profs reg : gmap string Profile) :
  NoDup (map fst raw) ->
  merge_overrides raw profs = Ok reg ->
  forall n,
    reg !! n
    = match Dict.lookup n raw with
      | Some (JDict fields) => Some (merged_profile profs n fields)
      | _ => profs !! n
      end.
Proof.
  revert profs. induction raw as [|[k cfg] raw IH]; intros profs Hnd.
  - intros [= <-] n. reflexivity.
  - cbn [merge_overrides]. destruct cfg as [| | | | |fields]; try discriminate.
    destruct (validate (merged_profile profs k fields)) as [[]|e]; [|discriminate].
    cbn [mbind result_bind]. intros Hm n.
    cbn [map fst] in Hnd. apply NoDup_cons in Hnd as [Hk Hnd].
    rewrite (IH _ Hnd Hm n). cbn [Dict.lookup].
    destruct (String.eqb n k) eqn:E.
    + apply String.eqb_eq in E as ->.
      replace (Dict.lookup k raw) with (@None json) by (symmetry; apply lookup_None, Hk).
      apply lookup_insert_eq.
    + apply String.eqb_neq in E.
      destruct (Dict.lookup n raw) as [[| | | | |fields']|];
        try (apply lookup_insert_ne; congruence).
      unfold merged_profile. rewrite lookup_insert_ne by congruence. reflexivity.
Qed.

Lemma merge_overrides_dicts (raw : list (string * json)) (profs reg : gmap string Profile) :
  merge_overrides raw profs = Ok reg -> Forall (fun kv => is_dict kv.2 = true) raw.
Proof.
  revert profs. induction raw as [|[k cfg] raw IH]; intros profs; [constructor|].
  cbn [merge_overrides]. destruct cfg as [| | | | |fields]; try discriminate.
  destruct (validate (merged_profile profs k fields)) as [[]|e]; [|discriminate].
  cbn [mbind result_bind]. intros Hm. constructor; [reflexivity|]. exact (IH _ Hm).
Qed.

End Overrides.

Lemma default_names (n : string) (p : Profile) :
  DEFAULT_PROFILES !! n = Some p -> name p = n.
Proof.
  unfold DEFAULT_PROFILES. intros H.
  repeat (apply lookup_insert_Some in H as [[<- <-]|[_ H]]; [reflexivity|]).
  rewrite lookup_empty in H. discriminate.
Qed.

(** [x or {}] on a mapping is the mapping. *)
Lemma yaml_of_mapping (d : list (string * json)) :
  (if truthy (JDict d) then JDict d else JDict []) = JDict d.
Proof. destruct d; reflexivity. Qed.

(** A file whose content is a mapping is read as that mapping, by the
    loader of either kind. *)
Lemma json_file_read (file : string) (d : list (string * json)) :
  override_suffix file = true ->
  read_as (files := json_file (JDict d)) file (JDict d).
Proof.
  unfold override_suffix, read_as, yaml_suffix. intros Hs.
  destruct (PyStr.endswith file ".yaml" || PyStr.endswith file ".yml"); cbn [orb] in Hs.
  - unfold _load_yaml. cbn [yaml_imported yaml_safe_load json_file negb mbind result_bind].
    rewrite yaml_of_mapping. reflexivity.
  - split; [exact Hs|reflexivity].
Qed.

Lemma load_profiles_bad_suffix {builtins : PyBuiltins} {files : ProfileFiles} (file : string) :
  PyStr.is_empty file = false -> override_suffix file = false ->
  load_profiles (Some file) = Raise (ValueError "profile_file must be .yaml/.yml or .json").
Proof.
  intros Hne Hs. unfold override_suffix in Hs. apply orb_false_iff in Hs as [Hy Hj].
  unfold load_profiles. destruct file as [|c file]; [discriminate Hne|].
  rewrite Hy, Hj. reflexivity.
Qed.

Lemma load_profiles_from_data {builtins : PyBuiltins}
    (file : string) (d entries : list (string * json)) (reg : gmap string Profile) :
  PyStr.is_empty file = false ->
  get_or "profiles" (JDict d) d = JDict entries ->
  load_profiles (files := json_file (JDict d)) (Some file) = Ok reg ->
  merge_overrides entries DEFAULT_PROFILES = Ok reg.
Proof.
  intros Hfile Hraw. destruct (override_suffix file) eqn:Hs.
  - rewrite (load_profiles_read file d Hfile (json_file_read file d Hs)), Hraw.
    destruct (merge_overrides entries DEFAULT_PROFILES) as [reg'|e]; [|discriminate].
    cbn [mbind result_bind]. destruct (validate_all reg') as [[]|e]; [|discriminate].
    cbn [mbind result_bind]. congruence.
  - rewrite (load_profiles_bad_suffix file Hfile Hs). discriminate.
Qed.

(** X19: overrides are merged name by name onto the built-in registry. When the
    load of an override file returns, the registry holds, for each name of
    the file, the built-in profile of that name (or the default profile)
    with the fields the file gives, and for every other name the built-in
    profile; every profile is stored under its own name, and no built-in
    name is lost. *)
Theorem overrides_merge_onto_builtins {builtins : PyBuiltins}
    (file : string) (d entries : list (string * json)) (reg : gmap string Profile) :
  PyStr.is_empty file = false ->
  get_or "profiles" (JDict d) d = JDict entries ->
  NoDup (map fst entries) ->
  load_profiles (files := json_file (JDict d)) (Some file) = Ok reg ->
  (forall n,
     reg !! n
     = match Dict.lookup n entries with
       | Some (JDict fields) => Some (merged_profile DEFAULT_PROFILES n fields)
       | _ => DEFAULT_PROFILES !! n
       end)
  /\ (forall n p, reg !! n = Some p -> name p = n)
  /\ (forall n, is_Some (DEFAULT_PROFILES !! n) -> is_Some (reg !! n)).
Proof.
  intros Hfile Hraw Hnd Hload.
  pose proof (load_profiles_from_data file d entries reg Hfile Hraw Hload) as Hm.
  pose proof (merge_overrides_lookup entries DEFAULT_PROFILES reg Hnd Hm) as Hl.
  split; [exact Hl|]. split.
  - intros n p. rewrite Hl. destruct (Dict.lookup n entries) as [[| | | | |fields]|];
      try apply default_names. intros [= <-]. reflexivity.
  - intros n Hn. rewrite Hl. destruct (Dict.lookup n entries) as [[| | | | |fields]|];
      try exact Hn. eexists; reflexivity.
Qed.

Lemma overrides_merge_onto_builtins_witness :
  (<["my-vlm" := mkProfile "my-vlm" (JBool false) (JBool true) (JBool false) (JStr "WARN")]>
     DEFAULT_PROFILES) !! "my-vlm"
  = Some (merged_profile DEFAULT_PROFILES "my-vlm" relaxed_fields).
Proof.
  apply (proj1 (overrides_merge_onto_builtins (builtins := RefBuiltins.builtins)
                  "profiles.json" [("profiles", JDict relaxed_overrides)] relaxed_overrides
                  (<["my-vlm" := mkProfile "my-vlm" (JBool false) (JBool true) (JBool false)
                                   (JStr "WARN")]> DEFAULT_PROFILES)
                  eq_refl eq_refl
                  ltac:(repeat constructor; set_solver)
                  ltac:(vm_compute; reflexivity))
           "my-vlm").
Defined.

(** X20: loading at the edges. Without a file name, or with an empty one, the
    load returns the three built-in profiles; a file name without one of
    the three suffixes ends it with a [ValueError]; in both cases no file
    is read. A YAML file ends it with a [RuntimeError] when the module
    [yaml] is missing. A JSON file whose content is not a mapping ends it
    with [AttributeError], and so does a YAML file whose content is not a
    mapping and is truthy; a YAML file whose content is falsy, as that of
    an empty file, loads as the empty mapping and gives the built-in
    profiles. A file whose [profiles] entry is not a mapping ends the load
    with a [ValueError]. *)
Theorem load_profiles_edge_cases {builtins : PyBuiltins} :
  (forall files : ProfileFiles,
     load_profiles (files := files) None = Ok DEFAULT_PROFILES
     /\ load_profiles (files := files) (Some "") = Ok DEFAULT_PROFILES
     /\ (forall file,
           PyStr.is_empty file = false -> override_suffix file = false ->
           load_profiles (files := files) (Some file)
           = Raise (ValueError "profile_file must be .yaml/.yml or .json"))
     /\ (forall file,
           PyStr.is_empty file = false -> yaml_suffix file = true ->
           yaml_imported = false ->
           load_profiles (files := files) (Some file)
           = Raise (RuntimeError
                      "PyYAML is required to load YAML profiles. `pip install pyyaml`")))
  /\ (forall file data,
        PyStr.is_empty file = false ->
        yaml_suffix file = false -> PyStr.endswith file ".json" = true ->
        is_dict data = false ->
        load_profiles (files := json_file data) (Some file) = Raise AttributeError)
  /\ (forall file data,
        PyStr.is_empty file = false -> yaml_suffix file = true ->
        (is_dict data = false -> truthy data = true ->
         load_profiles (files := json_file data) (Some file) = Raise AttributeError)
        /\ (truthy data = false ->
            load_profiles (files := json_file data) (Some file) = Ok DEFAULT_PROFILES))
  /\ (forall file d,
        PyStr.is_empty file = false -> override_suffix file = true ->
        is_dict (get_or "profiles" (JDict d) d) = false ->
        load_profiles (files := json_file (JDict d)) (Some file)
        = Raise (ValueError "Profile file must contain a mapping under key 'profiles'")).
Proof.
  assert (validate_all DEFAULT_PROFILES = Ok ()) as Hd by apply validate_all_Ok, defaults_valid.
  split; [|split; [|split]].
  - intros files. unfold load_profiles at 1 2. rewrite Hd. cbn [mbind result_bind].
    split; [reflexivity|]. split; [reflexivity|]. split.
    + intros file Hne Hs. exact (load_profiles_bad_suffix file Hne Hs).
    + intros file Hne Hy Hi. unfold load_profiles. unfold yaml_suffix in Hy.
      destruct file as [|c file]; [discriminate Hne|].
      rewrite Hy. unfold _load_yaml. rewrite Hi. reflexivity.
  - intros file data Hne Hy Hj Hnd. unfold load_profiles. unfold yaml_suffix in Hy.
    destruct file as [|c file]; [discriminate Hne|].
    rewrite Hy, Hj. unfold _load_json. cbn [json_load json_file mbind result_bind].
    destruct data; try discriminate Hnd; reflexivity.
  - intros file data Hne Hy. unfold load_profiles. unfold yaml_suffix in Hy.
    destruct file as [|c file]; [discriminate Hne|].
    rewrite Hy. unfold _load_yaml.
    cbn [yaml_imported yaml_safe_load json_file negb mbind result_bind]. split.
    + intros Hnd Ht. rewrite Ht. cbn [mbind result_bind].
      destruct data; try discriminate Hnd; reflexivity.
    + intros Ht. rewrite Ht. cbn [mbind result_bind get_or Dict.lookup merge_overrides].
      rewrite Hd. reflexivity.
  - intros file d Hne Hs Hnd.
    rewrite (load_profiles_read file d Hne (json_file_read file d Hs)).
    destruct (get_or "profiles" (JDict d) d); try discriminate Hnd; reflexivity.
Qed.

(** An empty YAML file, which decodes to [None], gives the built-in
    profiles. *)
Lemma load_profiles_edge_cases_witness :
  load_profiles (builtins := RefBuiltins.builtins) (files := json_file JNull)
    (Some "profiles.yaml")
  = Ok DEFAULT_PROFILES.
Proof.
  exact (proj2 (proj1 (proj2 (proj2 (load_profiles_edge_cases
                                       (builtins := RefBuiltins.builtins))))
                  "profiles.yaml" JNull eq_refl eq_refl)
           eq_refl).
Defined.

(** X21: the key [profiles] is optional: a file that holds the overrides under
    the key [profiles] loads as the file that holds the overrides alone,
    unless an override is itself named [profiles]. *)
Theorem profiles_key_is_optional {builtins : PyBuiltins}
    (file : string) (d entries : list (string * json)) :
  Dict.lookup "profiles" d = Some (JDict entries) ->
  Dict.lookup "profiles" entries = None ->
  load_profiles (files := json_file (JDict d)) (Some file)
  = load_profiles (files := json_file (JDict entries)) (Some file).
Proof.
  intros Hd He. destruct file as [|c file]; [reflexivity|].
  assert (get_or "profiles" (JDict d) d = JDict entries) as Hraw
    by (unfold get_or; rewrite Hd; reflexivity).
  assert (get_or "profiles" (JDict entries) entries = JDict entries) as Hraw'
    by (unfold get_or; rewrite He; reflexivity).
  destruct (override_suffix (String c file)) eqn:Hs.
  - rewrite (load_profiles_read (String c file) d eq_refl (json_file_read _ d Hs)).
    rewrite (load_profiles_read (String c file) entries eq_refl (json_file_read _ entries Hs)).
    rewrite Hraw, Hraw'. reflexivity.
  - rewrite !(load_profiles_bad_suffix (String c file) eq_refl Hs). reflexivity.
Qed.

Lemma profiles_key_is_optional_witness :
  load_profiles (builtins := RefBuiltins.builtins)
    (files := json_file (JDict [("version", JInt 1); ("profiles", JDict relaxed_overrides)]))
    (Some "p.yaml")
  = load_profiles (builtins := RefBuiltins.builtins)
      (files := json_file (JDict relaxed_overrides)) (Some "p.yaml").
Proof.
  exact (profiles_key_is_optional (builtins := RefBuiltins.builtins) "p.yaml"
           [("version", JInt 1); ("profiles", JDict relaxed_overrides)] relaxed_overrides
           eq_refl eq_refl).
Defined.

(* ===================================================================== *)
(** * The paths of the [None] values *)
(* ===================================================================== *)

Lemma is_empty_app_r (p q : string) :
  PyStr.is_empty q = false -> PyStr.is_empty (p +:+ q) = false.
Proof. destruct p, q; (discriminate || reflexivity). Qed.

Lemma walk_none_prefix (v : value) :
  forall p q,
    PyStr.is_empty q = false ->
    _walk_none v (p +:+ q) = map (String.append p) (_walk_none v q).
Proof.
  induction v as [| | | | | |l IH|d IH] using value_induction; intros p q Hq;
    try reflexivity.
  - cbn [_walk_none map]. rewrite Hq, is_empty_app_r by exact Hq. reflexivity.
  - cbn [_walk_none]. generalize 0%nat.
    induction IH as [|x l Hx _ IHl]; intros k; [reflexivity|].
    cbn [map]. rewrite map_app, <- IHl, (sapp_assoc p q).
    rewrite (Hx p (q +:+ "[" +:+ PyStr.of_nat k +:+ "]")) by (apply is_empty_app_r; reflexivity).
    reflexivity.
  - cbn [_walk_none]. rewrite Hq, is_empty_app_r by exact Hq.
    induction IH as [|[k x] d Hx _ IHd]; [reflexivity|].
    cbn [map]. rewrite map_app, <- IHd, (sapp_assoc p q). cbn [snd] in Hx.
    rewrite (Hx p (q +:+ "." +:+ k)) by (apply is_empty_app_r; reflexivity).
    reflexivity.
Qed.

Lemma walk_none_scalars (row : list (string * value)) :
  Forall (fun kv => is_scalar kv.2 = true /\ PyStr.is_empty kv.1 = false) row ->
  _walk_none (VDict row) "" = none_keys row.
Proof.
  cbn [_walk_none PyStr.is_empty]. unfold none_keys.
  induction 1 as [|[k v] row [Hv Hk] _ IH]; [reflexivity|].
  cbn [omap list_omap fst snd] in *. rewrite IH.
  destruct v; try discriminate Hv; try reflexivity.
  cbn [_walk_none is_none app]. rewrite Hk. reflexivity.
Qed.

(** X22: the paths of the [None] values. A path is the prefix followed by the
    keys and indices that lead to the value, so a longer prefix on the
    left extends every path by as much; and for a row of non-empty keys
    whose values are neither lists nor mappings, the paths are the keys
    whose value is [None], in the order of the row. *)
Theorem walk_none_paths :
  (forall v p q,
     PyStr.is_empty q = false ->
     _walk_none v (p +:+ q) = map (String.append p) (_walk_none v q))
  /\ (forall row,
        Forall (fun kv => is_scalar kv.2 = true /\ PyStr.is_empty kv.1 = false) row ->
        _walk_none (VDict row) "" = none_keys row).
Proof. split; [exact walk_none_prefix|exact walk_none_scalars]. Qed.

(** A nested row: the paths name the keys and the index. *)
Example walk_none_nested :
  _walk_none (VDict nested_row) "" = ["meta.a"; "meta.tags[1]"]
  /\ _walk_none VNone "" = ["$"].
Proof. split; reflexivity. Qed.

(* ===================================================================== *)
(** * Expected size and consistent sizes *)
(* ===================================================================== *)

Lemma reports_app (c : string) (l1 l2 : list Issue) :
  reports c (l1 ++ l2) = reports c l1 || reports c l2.
Proof. apply existsb_app. Qed.

Section ExpectedSize.
Context {row_builtins : PyValueBuiltins}.
Variables (expected : Z * Z) (coord_field : string) (coord_keys : list string)
          (split_name : string) (image_cols : list string) (w_col h_col : option string).

Local Abbreviation rows_checked entries seen :=
  (check_rows (Some expected) coord_field coord_keys split_name image_cols w_col h_col
     entries seen).

Lemma check_row_expected (e : nat * list (string * value)) :
  let r := check_row (Some expected) coord_field coord_keys split_name image_cols
             w_col h_col e in
  reports "E201_IMAGE_SIZE_MISMATCH" r.1 = false ->
  reports "W202_IMAGE_SIZE_UNKNOWN" r.1 = false ->
  r.2 = Some expected.
Proof.
  destruct e as [idx row]. unfold check_row.
  destruct expected as [ew eh].
  destruct (_get_size_from_row row image_cols w_col h_col) as [[w h]|]; cbn [fst snd].
  - intros H201 _. rewrite !reports_app in H201.
    apply orb_false_iff in H201 as [_ H201]. apply orb_false_iff in H201 as [H201 _].
    destruct (size_eqb (w, h) (ew, eh)) eqn:E.
    + apply size_eqb_eq in E. congruence.
    + cbn in H201. discriminate H201.
  - intros _ H202. rewrite !reports_app in H202.
    apply orb_false_iff in H202 as [_ H202]. apply orb_false_iff in H202 as [H202 _].
    cbn in H202. discriminate H202.
Qed.

Lemma check_rows_expected (entries : list (nat * list (string * value))) (seen : tally) :
  reports "E201_IMAGE_SIZE_MISMATCH" (rows_checked entries seen).1 = false ->
  reports "W202_IMAGE_SIZE_UNKNOWN" (rows_checked entries seen).1 = false ->
  Forall (fun row => _get_size_from_row row image_cols w_col h_col = Some expected)
    (map snd entries).
Proof.
  revert seen. induction entries as [|e entries IH]; intros seen; [constructor|].
  cbn [check_rows map].
  pose proof (check_row_expected e) as He. cbn zeta in He.
  destruct (check_row (Some expected) coord_field coord_keys split_name image_cols
              w_col h_col e) as [here size] eqn:Ee.
  cbn [fst snd] in He.
  specialize (IH (match size with Some sz => count_size sz seen | None => seen end)).
  destruct (check_rows _ _ _ _ _ _ _ entries _) as [later seen2]. cbn [fst] in *.
  rewrite !reports_app. intros H1 H2.
  apply orb_false_iff in H1 as [H1 H1'], H2 as [H2 H2'].
  constructor; [|exact (IH H1' H2')].
  specialize (He H1 H2). subst size.
  destruct e as [idx row]. unfold check_row in Ee. cbn [snd].
  injection Ee as _ Hs. exact Hs.
Qed.

End ExpectedSize.

Section NoInconsistency.
Context {row_builtins : PyValueBuiltins}.
Variables (expect_size : option (Z * Z)) (coord_field : string) (coord_keys : list string)
          (split_name : string) (image_cols : list string) (w_col h_col : option string).

Lemma check_row_consistent (e : nat * list (string * value)) :
  reports "W201_IMAGE_SIZE_INCONSISTENT"
    (check_row expect_size coord_field coord_keys split_name image_cols w_col h_col e).1
  = false.
Proof.
  destruct e as [idx row]. unfold check_row. cbn [fst]. rewrite !reports_app.
  apply orb_false_iff. split; [|apply orb_false_iff; split].
  - unfold reports. generalize (_walk_none (VDict row) "").
    intros paths. induction paths as [|p paths IH]; [reflexivity|exact IH].
  - destruct (_get_size_from_row row image_cols w_col h_col) as [[w h]|]; [|reflexivity].
    destruct expect_size as [[ew eh]|]; [|reflexivity].
    destruct (negb (size_eqb (w, h) (ew, eh))); reflexivity.
  - unfold coord_issues.
    repeat match goal with
           | |- context [if ?b then _ else _] => destruct b
           | |- context [match ?x with _ => _ end] => destruct x
           end; reflexivity.
Qed.

Lemma check_rows_consistent (entries : list (nat * list (string * value))) (seen : tally) :
  reports "W201_IMAGE_SIZE_INCONSISTENT"
    (check_rows expect_size coord_field coord_keys split_name image_cols w_col h_col
       entries seen).1
  = false.
Proof.
  revert seen. induction entries as [|e entries IH]; intros seen; [reflexivity|].
  cbn [check_rows]. pose proof (check_row_consistent e) as He.
  destruct (check_row _ _ _ _ _ _ _ e) as [here size]. cbn [fst] in He.
  specialize (IH (match size with Some sz => count_size sz seen | None => seen end)).
  destruct (check_rows _ _ _ _ _ _ _ entries _) as [later seen2]. cbn [fst] in *.
  rewrite reports_app, He, IH. reflexivity.
Qed.

End NoInconsistency.

Lemma tally_of_uniform (size : Z * Z) (sizes : list (Z * Z)) :
  Forall (fun s => s = size) sizes ->
  (length (tally_of sizes []) <= 1)%nat.
Proof.
  intros Hall.
  assert (forall seen, seen = [] \/ (exists c, seen = [(size, c)]) ->
            tally_of sizes seen = [] \/ exists c, tally_of sizes seen = [(size, c)]) as H.
  { induction Hall as [|s sizes -> _ IH]; intros seen Hseen; [exact Hseen|].
    cbn [tally_of fold_left]. apply IH. right.
    destruct Hseen as [->|[c ->]]; cbn [count_size]; [eexists; reflexivity|].
    rewrite size_eqb_refl. eexists; reflexivity. }
  destruct (H [] (or_introl eq_refl)) as [->|[c ->]]; cbn; lia.
Qed.

(** X23: an expected size makes the sizes consistent. When a split checked
    against an expected size reports no size mismatch and no unknown size,
    every row resolves to the expected size, and the policy [consistent],
    or any other, has no inconsistency to report. *)
Theorem expected_size_implies_consistent {row_builtins : PyValueBuiltins}
    (expected : Z * Z) (size_policy coord_field : string) (coord_keys : list string)
    (split_name : string) (features : list (string * feature))
    (rows : list (list (string * value))) :
  let issues := check_split (Some expected) size_policy coord_field coord_keys split_name
                  features rows in
  reports "E201_IMAGE_SIZE_MISMATCH" issues = false ->
  reports "W202_IMAGE_SIZE_UNKNOWN" issues = false ->
  Forall (fun row => row_size features row = Some expected) rows
  /\ reports "W201_IMAGE_SIZE_INCONSISTENT" issues = false.
Proof.
  cbn zeta. unfold check_split.
  pose proof (check_rows_tally (Some expected) coord_field coord_keys split_name
                (_find_image_columns features) (pick_column features "image_w" "width")
                (pick_column features "image_h" "height") (enumerate 0 rows) []) as Ht.
  pose proof (check_rows_expected expected coord_field coord_keys split_name
                (_find_image_columns features) (pick_column features "image_w" "width")
                (pick_column features "image_h" "height") (enumerate 0 rows) []) as He.
  pose proof (check_rows_consistent (Some expected) coord_field coord_keys split_name
                (_find_image_columns features) (pick_column features "image_w" "width")
                (pick_column features "image_h" "height") (enumerate 0 rows) []) as Hc.
  destruct (check_rows _ _ _ _ _ _ _ (enumerate 0 rows) []) as [row_issues seen].
  cbn [fst snd] in *. rewrite map_snd_enumerate in Ht, He.
  rewrite !reports_app. intros H1 H2.
  apply orb_false_iff in H1 as [H1 _], H2 as [H2 _].
  specialize (He H1 H2). split; [exact He|]. rewrite Hc. cbn [orb].
  assert (length seen <= 1)%nat as Hlen.
  { subst seen. apply (tally_of_uniform expected).
    clear -He. induction He as [|row rows Hrow _ IH]; [constructor|].
    cbn [omap list_omap]. rewrite Hrow. constructor; [reflexivity|exact IH]. }
  unfold size_policy_issues. destruct (String.eqb _ "consistent"); [|reflexivity].
  destruct (1 <? length seen)%nat eqn:E; [apply Nat.ltb_lt in E; lia|].
  destruct (length seen =? 0)%nat; reflexivity.
Qed.

Lemma expected_size_implies_consistent_witness :
  Forall (fun row => row_size size_columns row = Some (512, 512)) uniform_rows
  /\ reports "W201_IMAGE_SIZE_INCONSISTENT"
       (check_split (row_builtins := RefBuiltins.row_builtins) (Some (512, 512))
          "consistent" "" [] "data" size_columns uniform_rows)
     = false.
Proof.
  exact (expected_size_implies_consistent (row_builtins := RefBuiltins.row_builtins)
           (512, 512) "consistent" "" [] "data" size_columns uniform_rows
           eq_refl eq_refl).
Defined.

(* ===================================================================== *)
(** * The generic bounds rule *)
(* ===================================================================== *)

Lemma vget_lookup (k : string) (row c : list (string * value)) :
  vget k row = VDict c -> Dict.lookup k row = Some (VDict c).
Proof.
  unfold vget. destruct (Dict.lookup k row); cbn; [intros ->; reflexivity|discriminate].
Qed.

Section Generic.
Context {row_builtins : PyValueBuiltins}.
Variables (row c : list (string * value)) (w h : Z) (image_cols : list string)
          (row_no : nat) (sid : string).
Hypothesis (Hw : as_int (vget "image_w" row) = Some w).
Hypothesis (Hh : as_int (vget "image_h" row) = Some h).
Hypothesis (Hc : vget "coordinates" row = VDict c).

Local Abbreviation generic :=
  (coord_issues "coordinates" ["x0"; "y0"; "x1"; "y1"] row_no sid row).

Lemma explicit_size :
  _get_size_from_row row image_cols (Some "image_w") (Some "image_h") = Some (w, h).
Proof. unfold _get_size_from_row. cbn [PyStr.is_empty orb]. rewrite Hw, Hh. reflexivity. Qed.

Lemma generic_unknown_size : generic None = [].
Proof.
  unfold coord_issues. cbn [PyStr.is_empty orb].
  rewrite bool_decide_eq_false_2 by discriminate.
  change (split_dots "coordinates") with ["coordinates"]. cbn [resolve].
  rewrite (vget_lookup _ _ _ Hc).
  destruct (mapM as_number _); reflexivity.
Qed.

Lemma generic_not_numeric :
  mapM as_number [vget "x0" c; vget "y0" c; vget "x1" c; vget "y1" c] = None ->
  generic (Some (w, h)) = [].
Proof.
  intros Hn. unfold coord_issues. cbn [PyStr.is_empty orb].
  rewrite bool_decide_eq_false_2 by discriminate.
  change (split_dots "coordinates") with ["coordinates"]. cbn [resolve].
  rewrite (vget_lookup _ _ _ Hc). cbn [map]. rewrite Hn. reflexivity.
Qed.

Lemma generic_numeric (x0 y0 x1 y1 : pyfloat) :
  as_number (vget "x0" c) = Some x0 -> as_number (vget "y0" c) = Some y0 ->
  as_number (vget "x1" c) = Some x1 -> as_number (vget "y1" c) = Some y1 ->
  map code (generic (Some (w, h)))
  = if negative x0 || exceeds x0 w || (negative y0 || exceeds y0 h)
       || (negative x1 || exceeds x1 w) || (negative y1 || exceeds y1 h)
    then ["W301_COORD_OUT_OF_BOUNDS"] else [].
Proof.
  intros H0 H1 H2 H3. unfold coord_issues. cbn [PyStr.is_empty orb].
  rewrite bool_decide_eq_false_2 by discriminate.
  change (split_dots "coordinates") with ["coordinates"]. cbn [resolve].
  rewrite (vget_lookup _ _ _ Hc). cbn [map mapM]. rewrite H0, H1, H2, H3.
  cbn [mbind option_bind mret option_ret zip zip_with existsb fst snd].
  unfold out_of_bounds.
  change (ends_with_any "x0" ["x"; "x0"; "x1"; "cx"]) with true.
  change (ends_with_any "x0" ["y"; "y0"; "y1"; "cy"]) with false.
  change (ends_with_any "y0" ["x"; "x0"; "x1"; "cx"]) with false.
  change (ends_with_any "y0" ["y"; "y0"; "y1"; "cy"]) with true.
  change (ends_with_any "x1" ["x"; "x0"; "x1"; "cx"]) with true.
  change (ends_with_any "x1" ["y"; "y0"; "y1"; "cy"]) with false.
  change (ends_with_any "y1" ["x"; "x0"; "x1"; "cx"]) with false.
  change (ends_with_any "y1" ["y"; "y0"; "y1"; "cy"]) with true.
  cbn [andb orb]. rewrite !orb_false_r.
  fold (negative x0) (negative y0) (negative x1) (negative y1).
  fold (exceeds x0 w) (exceeds y0 h) (exceeds x1 w) (exceeds y1 h).
  rewrite !orb_assoc.
  destruct (_ || _); reflexivity.
Qed.

End Generic.

(** X24: the generic bounds rule of [check_dataset_on_disk], run on the columns
    of the stricter check. It takes the size from the width and height
    columns; it reports nothing when the size is unknown or when one of the
    four coordinates is not a number; and whenever the stricter check
    reports a negative or out-of-bounds box, it reports the box too, under
    [W301_COORD_OUT_OF_BOUNDS]. *)
Theorem generic_rule_covers_strict {row_builtins : PyValueBuiltins}
    (row c : list (string * value)) (w h : Z) (image_cols : list string)
    (row_no : nat) (sid : string) :
  as_int (vget "image_w" row) = Some w ->
  as_int (vget "image_h" row) = Some h ->
  vget "coordinates" row = VDict c ->
  let generic := coord_issues "coordinates" ["x0"; "y0"; "x1"; "y1"] row_no sid row in
  _get_size_from_row row image_cols (Some "image_w") (Some "image_h") = Some (w, h)
  /\ generic None = []
  /\ (mapM as_number [vget "x0" c; vget "y0" c; vget "x1" c; vget "y1" c] = None ->
      generic (Some (w, h)) = [])
  /\ (forall i sid' x0 y0 x1 y1,
        as_number (vget "x0" c) = Some x0 -> as_number (vget "y0" c) = Some y0 ->
        as_number (vget "x1" c) = Some x1 -> as_number (vget "y1" c) = Some y1 ->
        DatasetChecks.coordinates_check "image_w" "image_h" "coordinates" xyxy i sid' row
        <> [] ->
        map code (generic (Some (w, h))) = ["W301_COORD_OUT_OF_BOUNDS"]).
Proof.
  intros Hw Hh Hc generic. split; [apply explicit_size; assumption|].
  split; [apply (generic_unknown_size row c); assumption|].
  split; [apply (generic_not_numeric row c); assumption|].
  intros i sid' x0 y0 x1 y1 H0 H1 H2 H3 Hstrict. subst generic.
  rewrite (generic_numeric row c w h row_no sid Hc x0 y0 x1 y1 H0 H1 H2 H3).
  pose proof (coordinates_check_numeric "image_w" "image_h" "coordinates"
                "x0" "y0" "x1" "y1" i sid' row c w h Hw Hh Hc x0 y0 x1 y1 H0 H1 H2 H3)
    as Hcodes.
  change ("x0", "y0", "x1", "y1") with xyxy in Hcodes.
  destruct (DatasetChecks.coordinates_check "image_w" "image_h" "coordinates" xyxy i sid' row)
    as [|issue issues]; [contradiction|].
  destruct (negative x0), (negative y0), (negative x1), (negative y1),
    (exceeds x1 w), (exceeds y1 h); cbn [orb] in *; try reflexivity;
    rewrite ?orb_true_r; try reflexivity; discriminate Hcodes.
Qed.

Lemma generic_rule_covers_strict_witness :
  map code
    (coord_issues (row_builtins := RefBuiltins.row_builtins)
       "coordinates" ["x0"; "y0"; "x1"; "y1"] 1 "r"
       (box_row 512 512 (VInt 50) (VInt 80) (VInt 900) (VInt 950)) (Some (512, 512)))
  = ["W301_COORD_OUT_OF_BOUNDS"].
Proof.
  exact (proj2 (proj2 (proj2
           (generic_rule_covers_strict (row_builtins := RefBuiltins.row_builtins)
              (box_row 512 512 (VInt 50) (VInt 80) (VInt 900) (VInt 950))
              [("x0", VInt 50); ("y0", VInt 80); ("x1", VInt 900); ("y1", VInt 950)]
              512 512 [] 1 "r" eq_refl eq_refl eq_refl)))
           0%nat "row_0" (Num.of_int 50) (Num.of_int 80) (Num.of_int 900) (Num.of_int 950)
           eq_refl eq_refl eq_refl eq_refl ltac:(discriminate)).
Defined.

(* ===================================================================== *)
(** * Paths into a row *)
(* ===================================================================== *)

Lemma split_from_app (cur p q : string) :
  split_from cur (p +:+ "." +:+ q) = split_from cur p ++ split_from "" q.
Proof.
  revert cur. induction p as [|c p IH]; intros cur.
  - reflexivity.
  - rewrite sapp_cons. cbn [split_from]. destruct (PyStr.byte_of c =? 46)%N.
    + rewrite IH. reflexivity.
    + apply IH.
Qed.

Lemma split_from_dot_free (cur k : string) :
  dot_free k = true -> split_from cur k = [String.rev (String.rev k +:+ cur)].
Proof.
  revert cur. induction k as [|c k IH]; intros cur Hk.
  - reflexivity.
  - cbn [dot_free] in Hk. apply andb_true_iff in Hk as [Hc Hk].
    apply negb_true_iff in Hc. cbn [split_from]. rewrite Hc, IH by exact Hk.
    rewrite rev_cons, sapp_assoc. reflexivity.
Qed.

Lemma split_dots_dot_free (k : string) : dot_free k = true -> split_dots k = [k].
Proof.
  intros Hk. unfold split_dots. rewrite split_from_dot_free by exact Hk.
  rewrite sapp_nil_r, rev_involutive. reflexivity.
Qed.

Lemma split_from_not_nil (cur s : string) : split_from cur s <> [].
Proof.
  revert cur. induction s as [|c s IH]; intros cur; cbn [split_from]; [discriminate|].
  destruct (PyStr.byte_of c =? 46)%N; [discriminate|apply IH].
Qed.

Lemma walk_path_none (keys : list string) :
  keys <> [] -> DatasetChecks.walk_path VNone keys = VNone.
Proof. destruct keys; [contradiction|reflexivity]. Qed.

Lemma walk_path_app (cur : value) (ks1 ks2 : list string) :
  ks2 <> [] ->
  DatasetChecks.walk_path cur (ks1 ++ ks2)
  = DatasetChecks.walk_path (DatasetChecks.walk_path cur ks1) ks2.
Proof.
  intros Hne. revert cur. induction ks1 as [|k ks1 IH]; intros cur; [reflexivity|].
  cbn [app DatasetChecks.walk_path].
  destruct cur; try (symmetry; apply walk_path_none, Hne).
  destruct (Dict.lookup k fields); [apply IH|symmetry; apply walk_path_none, Hne].
Qed.

Lemma get_by_path_app (obj : value) (p q : string) :
  DatasetChecks._get_by_path obj (p +:+ "." +:+ q)
  = DatasetChecks._get_by_path (DatasetChecks._get_by_path obj p) q.
Proof.
  unfold DatasetChecks._get_by_path, split_dots. rewrite split_from_app.
  apply walk_path_app, split_from_not_nil.
Qed.

Lemma get_by_path_key (obj : value) (k : string) :
  dot_free k = true -> DatasetChecks._get_by_path obj k = child k obj.
Proof.
  intros Hk. unfold DatasetChecks._get_by_path. rewrite split_dots_dot_free by exact Hk.
  cbn [DatasetChecks.walk_path]. unfold child, vget.
  destruct obj; reflexivity.
Qed.

(** X25: paths compose. Reading a dotted path is reading its first part and
    then, from the value found, the rest; reading a key without a dot is
    one lookup, and a value that is not a mapping or lacks the key reads
    as [None]. *)
Theorem get_by_path_composes :
  (forall obj p q,
     DatasetChecks._get_by_path obj (p +:+ "." +:+ q)
     = DatasetChecks._get_by_path (DatasetChecks._get_by_path obj p) q)
  /\ (forall obj k,
        dot_free k = true ->
        DatasetChecks._get_by_path obj k
        = match obj with VDict d => default VNone (Dict.lookup k d) | _ => VNone end).
Proof.
  split; [exact get_by_path_app|].
  intros obj k Hk. rewrite get_by_path_key by exact Hk. reflexivity.
Qed.

(* ===================================================================== *)
(** * The declared leaves *)
(* ===================================================================== *)

Section Leaves.
Variables (i : nat) (sid : string) (row : list (string * value)).





End Leaves.



(* ===================================================================== *)
(** * The row limit *)
(* ===================================================================== *)

Section RowLimit.
Context {row_builtins : PyValueBuiltins}.
Variables (id_field : string) (forbid_none_paths : list string)
          (check_all_nested_leaf_nones : bool)
          (image_w_field image_h_field coordinates_prefix : string)
          (coordinates_fields : string * string * string * string)
          (split_name : string) (features : list (string * feature)).

Local Abbreviation lint_with max_rows rows :=
  (DatasetChecks.lint_split id_field forbid_none_paths check_all_nested_leaf_nones
     image_w_field image_h_field coordinates_prefix coordinates_fields max_rows
     split_name features rows).

Lemma lint_row_index (leaf_paths : list string) (i : nat) (row : list (string * value)) :
  Forall (fun issue => DatasetChecks.d_row issue = i)
    (DatasetChecks.lint_row id_field image_w_field image_h_field coordinates_prefix
       coordinates_fields split_name leaf_paths (i, row)).
Proof.
  unfold DatasetChecks.lint_row. apply Forall_app. split.
  - unfold DatasetChecks.none_filled. induction leaf_paths as [|p ps IH]; [constructor|].
    cbn [omap list_omap]. destruct (is_none _); [constructor; [reflexivity|]|]; exact IH.
  - unfold DatasetChecks.coordinates_check.
    destruct coordinates_fields as [[[f0 f1] f2] f3].
    repeat match goal with
           | |- context [if ?b then _ else _] => destruct b
           | |- context [match ?x with _ => _ end] => destruct x
           end; repeat constructor.
Qed.

Lemma lint_rows_index (leaf_paths : list string) (start : nat)
    (rows : list (list (string * value))) :
  Forall (fun issue => (start <= DatasetChecks.d_row issue < start + length rows)%nat)
    (concat (map (DatasetChecks.lint_row id_field image_w_field image_h_field
                    coordinates_prefix coordinates_fields split_name leaf_paths)
               (enumerate start rows))).
Proof.
  revert start. induction rows as [|row rows IH]; intros start; [constructor|].
  cbn [enumerate map concat length]. apply Forall_app. split.
  - eapply Forall_impl; [apply lint_row_index|]. intros issue ->. lia.
  - eapply Forall_impl; [apply IH|]. intros issue H. cbn beta in H. lia.
Qed.

Lemma lint_split_limit (m : nat) (rows : list (list (string * value))) :
  lint_with (Some m) rows = lint_with None (take m rows)
  /\ Forall (fun issue => (DatasetChecks.d_row issue < Nat.min m (length rows))%nat)
       (lint_with (Some m) rows).
Proof.
  unfold DatasetChecks.lint_split. rewrite firstn_all.
  replace (take (Nat.min (length rows) m) rows) with (take m rows).
  - split; [reflexivity|].
    eapply Forall_impl; [apply lint_rows_index|]. intros issue H. cbn beta in H.
    rewrite length_take in H. lia.
  - destruct (Nat.le_ge_cases m (length rows)) as [H|H].
    + rewrite Nat.min_r by exact H. reflexivity.
    + rewrite Nat.min_l by exact H. rewrite !take_ge by lia. reflexivity.
Qed.

End RowLimit.

(** X27: the row limit. With [max_rows = m] a split is checked as its first [m]
    rows are checked without a limit, and every issue names a row, counted
    from zero, below both [m] and the number of rows. *)
Theorem max_rows_truncates {row_builtins : PyValueBuiltins}
    (id_field : string) (forbid_none_paths : list string)
    (check_all_nested_leaf_nones : bool)
    (image_w_field image_h_field coordinates_prefix : string)
    (coordinates_fields : string * string * string * string)
    (split_name : string) (features : list (string * feature))
    (m : nat) (rows : list (list (string * value))) :
  DatasetChecks.lint_split id_field forbid_none_paths check_all_nested_leaf_nones
    image_w_field image_h_field coordinates_prefix coordinates_fields (Some m)
    split_name features rows
  = DatasetChecks.lint_split id_field forbid_none_paths check_all_nested_leaf_nones
      image_w_field image_h_field coordinates_prefix coordinates_fields None
      split_name features (take m rows)
  /\ Forall (fun issue => (DatasetChecks.d_row issue < Nat.min m (length rows))%nat)
       (DatasetChecks.lint_split id_field forbid_none_paths check_all_nested_leaf_nones
          image_w_field image_h_field coordinates_prefix coordinates_fields (Some m)
          split_name features rows).
Proof. apply lint_split_limit. Qed.
